(** * ThickLine: a thick line between two picked points

    Shallow embedding of [ThickLine.cpp]: the settings file codec
    ([saveSettingsIni], [loadSettingsIni]), the 2D vector helpers, the
    parameter derivation [extractParams], the validator [validateParams] and
    the command handler [ThickLineCommandEventHandler::notify] that draws the
    shapes.

    A C++ [double] is an IEEE 754 binary64 number, here a primitive [float];
    a [std::string] is a [string].  What the host application supplies (the
    command inputs, the selections, the active sketch, the settings file) is
    modelled by plain records that the functions read and extend. *)

From Stdlib Require Import ZArith List String Ascii Bool Floats Permutation.
Import ListNotations.
Set Warnings "-inexact-float".

Local Open Scope string_scope.
Local Open Scope float_scope.
Local Open Scope bool_scope.

(** ** Small numeric thresholds used everywhere *)

Definition kEpsCoincident : float := 1e-12.
Definition kEpsSketchLen : float := 1e-9.

(** ** Settings record *)

Module Settings.

Record ThickLineSettings := mk {
  width_cm : float;
  featAType : string;
  leadA_cm : float;
  featAL_cm : float;
  featAW_cm : float;
  featBType : string;
  leadB_cm : float;
  featBL_cm : float;
  featBW_cm : float
}.

(** [ThickLineSettings s;] : the default member initialisers. *)
Definition defaults : ThickLineSettings :=
  mk 0.2 "None" 0 0.5 0.5 "None" 0 0.5 0.5.

(** Field assignments [s.f = v]. *)
Definition set_width_cm (v : float) (s : ThickLineSettings) :=
  mk v (featAType s) (leadA_cm s) (featAL_cm s) (featAW_cm s)
     (featBType s) (leadB_cm s) (featBL_cm s) (featBW_cm s).
Definition set_featAType (v : string) (s : ThickLineSettings) :=
  mk (width_cm s) v (leadA_cm s) (featAL_cm s) (featAW_cm s)
     (featBType s) (leadB_cm s) (featBL_cm s) (featBW_cm s).
Definition set_leadA_cm (v : float) (s : ThickLineSettings) :=
  mk (width_cm s) (featAType s) v (featAL_cm s) (featAW_cm s)
     (featBType s) (leadB_cm s) (featBL_cm s) (featBW_cm s).
Definition set_featAL_cm (v : float) (s : ThickLineSettings) :=
  mk (width_cm s) (featAType s) (leadA_cm s) v (featAW_cm s)
     (featBType s) (leadB_cm s) (featBL_cm s) (featBW_cm s).
Definition set_featAW_cm (v : float) (s : ThickLineSettings) :=
  mk (width_cm s) (featAType s) (leadA_cm s) (featAL_cm s) v
     (featBType s) (leadB_cm s) (featBL_cm s) (featBW_cm s).
Definition set_featBType (v : string) (s : ThickLineSettings) :=
  mk (width_cm s) (featAType s) (leadA_cm s) (featAL_cm s) (featAW_cm s)
     v (leadB_cm s) (featBL_cm s) (featBW_cm s).
Definition set_leadB_cm (v : float) (s : ThickLineSettings) :=
  mk (width_cm s) (featAType s) (leadA_cm s) (featAL_cm s) (featAW_cm s)
     (featBType s) v (featBL_cm s) (featBW_cm s).
Definition set_featBL_cm (v : float) (s : ThickLineSettings) :=
  mk (width_cm s) (featAType s) (leadA_cm s) (featAL_cm s) (featAW_cm s)
     (featBType s) (leadB_cm s) v (featBW_cm s).
Definition set_featBW_cm (v : float) (s : ThickLineSettings) :=
  mk (width_cm s) (featAType s) (leadA_cm s) (featAL_cm s) (featAW_cm s)
     (featBType s) (leadB_cm s) (featBL_cm s) v.

End Settings.

Abbreviation ThickLineSettings := Settings.ThickLineSettings.

(** ** The settings file

    [settings.ini] as the two stream constructors see it: [contents] is the
    text an [std::ifstream] reads ([None] when the file is absent or cannot be
    read), [can_write] tells whether an [std::ofstream] opens on it. *)

Record SettingsFile := mkSettingsFile {
  can_write : bool;
  contents : option string
}.

(** ** Strings and lines *)

Definition newline : ascii := "010"%char.
Definition endl : string := String newline EmptyString.

(** [s.find(c)]; [None] is [std::string::npos]. *)
Fixpoint find (c : ascii) (s : string) : option nat :=
  match s with
  | EmptyString => None
  | String d r =>
      if Ascii.eqb d c then Some O
      else match find c r with
           | Some n => Some (S n)
           | None => None
           end
  end.

(** [s.substr(pos, n)] and [s.substr(pos)], for [pos] within the string. *)
Definition substr (pos n : nat) (s : string) : string := substring pos n s.

Fixpoint substr_from (pos : nat) (s : string) : string :=
  match pos, s with
  | O, _ => s
  | S p, String _ r => substr_from p r
  | S _, EmptyString => EmptyString
  end.

(** The lines that successive [std::getline(f, line)] calls return until the
    stream fails: the text is cut at each newline, and a last piece without
    a newline counts as a line unless it is empty. *)
Fixpoint getlines (text : string) : list string :=
  match text with
  | EmptyString => []
  | String c r =>
      if Ascii.eqb c newline then EmptyString :: getlines r
      else match getlines r with
           | [] => [String c EmptyString]
           | l :: ls => String c l :: ls
           end
  end.

(** ** 2D vectors in sketch space *)

Record V2 := mkV2 { x : float; y : float }.

Definition v2 (a b : float) : V2 := mkV2 a b.
Definition vadd (a b : V2) : V2 := v2 (x a + x b) (y a + y b).
Definition vsub (a b : V2) : V2 := v2 (x a - x b) (y a - y b).
Definition vscale (a : V2) (s : float) : V2 := v2 (x a * s) (y a * s).
Definition vlen (a : V2) : float := sqrt (x a * x a + y a * y a).
Definition vdot (a b : V2) : float := x a * x b + y a * y b.
Definition vperp_ccw (a : V2) : V2 := v2 (- y a) (x a).

(** ** Host objects *)

Record Point3D := mkPoint3D { px : float; py : float; pz : float }.

Definition P2 (s : V2) : Point3D := mkPoint3D (x s) (y s) 0.

(** A selected entity, by the casts [worldPointFromEntity] tries. *)
Inductive Base :=
| SketchPoint (worldGeometry : Point3D)
| ConstructionPoint (geometry : Point3D)
| BRepVertex (geometry : Point3D)
| OtherEntity.

Record Sketch := mkSketch {
  modelToSketchSpace : Point3D -> Point3D
}.

(** What the command handler adds to the sketch: the host's three-point
    rectangle (four lines) or a single line, each with its [isFixed] flag. *)
Inductive SketchCurve :=
| ThreePointRectangle (p0 p1 p3 : Point3D) (isFixed : bool)
| Line (a b : Point3D) (isFixed : bool).

(** The command inputs, already cast to their types; [None] is a null
    pointer.  A drop-down holds its selected item's name, a selection input
    the entities selected. *)
Record CommandInputs := mkCommandInputs {
  widthIn : option float;
  leadAIn : option float;
  leadBIn : option float;
  ddA : option (option string);
  ddB : option (option string);
  featAWIn : option float;
  featALIn : option float;
  featBWIn : option float;
  featBLIn : option float;
  selA : option (list (option Base));
  selB : option (list (option Base))
}.

Record Host := mkHost {
  activeEditObject : option Sketch;
  settingsPath : string
}.

Definition worldPointFromEntity (ent : option Base) : option Point3D :=
  match ent with
  | None => None
  | Some (SketchPoint g) => Some g
  | Some (ConstructionPoint g) => Some g
  | Some (BRepVertex g) => Some g
  | Some OtherEntity => None
  end.

Definition getActiveSketch (host : Host) : option Sketch := activeEditObject host.

(** ** Parameter bundle *)

Record ThickLineParams := mkThickLineParams {
  sketch : option Sketch;
  A : V2;
  B : V2;
  widthCm : float;
  leadACm : float;
  leadBCm : float;
  featAType : string;
  featAWCm : float;
  featALCm : float;
  featBType : string;
  featBWCm : float;
  featBLCm : float;
  L : float;
  Ldir : V2;
  Wdir : V2;
  Aext : V2;
  Bext : V2;
  Abase : V2;
  Bbase : V2
}.

(** Field assignments [P.f = v]. *)
Definition set_sketch (v : option Sketch) (P : ThickLineParams) : ThickLineParams :=
  mkThickLineParams v (A P) (B P) (widthCm P) (leadACm P) (leadBCm P)
    (featAType P) (featAWCm P) (featALCm P) (featBType P) (featBWCm P)
    (featBLCm P) (L P) (Ldir P) (Wdir P) (Aext P) (Bext P) (Abase P)
    (Bbase P).
Definition set_A (v : V2) (P : ThickLineParams) : ThickLineParams :=
  mkThickLineParams (sketch P) v (B P) (widthCm P) (leadACm P) (leadBCm P)
    (featAType P) (featAWCm P) (featALCm P) (featBType P) (featBWCm P)
    (featBLCm P) (L P) (Ldir P) (Wdir P) (Aext P) (Bext P) (Abase P)
    (Bbase P).
Definition set_B (v : V2) (P : ThickLineParams) : ThickLineParams :=
  mkThickLineParams (sketch P) (A P) v (widthCm P) (leadACm P) (leadBCm P)
    (featAType P) (featAWCm P) (featALCm P) (featBType P) (featBWCm P)
    (featBLCm P) (L P) (Ldir P) (Wdir P) (Aext P) (Bext P) (Abase P)
    (Bbase P).
Definition set_widthCm (v : float) (P : ThickLineParams) : ThickLineParams :=
  mkThickLineParams (sketch P) (A P) (B P) v (leadACm P) (leadBCm P)
    (featAType P) (featAWCm P) (featALCm P) (featBType P) (featBWCm P)
    (featBLCm P) (L P) (Ldir P) (Wdir P) (Aext P) (Bext P) (Abase P)
    (Bbase P).
Definition set_leadACm (v : float) (P : ThickLineParams) : ThickLineParams :=
  mkThickLineParams (sketch P) (A P) (B P) (widthCm P) v (leadBCm P)
    (featAType P) (featAWCm P) (featALCm P) (featBType P) (featBWCm P)
    (featBLCm P) (L P) (Ldir P) (Wdir P) (Aext P) (Bext P) (Abase P)
    (Bbase P).
Definition set_leadBCm (v : float) (P : ThickLineParams) : ThickLineParams :=
  mkThickLineParams (sketch P) (A P) (B P) (widthCm P) (leadACm P) v
    (featAType P) (featAWCm P) (featALCm P) (featBType P) (featBWCm P)
    (featBLCm P) (L P) (Ldir P) (Wdir P) (Aext P) (Bext P) (Abase P)
    (Bbase P).
Definition set_featAType (v : string) (P : ThickLineParams) : ThickLineParams :=
  mkThickLineParams (sketch P) (A P) (B P) (widthCm P) (leadACm P)
    (leadBCm P) v (featAWCm P) (featALCm P) (featBType P) (featBWCm P)
    (featBLCm P) (L P) (Ldir P) (Wdir P) (Aext P) (Bext P) (Abase P)
    (Bbase P).
Definition set_featAWCm (v : float) (P : ThickLineParams) : ThickLineParams :=
  mkThickLineParams (sketch P) (A P) (B P) (widthCm P) (leadACm P)
    (leadBCm P) (featAType P) v (featALCm P) (featBType P) (featBWCm P)
    (featBLCm P) (L P) (Ldir P) (Wdir P) (Aext P) (Bext P) (Abase P)
    (Bbase P).
Definition set_featALCm (v : float) (P : ThickLineParams) : ThickLineParams :=
  mkThickLineParams (sketch P) (A P) (B P) (widthCm P) (leadACm P)
    (leadBCm P) (featAType P) (featAWCm P) v (featBType P) (featBWCm P)
    (featBLCm P) (L P) (Ldir P) (Wdir P) (Aext P) (Bext P) (Abase P)
    (Bbase P).
Definition set_featBType (v : string) (P : ThickLineParams) : ThickLineParams :=
  mkThickLineParams (sketch P) (A P) (B P) (widthCm P) (leadACm P)
    (leadBCm P) (featAType P) (featAWCm P) (featALCm P) v (featBWCm P)
    (featBLCm P) (L P) (Ldir P) (Wdir P) (Aext P) (Bext P) (Abase P)
    (Bbase P).
Definition set_featBWCm (v : float) (P : ThickLineParams) : ThickLineParams :=
  mkThickLineParams (sketch P) (A P) (B P) (widthCm P) (leadACm P)
    (leadBCm P) (featAType P) (featAWCm P) (featALCm P) (featBType P) v
    (featBLCm P) (L P) (Ldir P) (Wdir P) (Aext P) (Bext P) (Abase P)
    (Bbase P).
Definition set_featBLCm (v : float) (P : ThickLineParams) : ThickLineParams :=
  mkThickLineParams (sketch P) (A P) (B P) (widthCm P) (leadACm P)
    (leadBCm P) (featAType P) (featAWCm P) (featALCm P) (featBType P)
    (featBWCm P) v (L P) (Ldir P) (Wdir P) (Aext P) (Bext P) (Abase P)
    (Bbase P).
Definition set_L (v : float) (P : ThickLineParams) : ThickLineParams :=
  mkThickLineParams (sketch P) (A P) (B P) (widthCm P) (leadACm P)
    (leadBCm P) (featAType P) (featAWCm P) (featALCm P) (featBType P)
    (featBWCm P) (featBLCm P) v (Ldir P) (Wdir P) (Aext P) (Bext P) (Abase P)
    (Bbase P).
Definition set_Ldir (v : V2) (P : ThickLineParams) : ThickLineParams :=
  mkThickLineParams (sketch P) (A P) (B P) (widthCm P) (leadACm P)
    (leadBCm P) (featAType P) (featAWCm P) (featALCm P) (featBType P)
    (featBWCm P) (featBLCm P) (L P) v (Wdir P) (Aext P) (Bext P) (Abase P)
    (Bbase P).
Definition set_Wdir (v : V2) (P : ThickLineParams) : ThickLineParams :=
  mkThickLineParams (sketch P) (A P) (B P) (widthCm P) (leadACm P)
    (leadBCm P) (featAType P) (featAWCm P) (featALCm P) (featBType P)
    (featBWCm P) (featBLCm P) (L P) (Ldir P) v (Aext P) (Bext P) (Abase P)
    (Bbase P).
Definition set_Aext (v : V2) (P : ThickLineParams) : ThickLineParams :=
  mkThickLineParams (sketch P) (A P) (B P) (widthCm P) (leadACm P)
    (leadBCm P) (featAType P) (featAWCm P) (featALCm P) (featBType P)
    (featBWCm P) (featBLCm P) (L P) (Ldir P) (Wdir P) v (Bext P) (Abase P)
    (Bbase P).
Definition set_Bext (v : V2) (P : ThickLineParams) : ThickLineParams :=
  mkThickLineParams (sketch P) (A P) (B P) (widthCm P) (leadACm P)
    (leadBCm P) (featAType P) (featAWCm P) (featALCm P) (featBType P)
    (featBWCm P) (featBLCm P) (L P) (Ldir P) (Wdir P) (Aext P) v (Abase P)
    (Bbase P).
Definition set_Abase (v : V2) (P : ThickLineParams) : ThickLineParams :=
  mkThickLineParams (sketch P) (A P) (B P) (widthCm P) (leadACm P)
    (leadBCm P) (featAType P) (featAWCm P) (featALCm P) (featBType P)
    (featBWCm P) (featBLCm P) (L P) (Ldir P) (Wdir P) (Aext P) (Bext P) v
    (Bbase P).
Definition set_Bbase (v : V2) (P : ThickLineParams) : ThickLineParams :=
  mkThickLineParams (sketch P) (A P) (B P) (widthCm P) (leadACm P)
    (leadBCm P) (featAType P) (featAWCm P) (featALCm P) (featBType P)
    (featBWCm P) (featBLCm P) (L P) (Ldir P) (Wdir P) (Aext P) (Bext P)
    (Abase P) v.

(** [ThickLineParams P;] : the default member initialisers. *)
Definition ThickLineParams_init : ThickLineParams :=
  mkThickLineParams None (v2 0 0) (v2 0 0) 0 0 0 "None" 0 0 "None" 0 0
    0 (v2 0 0) (v2 0 0) (v2 0 0) (v2 0 0) (v2 0 0) (v2 0 0).

Definition value_or_zero (i : option float) : float :=
  match i with Some v => v | None => 0 end.

Definition selected_name (dd : option (option string)) : string :=
  match dd with
  | Some (Some name) => name
  | _ => "None"
  end.

Definition neqb (a b : string) : bool := negb (String.eqb a b).

(** ** Extract parameters from the command inputs

    [P] and [err] are passed by reference in the source: the function returns
    its verdict together with the record and the message as it leaves them. *)
Definition extractParams (host : Host) (inputs : CommandInputs)
    (P : ThickLineParams) (err : string) : bool * ThickLineParams * string :=
  let P := set_sketch (getActiveSketch host) P in
  match sketch P with
  | None => (false, P, "Please edit a sketch before running this command.")
  | Some sk =>
  let P := set_widthCm (value_or_zero (widthIn inputs)) P in
  let P := set_leadACm (value_or_zero (leadAIn inputs)) P in
  let P := set_leadBCm (value_or_zero (leadBIn inputs)) P in
  let P := set_featAType (selected_name (ddA inputs)) P in
  let P := set_featBType (selected_name (ddB inputs)) P in
  let P := set_featAWCm
    (if neqb (featAType P) "None" then value_or_zero (featAWIn inputs) else 0) P in
  let P := set_featALCm
    (if neqb (featAType P) "None" then value_or_zero (featALIn inputs) else 0) P in
  let P := set_featBWCm
    (if neqb (featBType P) "None" then value_or_zero (featBWIn inputs) else 0) P in
  let P := set_featBLCm
    (if neqb (featBType P) "None" then value_or_zero (featBLIn inputs) else 0) P in
  match selA inputs with
  | None | Some [] => (false, P, "Select point or entity for A.")
  | Some (entA :: _) =>
  match selB inputs with
  | None | Some [] => (false, P, "Select point or entity for B.")
  | Some (entB :: _) =>
  match worldPointFromEntity entA, worldPointFromEntity entB with
  | None, _ =>
      (false, P, "Could not read geometry for selection A. Please select a SketchPoint, ConstructionPoint, or Vertex.")
  | Some _, None =>
      (false, P, "Could not read geometry for selection B. Please select a SketchPoint, ConstructionPoint, or Vertex.")
  | Some pA3, Some pB3 =>
  let sA := modelToSketchSpace sk pA3 in
  let sB := modelToSketchSpace sk pB3 in
  let P := set_A (v2 (px sA) (py sA)) P in
  let P := set_B (v2 (px sB) (py sB)) P in
  let diff := vsub (B P) (A P) in
  let P := set_L (vlen diff) P in
  if L P <=? kEpsCoincident then
    (false, P, "Points A and B are coincident or too close together.")
  else
  let P := set_Ldir (vscale diff (1 / L P)) P in
  let P := set_Wdir (vperp_ccw (Ldir P)) P in
  let P := set_Aext (vadd (A P) (vscale (Ldir P) (- leadACm P))) P in
  let P := set_Bext (vadd (B P) (vscale (Ldir P) (leadBCm P))) P in
  let P := set_Abase (vadd (Aext P) (vscale (Ldir P) (featALCm P))) P in
  let P := set_Bbase (vadd (Bext P) (vscale (Ldir P) (- featBLCm P))) P in
  (true, P, err)
  end end end end.

(** ** Validate parameters for geometric consistency

    Each [if (...) { err = msg; return false; }] of the source is a step that
    either returns with its message or falls through to the next one. *)

Definition ret_false (msg : string) : option string := Some msg.
Definition fall_through : option string := None.

Definition and_then (c1 c2 : option string) : option string :=
  match c1 with
  | Some msg => Some msg
  | None => c2
  end.

Notation "c1 ;; c2" := (and_then c1 c2) (at level 61, right associativity).

Definition validateParams (P : ThickLineParams) (err : string) : bool * string :=
  let outcome :=
    (if widthCm P <=? 0 then
       ret_false "Width of line must be > 0."
     else fall_through) ;;
    (if L P <=? kEpsCoincident then
       ret_false "Points A and B are coincident or too close together."
     else fall_through) ;;
    (if neqb (featAType P) "None" then
       (if featAWCm P <? widthCm P then
          ret_false "Feature A width must be >= line width."
        else fall_through) ;;
       (if featALCm P <=? 0 then
          ret_false "Feature A length must be > 0."
        else fall_through)
     else fall_through) ;;
    (if neqb (featBType P) "None" then
       (if featBWCm P <? widthCm P then
          ret_false "Feature B width must be >= line width."
        else fall_through) ;;
       (if featBLCm P <=? 0 then
          ret_false "Feature B length must be > 0."
        else fall_through)
     else fall_through) ;;
    (let seg := vsub (Bbase P) (Abase P) in
     let segLenSigned := vdot seg (Ldir P) in
     if segLenSigned <=? kEpsSketchLen then
       ret_false "Leads and/or feature lengths consume the segment. Reduce leads/features or move A and B further apart."
     else fall_through)
  in
  match outcome with
  | Some msg => (false, msg)
  | None => (true, err)
  end.

(** ** Drawing helpers *)

(** [drawThreePointRect(sk, p0, p1, p3)], on a non-null sketch whose curves
    are [curves]. *)
Definition drawThreePointRect (curves : list SketchCurve) (p0 p1 p3 : V2)
  : list SketchCurve :=
  (curves ++ [ThreePointRectangle (P2 p0) (P2 p1) (P2 p3) true])%list.

(** [drawTriangle(sk, a, b, c)]: three lines by two points, then fixed. *)
Definition drawTriangle (curves : list SketchCurve) (a b c : V2)
  : list SketchCurve :=
  (curves ++ [Line (P2 a) (P2 b) true; Line (P2 b) (P2 c) true;
             Line (P2 c) (P2 a) true])%list.

Section Program.

(** The two conversions of the C++ standard library that the settings codec
    calls: [f << d] for a [double], which appends [put_double d] to the
    stream, and [std::stod], with [None] when it throws. *)
Variable put_double : float -> string.
Variable stod : string -> option float.

(** ** Save settings to INI file *)

Definition settingsText (s : ThickLineSettings) : string :=
  ("width_cm=" ++ put_double (Settings.width_cm s) ++ endl ++
   "featAType=" ++ Settings.featAType s ++ endl ++
   "leadA_cm=" ++ put_double (Settings.leadA_cm s) ++ endl ++
   "featAL_cm=" ++ put_double (Settings.featAL_cm s) ++ endl ++
   "featAW_cm=" ++ put_double (Settings.featAW_cm s) ++ endl ++
   "featBType=" ++ Settings.featBType s ++ endl ++
   "leadB_cm=" ++ put_double (Settings.leadB_cm s) ++ endl ++
   "featBL_cm=" ++ put_double (Settings.featBL_cm s) ++ endl ++
   "featBW_cm=" ++ put_double (Settings.featBW_cm s) ++ endl)%string.

Definition saveSettingsIni (file : SettingsFile) (s : ThickLineSettings)
  : bool * SettingsFile :=
  if can_write file then
    (true, mkSettingsFile (can_write file) (Some (settingsText s)))
  else (false, file).

(** ** Load settings from INI file *)

(** The body of the [while (std::getline(f, line))] loop. *)
Definition loadLine (s : ThickLineSettings) (line : string) : ThickLineSettings :=
  match find "="%char line with
  | None => s
  | Some pos =>
      let key := substr 0 pos line in
      let value := substr_from (pos + 1) line in
      if (key =? "featAType")%string then Settings.set_featAType value s
      else if (key =? "featBType")%string then Settings.set_featBType value s
      else
        match stod value with
        | None => s
        | Some v =>
            if (key =? "width_cm")%string then Settings.set_width_cm v s
            else if (key =? "leadA_cm")%string then Settings.set_leadA_cm v s
            else if (key =? "leadB_cm")%string then Settings.set_leadB_cm v s
            else if (key =? "featAL_cm")%string then Settings.set_featAL_cm v s
            else if (key =? "featAW_cm")%string then Settings.set_featAW_cm v s
            else if (key =? "featBL_cm")%string then Settings.set_featBL_cm v s
            else if (key =? "featBW_cm")%string then Settings.set_featBW_cm v s
            else s
        end
  end.

Definition loadSettingsIni (file : SettingsFile) : ThickLineSettings :=
  let s := Settings.defaults in
  match contents file with
  | None => s
  | Some text => fold_left loadLine (getlines text) s
  end.

(** ** The command handler

    [ThickLineCommandEventHandler::notify] for a non-null command with
    inputs: what it leaves in the sketch, in the settings file and in the
    log. *)

Record Outcome := mkOutcome {
  curves : list SketchCurve;
  settingsFile : SettingsFile;
  logged : list string
}.

Definition notify (host : Host) (inputs : CommandInputs)
    (sketchCurves : list SketchCurve) (file : SettingsFile) : Outcome :=
  let P := ThickLineParams_init in
  let err := EmptyString in
  let '(okE, P, err) := extractParams host inputs P err in
  let '(ok, err) := if okE then validateParams P err else (false, err) in
  if negb ok then
    mkOutcome sketchCurves file
      [("[ThickLine] Command failed: " ++ err ++ endl)%string]
  else
    let sk := sketchCurves in
    let wHalf := vscale (Wdir P) (widthCm P * 0.5) in
    let seg := vsub (Bbase P) (Abase P) in
    let Aplus := vadd (Abase P) wHalf in
    let Aminus := vsub (Abase P) wHalf in
    let Bplus := vadd (Bbase P) wHalf in
    let Bminus := vsub (Bbase P) wHalf in
    let sk := drawThreePointRect sk Aplus Bplus Aminus in
    let sk :=
      if (featAType P =? "Arrow")%string then
        let aSide := vscale (Wdir P) (featAWCm P * 0.5) in
        let baseL := vadd (Abase P) aSide in
        let baseR := vadd (Abase P) (vscale aSide (-1)) in
        drawTriangle sk baseL (Aext P) baseR
      else if (featAType P =? "T")%string then
        let aSide := vscale (Wdir P) (featAWCm P * 0.5) in
        let aL0 := vadd (Abase P) aSide in
        let aR0 := vadd (Abase P) (vscale aSide (-1)) in
        let aL1 := vadd aL0 (vscale (Ldir P) (- featALCm P)) in
        let aR1 := vadd aR0 (vscale (Ldir P) (- featALCm P)) in
        drawThreePointRect sk aL0 aL1 aR0
      else sk in
    let sk :=
      if (featBType P =? "Arrow")%string then
        let bSide := vscale (Wdir P) (featBWCm P * 0.5) in
        let baseL := vadd (Bbase P) bSide in
        let baseR := vadd (Bbase P) (vscale bSide (-1)) in
        drawTriangle sk baseL (Bext P) baseR
      else if (featBType P =? "T")%string then
        let bSide := vscale (Wdir P) (featBWCm P * 0.5) in
        let bL0 := vadd (Bbase P) bSide in
        let bR0 := vadd (Bbase P) (vscale bSide (-1)) in
        let bL1 := vadd bL0 (vscale (Ldir P) (featBLCm P)) in
        let bR1 := vadd bR0 (vscale (Ldir P) (featBLCm P)) in
        drawThreePointRect sk bL0 bL1 bR0
      else sk in
    let S := Settings.defaults in
    let S := Settings.set_width_cm (widthCm P) S in
    let S := Settings.set_leadA_cm (leadACm P) S in
    let S := Settings.set_featAType (featAType P) S in
    let S := Settings.set_featAL_cm (featALCm P) S in
    let S := Settings.set_featAW_cm (featAWCm P) S in
    let S := Settings.set_leadB_cm (leadBCm P) S in
    let S := Settings.set_featBType (featBType P) S in
    let S := Settings.set_featBL_cm (featBLCm P) S in
    let S := Settings.set_featBW_cm (featBWCm P) S in
    let file := snd (saveSettingsIni file S) in
    mkOutcome sk file
      [("[ThickLine] Settings saved to: " ++ settingsPath host)%string].

End Program.

(** ** The standard library's number conversions

    [operator<<] on a stream left at its defaults prints a [double] the way
    [printf("%g")] does: six significant digits, trailing zeros dropped,
    exponent notation when the decimal exponent is below -4 or at least 6.
    [std::stod] reads the longest prefix that is a number (after leading
    white space) and rounds it to the nearest [double]; it throws when
    there is no number or when the value is out of range.  Both are computed
    here on the exact value of the [double].  A [double] here has one NaN,
    written "nan": the sign that a stream shows for a NaN is not part of
    it.  Whether a value below the normal range is a range error is left to
    the implementation by the C standard; here it is one when the value is
    not a [double] itself. *)

Module Cxx.

Local Open Scope Z_scope.

Definition digit (d : Z) : ascii := ascii_of_nat (48 + Z.to_nat d).

(** The [k] low decimal digits of [n], most significant first, before [acc]. *)
Fixpoint digits (k : nat) (n : Z) (acc : string) : string :=
  match k with
  | O => acc
  | S k' => digits k' (n / 10) (String (digit (n mod 10)) acc)
  end.

Definition is_empty (s : string) : bool :=
  match s with EmptyString => true | _ => false end.

Fixpoint strip_zeros (s : string) : string :=
  match s with
  | EmptyString => EmptyString
  | String c r =>
      let r' := strip_zeros r in
      if Ascii.eqb c "0" && is_empty r' then EmptyString else String c r'
  end.

Fixpoint zeros (n : nat) : string :=
  match n with
  | O => EmptyString
  | S n' => String "0" (zeros n')
  end.

(** [10^k <= num/den] *)
Definition ge_pow10 (num den k : Z) : bool :=
  if 0 <=? k then den * 10 ^ k <=? num else den <=? num * 10 ^ (- k).

(** The decimal exponent [X] of [num/den]: [10^X <= num/den < 10^(X+1)],
    searched from an estimate by the binary logarithms. *)
Fixpoint adjust_exp10 (fuel : nat) (num den X : Z) : Z :=
  match fuel with
  | O => X
  | S f =>
      if negb (ge_pow10 num den X) then adjust_exp10 f num den (X - 1)
      else if ge_pow10 num den (X + 1) then adjust_exp10 f num den (X + 1)
      else X
  end.

Definition exp10 (num den : Z) : Z :=
  adjust_exp10 4 num den (((Z.log2 num - Z.log2 den) * 1233) / 4096).

Definition round_half_even (n d : Z) : Z :=
  let q := n / d in
  match 2 * (n mod d) ?= d with
  | Lt => q
  | Gt => q + 1
  | Eq => if Z.even q then q else q + 1
  end.

(** [num/den * 10^k], rounded to an integer. *)
Definition scale10 (num den k : Z) : Z :=
  if 0 <=? k then round_half_even (num * 10 ^ k) den
  else round_half_even num (den * 10 ^ (- k)).

Definition with_point (int frac : string) : string :=
  if is_empty frac then int else (int ++ "." ++ frac)%string.

(** [%g] with precision 6 for the positive number [num/den]. *)
Definition format_g (num den : Z) : string :=
  let X0 := exp10 num den in
  let D0 := scale10 num den (5 - X0) in
  let '(D, X) := if D0 =? 1000000 then (100000, X0 + 1) else (D0, X0) in
  let ds := digits 6 D EmptyString in
  if (X <? -4) || (6 <=? X) then
    let sign := if X <? 0 then "-" else "+" in
    let width := if Z.abs X <? 100 then 2%nat else 3%nat in
    (with_point (substr 0 1 ds) (strip_zeros (substr_from 1 ds)) ++
     "e" ++ sign ++ digits width (Z.abs X) EmptyString)%string
  else if 0 <=? X then
    let n := Z.to_nat (X + 1) in
    with_point (substr 0 n ds) (strip_zeros (substr_from n ds))
  else
    ("0." ++ zeros (Z.to_nat (- X - 1)) ++ strip_zeros ds)%string.

Definition put_double (d : float) : string :=
  match Prim2SF d with
  | S754_nan => "nan"
  | S754_infinity s => if s then "-inf" else "inf"
  | S754_zero s => if s then "-0" else "0"
  | S754_finite s m e =>
      let sign := if s then "-" else "" in
      let text := if 0 <=? e then format_g (Zpos m * 2 ^ e) 1
                  else format_g (Zpos m) (2 ^ (- e)) in
      (sign ++ text)%string
  end.

(** *** [std::stod] *)

Definition isspace (c : ascii) : bool :=
  let n := nat_of_ascii c in
  ((9 <=? n) && (n <=? 13) || (n =? 32))%nat.

Fixpoint skip_space (s : string) : string :=
  match s with
  | String c r => if isspace c then skip_space r else s
  | EmptyString => s
  end.

Definition digit_val (c : ascii) : option Z :=
  let n := nat_of_ascii c in
  if ((48 <=? n) && (n <=? 57))%nat then Some (Z.of_nat n - 48) else None.

Definition hex_val (c : ascii) : option Z :=
  let n := nat_of_ascii c in
  if ((48 <=? n) && (n <=? 57))%nat then Some (Z.of_nat n - 48)
  else if ((65 <=? n) && (n <=? 70))%nat then Some (Z.of_nat n - 55)
  else if ((97 <=? n) && (n <=? 102))%nat then Some (Z.of_nat n - 87)
  else None.

(** Reads a run of digits in base [base]: the value accumulated onto [acc],
    how many digits were read, and the rest of the text. *)
Fixpoint read_digits (val : ascii -> option Z) (base : Z) (s : string)
    (acc cnt : Z) : Z * Z * string :=
  match s with
  | String c r =>
      match val c with
      | Some d => read_digits val base r (acc * base + d) (cnt + 1)
      | None => (acc, cnt, s)
      end
  | EmptyString => (acc, cnt, s)
  end.

(** Digits with an optional point: the digits as one integer, the number of
    digits after the point, the rest; [None] without any digit. *)
Definition read_mantissa (val : ascii -> option Z) (base : Z) (s : string)
  : option (Z * Z * string) :=
  let '(n1, c1, r1) := read_digits val base s 0 0 in
  match r1 with
  | String "." r2 =>
      let '(n2, c2, r3) := read_digits val base r2 n1 0 in
      if c1 + c2 =? 0 then None else Some (n2, c2, r3)
  | _ => if c1 =? 0 then None else Some (n1, 0, r1)
  end.

(** An exponent part introduced by [mark] (either case); 0 when there is
    none or when no digit follows. *)
Definition read_exponent (mark : ascii) (s : string) : Z :=
  match s with
  | String c r =>
      if Ascii.eqb c mark || Ascii.eqb c (ascii_of_nat (nat_of_ascii mark - 32)) then
        let '(neg, r') :=
          match r with
          | String "-" r' => (true, r')
          | String "+" r' => (false, r')
          | _ => (false, r)
          end in
        let '(n, cnt, _) := read_digits digit_val 10 r' 0 0 in
        if cnt =? 0 then 0 else if neg then - n else n
      else 0
  | EmptyString => 0
  end.

(** The binary64 number nearest to [num/den] (ties to even), from a quotient
    with more than 53 bits and the position of the remainder. *)
Definition round_ratio (neg : bool) (num den : Z) : spec_float :=
  let sh := 1100 + Z.log2 den in
  let n := num * 2 ^ sh in
  let r := n mod den in
  let loc := if r =? 0 then loc_Exact else loc_Inexact (2 * r ?= den) in
  binary_round_aux prec emax neg (n / den) (- sh) loc.

(** [m * 2^ex] is [num/den]. *)
Definition is_ratio (m : positive) (ex num den : Z) : bool :=
  if 0 <=? ex then Z.pos m * 2 ^ ex * den =? num
  else Z.pos m * den =? num * 2 ^ (- ex).

(** [n * base^e] as a [double]; [None] is the range error: overflow, or a
    nonzero value below the normal range that no [double] represents (a
    subnormal number written exactly is read). *)
Definition to_double (neg : bool) (n base e : Z) : option float :=
  if n =? 0 then Some (SF2Prim (S754_zero neg))
  else
    let mag := ((Z.log2 n + e * Z.log2 (base ^ 16) / 16) * 1233) / 4096 in
    if (mag <? -400) || (400 <? mag) then None
    else
      let num := if 0 <=? e then n * base ^ e else n in
      let den := if 0 <=? e then 1 else base ^ (- e) in
      let sf := round_ratio neg num den in
      match sf with
      | S754_finite _ m ex =>
          if (Z.pos (digits2_pos m) <? prec) && negb (is_ratio m ex num den)
          then None
          else Some (SF2Prim sf)
      | _ => None
      end.

Definition lower (c : ascii) : ascii :=
  let n := nat_of_ascii c in
  if ((65 <=? n) && (n <=? 90))%nat then ascii_of_nat (n + 32) else c.

Fixpoint lower_string (s : string) : string :=
  match s with
  | String c r => String (lower c) (lower_string r)
  | EmptyString => EmptyString
  end.

Definition read_number (neg : bool) (s : string) : option float :=
  let l := lower_string s in
  if prefix "inf" l then Some (SF2Prim (S754_infinity neg))
  else if prefix "nan" l then Some (SF2Prim S754_nan)
  else
    let hex :=
      if prefix "0x" l then
        match read_mantissa hex_val 16 (substr_from 2 s) with
        | Some (n, c, r) => Some (to_double neg n 2 (read_exponent "p" r - 4 * c))
        | None => None
        end
      else None in
    match hex with
    | Some res => res
    | None =>
        match read_mantissa digit_val 10 s with
        | Some (n, c, r) => to_double neg n 10 (read_exponent "e" r - c)
        | None => None
        end
    end.

Definition stod (s : string) : option float :=
  match skip_space s with
  | String "-" r => read_number true r
  | String "+" r => read_number false r
  | r => read_number false r
  end.

End Cxx.

(** ** Notions the properties are stated with *)

(** The sketch-space point a selection input supplies: the first selected
    entity's world point, taken to sketch space. *)
Definition picked (sk : Sketch) (sel : option (list (option Base))) : option V2 :=
  match sel with
  | Some (ent :: _) =>
      match worldPointFromEntity ent with
      | Some p => let s := modelToSketchSpace sk p in Some (v2 (px s) (py s))
      | None => None
      end
  | _ => None
  end.

(** A [double] other than NaN. *)
Definition is_number (a : float) : bool := negb (is_nan a).

(** The signed length of the main segment that the validator tests. *)
Definition segLenSigned (P : ThickLineParams) : float :=
  vdot (vsub (Bbase P) (Abase P)) (Ldir P).

(** The validator's checks as the specification lists them: what must hold,
    and the reason given otherwise. *)
Definition width_ok (P : ThickLineParams) : bool := 0 <? widthCm P.
Definition length_ok (P : ThickLineParams) : bool := kEpsCoincident <? L P.
Definition featAW_ok (P : ThickLineParams) : bool :=
  if (featAType P =? "None")%string then true else widthCm P <=? featAWCm P.
Definition featAL_ok (P : ThickLineParams) : bool :=
  if (featAType P =? "None")%string then true else 0 <? featALCm P.
Definition featBW_ok (P : ThickLineParams) : bool :=
  if (featBType P =? "None")%string then true else widthCm P <=? featBWCm P.
Definition featBL_ok (P : ThickLineParams) : bool :=
  if (featBType P =? "None")%string then true else 0 <? featBLCm P.
Definition segment_ok (P : ThickLineParams) : bool :=
  kEpsSketchLen <? segLenSigned P.

Definition msg_width : string := "Width of line must be > 0.".
Definition msg_coincident : string :=
  "Points A and B are coincident or too close together.".
Definition msg_featAW : string := "Feature A width must be >= line width.".
Definition msg_featAL : string := "Feature A length must be > 0.".
Definition msg_featBW : string := "Feature B width must be >= line width.".
Definition msg_featBL : string := "Feature B length must be > 0.".
Definition msg_segment : string :=
  "Leads and/or feature lengths consume the segment. Reduce leads/features or move A and B further apart.".

Definition checks_in_order : list ((ThickLineParams -> bool) * string) :=
  [ (width_ok, msg_width);
    (length_ok, msg_coincident);
    (featAW_ok, msg_featAW);
    (featAL_ok, msg_featAL);
    (featBW_ok, msg_featBW);
    (featBL_ok, msg_featBL);
    (segment_ok, msg_segment) ].

(** The reason of the first check that does not hold, if any. *)
Fixpoint first_failure (checks : list ((ThickLineParams -> bool) * string))
    (P : ThickLineParams) : option string :=
  match checks with
  | [] => None
  | (ok, msg) :: rest => if ok P then first_failure rest P else Some msg
  end.

(** The quantities the validator compares are numbers.  (A NaN makes each
    comparison of the source false, so it passes every test.) *)
Definition comparable (P : ThickLineParams) : bool :=
  is_number (widthCm P) && is_number (L P) &&
  (if (featAType P =? "None")%string then true
   else is_number (featAWCm P) && is_number (featALCm P)) &&
  (if (featBType P =? "None")%string then true
   else is_number (featBWCm P) && is_number (featBLCm P)) &&
  is_number (segLenSigned P).

(** The corner points of the rectangle that the host's three-point rectangle
    call creates; the call itself belongs to the host application.  The first
    two points are one side; the command handler always passes a third point
    that lies across from the first, so the fourth corner completes the
    parallelogram.  The corners are listed in drawing order. *)
Definition rectangle_corners (c : SketchCurve) : list V2 :=
  match c with
  | ThreePointRectangle p0 p1 p3 _ =>
      let a := v2 (px p0) (py p0) in
      let b := v2 (px p1) (py p1) in
      let d := v2 (px p3) (py p3) in
      [a; b; vadd b (vsub d a); d]
  | Line _ _ _ => []
  end.

(** Twice the signed area of the triangle [o a b]. *)
Definition cross (o a b : V2) : float :=
  (x a - x o) * (y b - y o) - (y a - y o) * (x b - x o).

(** [c] and [d] lie strictly on the same side of the line through [a], [b]. *)
Definition same_side (a b c d : V2) : bool :=
  0 <? cross a b c * cross a b d.

(** A quadrilateral given by its corners in order does not cross itself when
    neither pair of opposite sides meets.  Two segments can only meet when
    each has its end points on both sides of, or on, the other's line; so
    two sides do not meet when the end points of one lie strictly on the same
    side of the other's line. *)
Definition non_self_intersecting (q : list V2) : bool :=
  match q with
  | [a; b; c; d] =>
      (same_side a b c d || same_side c d a b) &&
      (same_side b c d a || same_side d a b c)
  | _ => false
  end.

(** The text of a file with the given lines. *)
Fixpoint unlines (ls : list string) : string :=
  match ls with
  | [] => EmptyString
  | l :: rest => (l ++ endl ++ unlines rest)%string
  end.

(** No line break in a string. *)
Definition one_line (s : string) : bool :=
  match find newline s with None => true | Some _ => false end.

(** A host with a sketch whose space is the model space, and the command
    inputs of a dialog filled with the given values and two picked sketch
    points. *)
Definition plain_host : Host :=
  mkHost (Some (mkSketch (fun p => p))) "settings.ini".

Definition pick (p : V2) : option (list (option Base)) :=
  Some [Some (SketchPoint (mkPoint3D (x p) (y p) 0))].

Definition dialog (a b : V2) (width leadA leadB : float)
    (typeA : string) (wA lA : option float)
    (typeB : string) (wB lB : option float) : CommandInputs :=
  mkCommandInputs (Some width) (Some leadA) (Some leadB)
    (Some (Some typeA)) (Some (Some typeB)) wA lA wB lB (pick a) (pick b).

(** The record that [extractParams] leaves for two picked points, a width,
    no leads and the given features; [sample] is the one for the points
    (0,0) and (10,0) and width 2. *)
Definition derived (a b : V2) (width : float) (typeA : string) (wA lA : float)
    (typeB : string) (wB lB : float) : ThickLineParams :=
  snd (fst (extractParams plain_host
    (dialog a b width 0 0 typeA (Some wA) (Some lA) typeB (Some wB) (Some lB))
    ThickLineParams_init EmptyString)).

Definition sample : string -> float -> float -> string -> float -> float
    -> ThickLineParams :=
  derived (v2 0 0) (v2 10 0) 2.

(** The parts of a settings line around its first separator. *)
Definition key_of (line : string) : option string :=
  match find "="%char line with
  | Some pos => Some (substr 0 pos line)
  | None => None
  end.

Definition value_of (line : string) : option string :=
  match find "="%char line with
  | Some pos => Some (substr_from (pos + 1) line)
  | None => None
  end.

Definition type_keys : list string := ["featAType"; "featBType"].

Definition numeric_keys : list string :=
  ["width_cm"; "leadA_cm"; "leadB_cm"; "featAL_cm"; "featAW_cm";
   "featBL_cm"; "featBW_cm"].

(** The variant set of the two feature types. *)
Definition feature_types : list string := ["None"; "Arrow"; "T"].

(** A number that the stream writes as one line of text which reads back
    as the same number. *)
Definition reads_back (put_double : float -> string)
    (stod : string -> option float) (v : float) : Prop :=
  one_line (put_double v) = true /\ stod (put_double v) = Some v.

(** The quantities of the derivation written out on coordinates, in
    binary64 arithmetic: the distance of two points, the quarter turn
    counter-clockwise [(x, y) -> (-y, x)], and a point moved along a
    direction by a length. *)
Definition distance (pa pb : V2) : float :=
  let dx := x pb - x pa in
  let dy := y pb - y pa in
  sqrt (dx * dx + dy * dy).

Definition quarter_turn (d : V2) : V2 := mkV2 (- y d) (x d).

Definition plus_along (p d : V2) (s : float) : V2 :=
  mkV2 (x p + x d * s) (y p + y d * s).

Definition minus_along (p d : V2) (s : float) : V2 :=
  mkV2 (x p - x d * s) (y p - y d * s).

(** The derived fields for picked points [pa] and [pb], step by step;
    [unit d l] is the component of the unit direction for the coordinate
    difference [d] and the length [l].  A feature length input counts only
    for an active end. *)
Definition derived_with (unit : float -> float -> float)
    (inputs : CommandInputs) (pa pb : V2) (P : ThickLineParams) : Prop :=
  A P = pa /\ B P = pb /\
  L P = distance pa pb /\
  Ldir P = mkV2 (unit (x pb - x pa) (L P)) (unit (y pb - y pa) (L P)) /\
  Wdir P = quarter_turn (Ldir P) /\
  Aext P = minus_along pa (Ldir P) (leadACm P) /\
  Bext P = plus_along pb (Ldir P) (leadBCm P) /\
  Abase P = plus_along (Aext P) (Ldir P) (featALCm P) /\
  Bbase P = minus_along (Bext P) (Ldir P) (featBLCm P) /\
  widthCm P = value_or_zero (widthIn inputs) /\
  leadACm P = value_or_zero (leadAIn inputs) /\
  leadBCm P = value_or_zero (leadBIn inputs) /\
  featAType P = selected_name (ddA inputs) /\
  featBType P = selected_name (ddB inputs) /\
  featALCm P = (if (featAType P =? "None")%string then 0
                else value_or_zero (featALIn inputs)) /\
  featBLCm P = (if (featBType P =? "None")%string then 0
                else value_or_zero (featBLIn inputs)).

(** The derivation in the specification's words: the direction is the
    quotient [(B - A) / L]. *)
Definition derived_as_specified : CommandInputs -> V2 -> V2 ->
    ThickLineParams -> Prop :=
  derived_with (fun d l => d / l).

(** The derivation with the direction as the product of the difference with
    the reciprocal of the length, [(B - A) * (1 / L)]. *)
Definition derived_by_reciprocal : CommandInputs -> V2 -> V2 ->
    ThickLineParams -> Prop :=
  derived_with (fun d l => d * (1 / l)).

(** The derived vectors and points of [P] are those of [P0]. *)
Definition derived_untouched (P0 P : ThickLineParams) : Prop :=
  Ldir P = Ldir P0 /\ Wdir P = Wdir P0 /\
  Aext P = Aext P0 /\ Bext P = Bext P0 /\
  Abase P = Abase P0 /\ Bbase P = Bbase P0.

(** The record as [extractParams] has filled it when it reaches the distance
    test: inputs read, feature sizes zeroed for an inactive end, points and
    distance stored, the derived vectors and points as they were. *)
Definition at_distance_test (inputs : CommandInputs) (sk : Sketch)
    (pa pb : V2) (P0 : ThickLineParams) : ThickLineParams :=
  let tA := selected_name (ddA inputs) in
  let tB := selected_name (ddB inputs) in
  mkThickLineParams (Some sk) pa pb
    (value_or_zero (widthIn inputs))
    (value_or_zero (leadAIn inputs)) (value_or_zero (leadBIn inputs))
    tA
    (if neqb tA "None" then value_or_zero (featAWIn inputs) else 0)
    (if neqb tA "None" then value_or_zero (featALIn inputs) else 0)
    tB
    (if neqb tB "None" then value_or_zero (featBWIn inputs) else 0)
    (if neqb tB "None" then value_or_zero (featBLIn inputs) else 0)
    (vlen (vsub pb pa))
    (Ldir P0) (Wdir P0) (Aext P0) (Bext P0) (Abase P0) (Bbase P0).

(** ** The dialog

    The command inputs as the handlers see them after a cast: the state
    they read and write, under the names of the host's accessors.  [None]
    is again a null pointer. *)

Module ValueCommandInput.

Record t := mk {
  name : string;
  unitType : string;
  value : float;
  minimumValue : option float;
  isEnabled : bool
}.

Definition set_minimumValue (v : float) (i : t) : t :=
  mk (name i) (unitType i) (value i) (Some v) (isEnabled i).

Definition set_isEnabled (b : bool) (i : t) : t :=
  mk (name i) (unitType i) (value i) (minimumValue i) b.

End ValueCommandInput.

Module ListItem.

Record t := mk {
  name : string;
  isSelected : bool
}.

End ListItem.

Module DropDownCommandInput.

Record t := mk {
  name : string;
  listItems : list ListItem.t
}.

(** [listItems()->add(name, isSelected)] *)
Definition add (n : string) (sel : bool) (dd : t) : t :=
  mk (name dd) (listItems dd ++ [ListItem.mk n sel])%list.

Fixpoint selected_from (idx : nat) (items : list ListItem.t)
  : option (nat * string) :=
  match items with
  | [] => None
  | i :: rest =>
      if ListItem.isSelected i then Some (idx, ListItem.name i)
      else selected_from (S idx) rest
  end.

(** [selectedItem()], as its index and name: the first item whose
    [isSelected] is set, and [None] when no item is selected. *)
Definition selectedItem (dd : t) : option (nat * string) :=
  selected_from 0 (listItems dd).

End DropDownCommandInput.

Module SelectionCommandInput.

Record t := mk {
  name : string;
  prompt : string;
  selectionFilters : list string;
  selectionLimits : option (nat * nat);
  selection : list (option Base);
  hasFocus : bool
}.

Definition addSelectionFilter (f : string) (s : t) : t :=
  mk (name s) (prompt s) (selectionFilters s ++ [f])%list (selectionLimits s)
    (selection s) (hasFocus s).

Definition setSelectionLimits (lo hi : nat) (s : t) : t :=
  mk (name s) (prompt s) (selectionFilters s) (Some (lo, hi)) (selection s)
    (hasFocus s).

Definition set_hasFocus (b : bool) (s : t) : t :=
  mk (name s) (prompt s) (selectionFilters s) (selectionLimits s)
    (selection s) b.

Definition selectionCount (s : t) : nat := List.length (selection s).

End SelectionCommandInput.

Module TextBoxCommandInput.

Record t := mk {
  name : string;
  formattedText : string;
  numRows : nat;
  isReadOnly : bool;
  isFullWidth : bool;
  isVisible : bool
}.

Definition set_formattedText (v : string) (b : t) : t :=
  mk (name b) v (numRows b) (isReadOnly b) (isFullWidth b) (isVisible b).

Definition set_isFullWidth (v : bool) (b : t) : t :=
  mk (name b) (formattedText b) (numRows b) (isReadOnly b) v (isVisible b).

Definition set_isVisible (v : bool) (b : t) : t :=
  mk (name b) (formattedText b) (numRows b) (isReadOnly b) (isFullWidth b) v.

End TextBoxCommandInput.

Module ImageCommandInput.

Record t := mk {
  name : string;
  imageFile : string;
  isFullWidth : bool
}.

Definition set_isFullWidth (v : bool) (i : t) : t :=
  mk (name i) (imageFile i) v.

End ImageCommandInput.

Module GroupCommandInput.

Record t := mk {
  name : string;
  isExpanded : bool
}.

Definition set_isExpanded (v : bool) (g : t) : t := mk (name g) v.

End GroupCommandInput.

(** ** Helper: manage error message box state *)

Record ErrState := mkErrState {
  lastValid : bool;
  lastMsg : string
}.

(** The static [g_ErrState] as the program starts. *)
Definition g_ErrState_init : ErrState := mkErrState true "".

(** [syncErrorBox(inputs, valid, msg)]: [errBox] is the item [kErrorBox]
    after its cast, [g] the global [g_ErrState]; both are returned as the
    call leaves them. *)
Definition syncErrorBox (errBox : option TextBoxCommandInput.t) (g : ErrState)
    (valid : bool) (msg : string)
  : option TextBoxCommandInput.t * ErrState :=
  match errBox with
  | None => (None, g)
  | Some errBox =>
      let visNow := TextBoxCommandInput.isVisible errBox in
      let visWant := negb valid in
      let errBox :=
        if negb (Bool.eqb visNow visWant) then
          TextBoxCommandInput.set_isVisible visWant errBox
        else errBox in
      let errBox :=
        if negb valid && neqb (lastMsg g) msg then
          let fullMsg := "<font color='#d32f2f'>Error: " ++ msg ++ "</font>" in
          TextBoxCommandInput.set_formattedText fullMsg errBox
        else errBox in
      (Some errBox, mkErrState valid msg)
  end.

(** ** Helper: add common selection filters for points *)

Definition addPointSelectionFilters (sel : SelectionCommandInput.t)
  : SelectionCommandInput.t :=
  let sel := SelectionCommandInput.addSelectionFilter "SketchPoints" sel in
  let sel := SelectionCommandInput.addSelectionFilter "ConstructionPoints" sel in
  let sel := SelectionCommandInput.addSelectionFilter "Vertices" sel in
  SelectionCommandInput.setSelectionLimits 0 1 sel.

(** ** Helper: enable/disable Feature Width/Length based on dropdown selection

    The three arguments are the items with the ids [ddId], [wId] and [lId]
    after their casts; the two value inputs are returned as the call leaves
    them. *)
Definition updateFeatureInputs (dd : option DropDownCommandInput.t)
    (w l : option ValueCommandInput.t)
  : option ValueCommandInput.t * option ValueCommandInput.t :=
  match dd, w, l with
  | Some dd, Some w, Some l =>
      let sel := DropDownCommandInput.selectedItem dd in
      let isNone :=
        match sel with
        | None => true
        | Some (index, _) => Nat.eqb index 0
        end in
      let w :=
        if Bool.eqb (ValueCommandInput.isEnabled w) isNone then
          ValueCommandInput.set_isEnabled (negb isNone) w
        else w in
      let l :=
        if Bool.eqb (ValueCommandInput.isEnabled l) isNone then
          ValueCommandInput.set_isEnabled (negb isNone) l
        else l in
      (Some w, Some l)
  | _, _, _ => (w, l)
  end.

(** ** The command's inputs

    The inputs that the command-created handler adds, under the names of its
    local variables, and the event handlers connected to the command.  The
    two separators carry no state.  Each input is what [itemById] finds
    for its id, from the command's inputs as from those of its group. *)

Definition kWidthId : string := "tl_width".
Definition kSelPointAId : string := "tl_selPointA".
Definition kFeatATypeId : string := "tl_featA_type".
Definition kFeatBTypeId : string := "tl_featB_type".

Inductive Handler :=
| InputChangedHandler
| ValidateInputsHandler
| CommandHandler.

Module Dialog.

Record t := mk {
  img : ImageCommandInput.t;
  widthInput : ValueCommandInput.t;
  grpA : GroupCommandInput.t;
  grpB : GroupCommandInput.t;
  selA : SelectionCommandInput.t;
  leadA : ValueCommandInput.t;
  ddA : DropDownCommandInput.t;
  aW : ValueCommandInput.t;
  aL : ValueCommandInput.t;
  selB : SelectionCommandInput.t;
  leadB : ValueCommandInput.t;
  ddB : DropDownCommandInput.t;
  bW : ValueCommandInput.t;
  bL : ValueCommandInput.t;
  errorBox : TextBoxCommandInput.t;
  handlers : list Handler
}.

Definition set_aW (v : ValueCommandInput.t) (d : t) : t :=
  mk (img d) (widthInput d) (grpA d) (grpB d) (selA d) (leadA d) (ddA d)
    v (aL d) (selB d) (leadB d) (ddB d) (bW d) (bL d) (errorBox d)
    (handlers d).

Definition set_aL (v : ValueCommandInput.t) (d : t) : t :=
  mk (img d) (widthInput d) (grpA d) (grpB d) (selA d) (leadA d) (ddA d)
    (aW d) v (selB d) (leadB d) (ddB d) (bW d) (bL d) (errorBox d)
    (handlers d).

Definition set_bW (v : ValueCommandInput.t) (d : t) : t :=
  mk (img d) (widthInput d) (grpA d) (grpB d) (selA d) (leadA d) (ddA d)
    (aW d) (aL d) (selB d) (leadB d) (ddB d) v (bL d) (errorBox d)
    (handlers d).

Definition set_bL (v : ValueCommandInput.t) (d : t) : t :=
  mk (img d) (widthInput d) (grpA d) (grpB d) (selA d) (leadA d) (ddA d)
    (aW d) (aL d) (selB d) (leadB d) (ddB d) (bW d) v (errorBox d)
    (handlers d).

Definition set_selB (v : SelectionCommandInput.t) (d : t) : t :=
  mk (img d) (widthInput d) (grpA d) (grpB d) (selA d) (leadA d) (ddA d)
    (aW d) (aL d) v (leadB d) (ddB d) (bW d) (bL d) (errorBox d)
    (handlers d).

Definition set_errorBox (v : TextBoxCommandInput.t) (d : t) : t :=
  mk (img d) (widthInput d) (grpA d) (grpB d) (selA d) (leadA d) (ddA d)
    (aW d) (aL d) (selB d) (leadB d) (ddB d) (bW d) (bL d) v
    (handlers d).

Definition add_handler (h : Handler) (d : t) : t :=
  mk (img d) (widthInput d) (grpA d) (grpB d) (selA d) (leadA d) (ddA d)
    (aW d) (aL d) (selB d) (leadB d) (ddB d) (bW d) (bL d) (errorBox d)
    (handlers d ++ [h])%list.

(** What [itemById] and the casts of [extractParams] find in the dialog. *)
Definition inputs (d : t) : CommandInputs :=
  let selected dd := option_map snd (DropDownCommandInput.selectedItem dd) in
  mkCommandInputs
    (Some (ValueCommandInput.value (widthInput d)))
    (Some (ValueCommandInput.value (leadA d)))
    (Some (ValueCommandInput.value (leadB d)))
    (Some (selected (ddA d)))
    (Some (selected (ddB d)))
    (Some (ValueCommandInput.value (aW d)))
    (Some (ValueCommandInput.value (aL d)))
    (Some (ValueCommandInput.value (bW d)))
    (Some (ValueCommandInput.value (bL d)))
    (Some (SelectionCommandInput.selection (selA d)))
    (Some (SelectionCommandInput.selection (selB d))).

End Dialog.

(** [updateFeatureInputs] on the inputs of end A and of end B. *)
Definition updateFeatureInputsA (d : Dialog.t) : Dialog.t :=
  match updateFeatureInputs (Some (Dialog.ddA d)) (Some (Dialog.aW d))
          (Some (Dialog.aL d)) with
  | (Some w, Some l) => Dialog.set_aL l (Dialog.set_aW w d)
  | _ => d
  end.

Definition updateFeatureInputsB (d : Dialog.t) : Dialog.t :=
  match updateFeatureInputs (Some (Dialog.ddB d)) (Some (Dialog.bW d))
          (Some (Dialog.bL d)) with
  | (Some w, Some l) => Dialog.set_bL l (Dialog.set_bW w d)
  | _ => d
  end.

(** ** The input-changed handler

    [ThickLineInputChangedEventHandler::notify] for the changed input's id,
    on a dialog with all its inputs. *)
Definition inputChanged_notify (changed : string) (d : Dialog.t) : Dialog.t :=
  let d :=
    if (changed =? kSelPointAId)%string then
      if Nat.eqb (SelectionCommandInput.selectionCount (Dialog.selA d)) 1 then
        Dialog.set_selB
          (SelectionCommandInput.set_hasFocus true (Dialog.selB d)) d
      else d
    else d in
  let d :=
    if (changed =? kFeatATypeId)%string then updateFeatureInputsA d else d in
  let d :=
    if (changed =? kFeatBTypeId)%string then updateFeatureInputsB d else d in
  if (changed =? kWidthId)%string then
    let widthVal := ValueCommandInput.value (Dialog.widthInput d) in
    let d :=
      Dialog.set_aW (ValueCommandInput.set_minimumValue widthVal (Dialog.aW d)) d in
    Dialog.set_bW (ValueCommandInput.set_minimumValue widthVal (Dialog.bW d)) d
  else d.

(** ** The validate-inputs handler

    [ThickLineValidateInputsEventHandler::notify] for non-null inputs: the
    error box and the cache as it leaves them, and the verdict it hands to
    [areInputsValid]. *)
Definition validateInputs_notify (host : Host) (inputs : CommandInputs)
    (errBox : option TextBoxCommandInput.t) (g : ErrState)
  : option TextBoxCommandInput.t * ErrState * bool :=
  let P := ThickLineParams_init in
  let err := EmptyString in
  let '(okE, P, err) := extractParams host inputs P err in
  let '(ok, err) := if okE then validateParams P err else (false, err) in
  let '(errBox, g) := syncErrorBox errBox g ok err in
  (errBox, g, ok).

(** ** The command-created handler

    [ThickLineCommandCreatedEventHandler::notify] for a non-null command
    with inputs.  For each of the three events of the command, [events]
    tells whether the event object exists and its [add] succeeds. *)

Record CommandEvents := mkCommandEvents {
  inputChanged : bool;
  validateInputs : bool;
  execute : bool
}.

Section Created.

Variable stod : string -> option float.

Definition addValueInput (name unitType : string) (v : float)
  : ValueCommandInput.t :=
  ValueCommandInput.mk name unitType v None true.

Definition addSelectionInput (name prompt : string) : SelectionCommandInput.t :=
  SelectionCommandInput.mk name prompt [] None [] false.

Definition commandCreated_notify (file : SettingsFile) (events : CommandEvents)
  : Dialog.t :=
  let S := loadSettingsIni stod file in
  let img := ImageCommandInput.mk "" "Resources/Graphic200.png" false in
  let img := ImageCommandInput.set_isFullWidth true img in
  let widthInput := addValueInput "Width" "mm" (Settings.width_cm S) in
  let widthInput := ValueCommandInput.set_minimumValue 0 widthInput in
  let grpA := GroupCommandInput.mk "Point A" true in
  let grpA := GroupCommandInput.set_isExpanded true grpA in
  let grpB := GroupCommandInput.mk "Point B" true in
  let grpB := GroupCommandInput.set_isExpanded true grpB in
  (* Point A block *)
  let selA := addSelectionInput "Select Point A" "Pick the start point (A)" in
  let selA := addPointSelectionFilters selA in
  let leadA := addValueInput "Lead A" "mm" (Settings.leadA_cm S) in
  let leadA := ValueCommandInput.set_minimumValue 0 leadA in
  let ddA := DropDownCommandInput.mk "Feature A Type" [] in
  let ddA := DropDownCommandInput.add "None" (Settings.featAType S =? "None")%string ddA in
  let ddA := DropDownCommandInput.add "Arrow" (Settings.featAType S =? "Arrow")%string ddA in
  let ddA := DropDownCommandInput.add "T" (Settings.featAType S =? "T")%string ddA in
  let aW := addValueInput "Feature A Width" "mm" (Settings.featAW_cm S) in
  let aL := addValueInput "Feature A Length" "mm" (Settings.featAL_cm S) in
  let aW := ValueCommandInput.set_minimumValue 0 aW in
  let aL := ValueCommandInput.set_minimumValue 0 aL in
  let aW := ValueCommandInput.set_isEnabled false aW in
  let aL := ValueCommandInput.set_isEnabled false aL in
  (* Point B block *)
  let selB := addSelectionInput "Select Point B" "Pick the end point (B)" in
  let selB := addPointSelectionFilters selB in
  let leadB := addValueInput "Lead B" "mm" (Settings.leadB_cm S) in
  let leadB := ValueCommandInput.set_minimumValue 0 leadB in
  let ddB := DropDownCommandInput.mk "Feature B Type" [] in
  let ddB := DropDownCommandInput.add "None" (Settings.featBType S =? "None")%string ddB in
  let ddB := DropDownCommandInput.add "Arrow" (Settings.featBType S =? "Arrow")%string ddB in
  let ddB := DropDownCommandInput.add "T" (Settings.featBType S =? "T")%string ddB in
  let bW := addValueInput "Feature B Width" "mm" (Settings.featBW_cm S) in
  let bL := addValueInput "Feature B Length" "mm" (Settings.featBL_cm S) in
  let bW := ValueCommandInput.set_minimumValue 0 bW in
  let bL := ValueCommandInput.set_minimumValue 0 bL in
  let bW := ValueCommandInput.set_isEnabled false bW in
  let bL := ValueCommandInput.set_isEnabled false bL in
  let errorBox := TextBoxCommandInput.mk "" "" 2 true false true in
  let errorBox := TextBoxCommandInput.set_isFullWidth true errorBox in
  let errorBox := TextBoxCommandInput.set_isVisible false errorBox in
  let d :=
    Dialog.mk img widthInput grpA grpB selA leadA ddA aW aL selB leadB ddB
      bW bL errorBox [] in
  (* Wire event handlers to the command. *)
  if negb (inputChanged events) then d
  else
  let d := Dialog.add_handler InputChangedHandler d in
  if negb (validateInputs events) then d
  else
  let d := Dialog.add_handler ValidateInputsHandler d in
  if negb (execute events) then d
  else
  let d := Dialog.add_handler CommandHandler d in
  (* Initial pass so defaults match the selected items when the dialog opens *)
  let d := updateFeatureInputsA d in
  updateFeatureInputsB d.

End Created.

(** ** Further notions the properties are stated with *)

(** The common first step of the validate-inputs and the command handler:
    [extractParams(inputs, P, err) && validateParams(P, err)] on a fresh
    record and an empty message. *)
Definition checked (host : Host) (inputs : CommandInputs)
  : bool * ThickLineParams * string :=
  let '(okE, P, err) := extractParams host inputs ThickLineParams_init "" in
  if okE then
    let '(ok, err) := validateParams P err in (ok, P, err)
  else (false, P, err).

Definition msg_no_sketch : string :=
  "Please edit a sketch before running this command.".
Definition msg_select_A : string := "Select point or entity for A.".
Definition msg_select_B : string := "Select point or entity for B.".
Definition msg_geometry_A : string :=
  "Could not read geometry for selection A. Please select a SketchPoint, ConstructionPoint, or Vertex.".
Definition msg_geometry_B : string :=
  "Could not read geometry for selection B. Please select a SketchPoint, ConstructionPoint, or Vertex.".

(** What [extractParams] needs of the host and the inputs, in the order in
    which it asks, each with the message given otherwise. *)
Definition has_sketch (hi : Host * CommandInputs) : bool :=
  match getActiveSketch (fst hi) with Some _ => true | None => false end.

Definition has_selection (sel : option (list (option Base))) : bool :=
  match sel with Some (_ :: _) => true | _ => false end.

Definition readable (sel : option (list (option Base))) : bool :=
  match sel with
  | Some (ent :: _) =>
      match worldPointFromEntity ent with Some _ => true | None => false end
  | _ => false
  end.

Definition apart (hi : Host * CommandInputs) : bool :=
  match getActiveSketch (fst hi) with
  | Some sk =>
      match picked sk (selA (snd hi)), picked sk (selB (snd hi)) with
      | Some pa, Some pb => negb (vlen (vsub pb pa) <=? kEpsCoincident)
      | _, _ => false
      end
  | None => false
  end.

Definition needs_in_order : list ((Host * CommandInputs -> bool) * string) :=
  [ (has_sketch, msg_no_sketch);
    ((fun hi => has_selection (selA (snd hi))), msg_select_A);
    ((fun hi => has_selection (selB (snd hi))), msg_select_B);
    ((fun hi => readable (selA (snd hi))), msg_geometry_A);
    ((fun hi => readable (selB (snd hi))), msg_geometry_B);
    (apart, msg_coincident) ].

(** The message of the first entry that does not hold, if any. *)
Fixpoint first_unmet {T : Type} (needs : list ((T -> bool) * string)) (t : T)
  : option string :=
  match needs with
  | [] => None
  | (ok, msg) :: rest => if ok t then first_unmet rest t else Some msg
  end.

(** The settings of a run of the command on the given inputs: the values of
    the dialog, with 0 for the feature sizes of an end of type "None". *)
Definition run_settings (inputs : CommandInputs) : ThickLineSettings :=
  let tA := selected_name (ddA inputs) in
  let tB := selected_name (ddB inputs) in
  Settings.mk (value_or_zero (widthIn inputs)) tA
    (value_or_zero (leadAIn inputs))
    (if neqb tA "None" then value_or_zero (featALIn inputs) else 0)
    (if neqb tA "None" then value_or_zero (featAWIn inputs) else 0)
    tB
    (value_or_zero (leadBIn inputs))
    (if neqb tB "None" then value_or_zero (featBLIn inputs) else 0)
    (if neqb tB "None" then value_or_zero (featBWIn inputs) else 0).

(** Every number of the record is written as one line of text that reads
    back as the same number, and the two types hold no line break. *)
Definition all_read_back (put_double : float -> string)
    (stod : string -> option float) (s : ThickLineSettings) : Prop :=
  reads_back put_double stod (Settings.width_cm s) /\
  reads_back put_double stod (Settings.leadA_cm s) /\
  reads_back put_double stod (Settings.featAL_cm s) /\
  reads_back put_double stod (Settings.featAW_cm s) /\
  reads_back put_double stod (Settings.leadB_cm s) /\
  reads_back put_double stod (Settings.featBL_cm s) /\
  reads_back put_double stod (Settings.featBW_cm s) /\
  one_line (Settings.featAType s) = true /\
  one_line (Settings.featBType s) = true.

(** The settings record that the command handler saves for [P]. *)
Definition settings_of (P : ThickLineParams) : ThickLineSettings :=
  Settings.mk (widthCm P) (featAType P) (leadACm P) (featALCm P) (featAWCm P)
    (featBType P) (leadBCm P) (featBLCm P) (featBWCm P).

(** The shapes of the command on coordinates, in binary64 arithmetic.
    [half d size] is the direction [d] scaled by half of [size]; [scaled d s]
    is [d] scaled by [s]; the points are [p + d], [p - d] and [p + d * (-1)]
    in the sketch plane. *)
Definition half (d : V2) (size : float) : V2 :=
  mkV2 (x d * (size * 0.5)) (y d * (size * 0.5)).

Definition scaled (d : V2) (s : float) : V2 := mkV2 (x d * s) (y d * s).

Definition point_of (p : V2) : Point3D := mkPoint3D (x p) (y p) 0.

Definition point_plus (p d : V2) : Point3D :=
  mkPoint3D (x p + x d) (y p + y d) 0.

Definition point_minus (p d : V2) : Point3D :=
  mkPoint3D (x p - x d) (y p - y d) 0.

Definition point_across (p d : V2) : Point3D :=
  mkPoint3D (x p + x d * -1) (y p + y d * -1) 0.

(** The rectangle of the line itself: a three-point rectangle on the base
    point of A moved to either side by half the width along [Wdir], and the
    base point of B moved to the first of these sides. *)
Definition main_rectangle (P : ThickLineParams) : SketchCurve :=
  let wHalf := half (Wdir P) (widthCm P) in
  ThreePointRectangle (point_plus (Abase P) wHalf)
    (point_plus (Bbase P) wHalf) (point_minus (Abase P) wHalf) true.

(** The shapes of one end with base point [base] and tip [tip]: for an
    arrow the three lines from the left base corner to the tip, from the
    tip to the right base corner and back to the left one, the corners
    being the base point moved by half the feature width along [Wdir] and
    against it; for a T the three-point rectangle on the left corner, the
    left corner moved by [along], and the right corner; nothing for any
    other type. *)
Definition feature_shapes (type : string) (base tip Wdir along : V2)
    (width : float) : list SketchCurve :=
  let side := half Wdir width in
  let left := point_plus base side in
  let right := point_across base side in
  if (type =? "Arrow")%string then
    [Line left (point_of tip) true; Line (point_of tip) right true;
     Line right left true]
  else if (type =? "T")%string then
    [ThreePointRectangle left
       (mkPoint3D (x base + x side + x along) (y base + y side + y along) 0)
       right true]
  else [].

(** A settings line that [loadSettingsIni] acts on: a feature type, or one
    of the seven numbers with a value that [stod] reads. *)
Definition takes_effect (stod : string -> option float) (line : string) : bool :=
  match key_of line, value_of line with
  | Some key, Some value =>
      if existsb (String.eqb key) type_keys then true
      else if existsb (String.eqb key) numeric_keys then
        match stod value with Some _ => true | None => false end
      else false
  | _, _ => false
  end.

(** Two records that agree on every setting, except perhaps the one that
    [key] names. *)
Definition agree_but (key : option string) (s s' : ThickLineSettings) : Prop :=
  (key <> Some "width_cm" -> Settings.width_cm s = Settings.width_cm s') /\
  (key <> Some "featAType" -> Settings.featAType s = Settings.featAType s') /\
  (key <> Some "leadA_cm" -> Settings.leadA_cm s = Settings.leadA_cm s') /\
  (key <> Some "featAL_cm" -> Settings.featAL_cm s = Settings.featAL_cm s') /\
  (key <> Some "featAW_cm" -> Settings.featAW_cm s = Settings.featAW_cm s') /\
  (key <> Some "featBType" -> Settings.featBType s = Settings.featBType s') /\
  (key <> Some "leadB_cm" -> Settings.leadB_cm s = Settings.leadB_cm s') /\
  (key <> Some "featBL_cm" -> Settings.featBL_cm s = Settings.featBL_cm s') /\
  (key <> Some "featBW_cm" -> Settings.featBW_cm s = Settings.featBW_cm s').

(** What an input-changed event may change in a dialog: the enabled flags
    of the four feature size inputs, the minimum of the two feature widths
    and the focus of selection B.  Everything else of [d'] is as in [d]. *)
Definition changed_in_flags_only (d d' : Dialog.t) : Prop :=
  Dialog.img d' = Dialog.img d /\
  Dialog.widthInput d' = Dialog.widthInput d /\
  Dialog.grpA d' = Dialog.grpA d /\
  Dialog.grpB d' = Dialog.grpB d /\
  Dialog.selA d' = Dialog.selA d /\
  Dialog.leadA d' = Dialog.leadA d /\
  Dialog.ddA d' = Dialog.ddA d /\
  Dialog.leadB d' = Dialog.leadB d /\
  Dialog.ddB d' = Dialog.ddB d /\
  Dialog.errorBox d' = Dialog.errorBox d /\
  Dialog.handlers d' = Dialog.handlers d /\
  Dialog.selB d' =
    SelectionCommandInput.set_hasFocus
      (SelectionCommandInput.hasFocus (Dialog.selB d')) (Dialog.selB d) /\
  Dialog.aW d' =
    ValueCommandInput.mk (ValueCommandInput.name (Dialog.aW d))
      (ValueCommandInput.unitType (Dialog.aW d))
      (ValueCommandInput.value (Dialog.aW d))
      (ValueCommandInput.minimumValue (Dialog.aW d'))
      (ValueCommandInput.isEnabled (Dialog.aW d')) /\
  Dialog.bW d' =
    ValueCommandInput.mk (ValueCommandInput.name (Dialog.bW d))
      (ValueCommandInput.unitType (Dialog.bW d))
      (ValueCommandInput.value (Dialog.bW d))
      (ValueCommandInput.minimumValue (Dialog.bW d'))
      (ValueCommandInput.isEnabled (Dialog.bW d')) /\
  Dialog.aL d' =
    ValueCommandInput.set_isEnabled
      (ValueCommandInput.isEnabled (Dialog.aL d')) (Dialog.aL d) /\
  Dialog.bL d' =
    ValueCommandInput.set_isEnabled
      (ValueCommandInput.isEnabled (Dialog.bL d')) (Dialog.bL d).

(** The user picks the item with the given index in a drop-down. *)
Definition select_item (index : nat) (dd : DropDownCommandInput.t)
  : DropDownCommandInput.t :=
  let fix mark (i : nat) (items : list ListItem.t) : list ListItem.t :=
    match items with
    | [] => []
    | it :: rest =>
        ListItem.mk (ListItem.name it) (Nat.eqb i index) :: mark (S i) rest
    end in
  DropDownCommandInput.mk (DropDownCommandInput.name dd)
    (mark 0%nat (DropDownCommandInput.listItems dd)).

(** The user selects the entities [sa] for point A and [sb] for point B. *)
Definition user_picks (sa sb : list (option Base)) (d : Dialog.t) : Dialog.t :=
  let with_selection sel i :=
    SelectionCommandInput.mk (SelectionCommandInput.name i)
      (SelectionCommandInput.prompt i) (SelectionCommandInput.selectionFilters i)
      (SelectionCommandInput.selectionLimits i) sel
      (SelectionCommandInput.hasFocus i) in
  Dialog.mk (Dialog.img d) (Dialog.widthInput d) (Dialog.grpA d)
    (Dialog.grpB d) (with_selection sa (Dialog.selA d)) (Dialog.leadA d)
    (Dialog.ddA d) (Dialog.aW d) (Dialog.aL d)
    (with_selection sb (Dialog.selB d)) (Dialog.leadB d) (Dialog.ddB d)
    (Dialog.bW d) (Dialog.bL d) (Dialog.errorBox d) (Dialog.handlers d).

(** A feature type as a dialog shows it: a type outside the variant set has
    no item of its own. *)
Definition shown_type (type : string) : string :=
  if existsb (String.eqb type) feature_types then type else "None".

(** Two dialogs to run the handlers on: one filled for an arrow at A
    between the points (0,0) and (10,0), one as it opens, with nothing
    selected; and the error box as a dialog opens with it. *)
Definition arrow_run : CommandInputs :=
  dialog (v2 0 0) (v2 10 0) 2 0 0 "Arrow" (Some 4) (Some 2)
    "None" (Some 3) (Some 7).

Definition nothing_picked : CommandInputs :=
  mkCommandInputs (Some 0.2) (Some 0) (Some 0) (Some (Some "None"))
    (Some (Some "None")) (Some 0.5) (Some 0.5) (Some 0.5) (Some 0.5)
    (Some []) (Some []).

Definition hidden_errorBox : TextBoxCommandInput.t :=
  TextBoxCommandInput.mk "" "" 2 true true false.

(** The text that the error box is given for a message. *)
Definition error_text (msg : string) : string :=
  "<font color='#d32f2f'>Error: " ++ msg ++ "</font>".

(** The error box shows what the cache holds: a visible box carries the
    cached message, and the cache of a hidden box is empty. *)
Definition box_in_step (errBox : TextBoxCommandInput.t) (g : ErrState) : Prop :=
  if TextBoxCommandInput.isVisible errBox then
    TextBoxCommandInput.formattedText errBox = error_text (lastMsg g)
  else lastMsg g = "".

(** * Properties *)

(** ** Facts on binary64 comparison and arithmetic *)

Module Double.
Local Open Scope float_scope.

(** Swapping the operands of a comparison swaps its outcome. *)
Lemma SFcompare_antisym (a b : spec_float) :
  SFcompare b a = option_map CompOpp (SFcompare a b).
Proof.
  destruct a as [sa|sa| |sa ma ea], b as [sb|sb| |sb mb eb]; simpl;
    try reflexivity; try (destruct sa; reflexivity);
    try (destruct sb; reflexivity); try (destruct sa, sb; reflexivity).
  destruct sa, sb; try reflexivity; f_equal;
    rewrite (Z.compare_antisym ea eb);
    destruct (ea ?= eb)%Z; simpl; try reflexivity;
    pose proof (Pos.compare_cont_antisym ma mb Eq) as H; simpl in H;
    rewrite <- H; destruct (Pos.compare_cont Eq ma mb); reflexivity.
Qed.

(** Only a NaN is not comparable. *)
Lemma SFcompare_nan (a b : spec_float) :
  SFcompare a b = None <-> a = S754_nan \/ b = S754_nan.
Proof.
  destruct a, b; simpl; split; intros H;
    try discriminate; try (left; reflexivity); try (right; reflexivity);
    try reflexivity; destruct H; discriminate.
Qed.

Lemma is_nan_Prim2SF (a : float) : is_nan a = true <-> Prim2SF a = S754_nan.
Proof.
  unfold is_nan. rewrite eqb_spec. unfold SFeqb.
  destruct (Prim2SF a) as [s|s| |s m e]; simpl.
  - split; discriminate.
  - destruct s; simpl; split; discriminate.
  - split; reflexivity.
  - destruct s; rewrite Z.compare_refl, Pos.compare_cont_refl; simpl; split; discriminate.
Qed.

(** [a < b] excludes [b <= a], and [a <= b] excludes [b < a]. *)
Lemma ltb_leb_false (a b : float) : (a <? b) = true -> (b <=? a) = false.
Proof.
  rewrite ltb_spec, leb_spec. unfold SFltb, SFleb.
  rewrite (SFcompare_antisym (Prim2SF a) (Prim2SF b)).
  destruct (SFcompare (Prim2SF a) (Prim2SF b)) as [[ | | ]|]; simpl; congruence.
Qed.

Lemma leb_ltb_false (a b : float) : (a <=? b) = true -> (b <? a) = false.
Proof.
  rewrite ltb_spec, leb_spec. unfold SFltb, SFleb.
  rewrite (SFcompare_antisym (Prim2SF a) (Prim2SF b)).
  destruct (SFcompare (Prim2SF a) (Prim2SF b)) as [[ | | ]|]; simpl; congruence.
Qed.

(** On numbers, [a < b] is the negation of [b <= a]. *)
Lemma ltb_negb_leb (a b : float) :
  is_number a = true -> is_number b = true -> (a <? b) = negb (b <=? a).
Proof.
  unfold is_number. intros Ha Hb.
  rewrite ltb_spec, leb_spec. unfold SFltb, SFleb.
  rewrite (SFcompare_antisym (Prim2SF a) (Prim2SF b)).
  destruct (SFcompare (Prim2SF a) (Prim2SF b)) as [[ | | ]|] eqn:E; simpl; try reflexivity.
  apply SFcompare_nan in E. destruct E as [E|E]; apply is_nan_Prim2SF in E;
    [rewrite E in Ha | rewrite E in Hb]; discriminate.
Qed.

Lemma leb_negb_ltb (a b : float) :
  is_number a = true -> is_number b = true -> (a <=? b) = negb (b <? a).
Proof.
  intros Ha Hb. rewrite (ltb_negb_leb b a Hb Ha). now rewrite negb_involutive.
Qed.

(** Rounding is symmetric in the sign, so negating a factor negates the
    product, and adding the opposite is subtracting. *)
Lemma SFopp_round_aux s m e l :
  SFopp (binary_round_aux prec emax s m e l) = binary_round_aux prec emax (negb s) m e l.
Proof.
  unfold binary_round_aux.
  destruct (shr_fexp prec emax m e l) as [mrs e'].
  destruct (shr_fexp prec emax _ e' loc_Exact) as [mrs' e''].
  destruct (shr_m mrs'); try reflexivity.
  destruct (e'' <=? emax - prec)%Z; reflexivity.
Qed.

Lemma SFmul_opp_r (a b : spec_float) :
  SF64mul a (SFopp b) = SFopp (SF64mul a b).
Proof.
  unfold SF64mul, SFmul.
  destruct a as [sa|sa| |sa ma ea], b as [sb|sb| |sb mb eb]; cbn [SFopp];
    try reflexivity; try (rewrite <- negb_xorb_r; reflexivity).
  rewrite SFopp_round_aux. now rewrite negb_xorb_r.
Qed.

Lemma SFadd_opp_r (a b : spec_float) :
  SF64add a (SFopp b) = SF64sub a b.
Proof.
  unfold SF64add, SF64sub, SFadd, SFsub.
  destruct a as [sa|sa| |sa ma ea], b as [sb|sb| |sb mb eb]; cbn [SFopp];
    try reflexivity; destruct sa, sb; reflexivity.
Qed.

(** [a + b * (-c)] and [a - b * c] are the same double. *)
Lemma add_mul_opp (a b c : float) : a + b * (- c) = a - b * c.
Proof.
  apply Prim2SF_inj.
  rewrite add_spec, mul_spec, opp_spec, sub_spec, mul_spec.
  rewrite SFmul_opp_r. apply SFadd_opp_r.
Qed.

End Double.

(** ** Parameter derivation *)

Ltac params_cbv :=
  cbv beta iota zeta delta
    [extractParams at_distance_test getActiveSketch
     set_sketch set_A set_B set_widthCm set_leadACm set_leadBCm
     set_featAType set_featAWCm set_featALCm set_featBType set_featBWCm
     set_featBLCm set_L set_Ldir set_Wdir set_Aext set_Bext set_Abase set_Bbase
     sketch A B widthCm leadACm leadBCm featAType featAWCm featALCm
     featBType featBWCm featBLCm L Ldir Wdir Aext Bext Abase Bbase].

Lemma extractParams_picked host inputs sk pa pb P0 err0 :
  getActiveSketch host = Some sk ->
  picked sk (selA inputs) = Some pa ->
  picked sk (selB inputs) = Some pb ->
  extractParams host inputs P0 err0 =
  let P := at_distance_test inputs sk pa pb P0 in
  if L P <=? kEpsCoincident then
    (false, P, msg_coincident)
  else
    let P := set_Ldir (vscale (vsub pb pa) (1 / L P)) P in
    let P := set_Wdir (vperp_ccw (Ldir P)) P in
    let P := set_Aext (vadd (A P) (vscale (Ldir P) (- leadACm P))) P in
    let P := set_Bext (vadd (B P) (vscale (Ldir P) (leadBCm P))) P in
    let P := set_Abase (vadd (Aext P) (vscale (Ldir P) (featALCm P))) P in
    let P := set_Bbase (vadd (Bext P) (vscale (Ldir P) (- featBLCm P))) P in
    (true, P, err0).
Proof.
  unfold picked. intros Hsk HA HB.
  destruct (selA inputs) as [[|entA restA]|] eqn:EA; try discriminate.
  destruct (selB inputs) as [[|entB restB]|] eqn:EB; try discriminate.
  destruct (worldPointFromEntity entA) as [pA3|] eqn:WA; try discriminate.
  destruct (worldPointFromEntity entB) as [pB3|] eqn:WB; try discriminate.
  injection HA as <-. injection HB as <-.
  destruct P0. params_cbv.
  unfold getActiveSketch in Hsk.
  rewrite Hsk, EA, EB, WA, WB. reflexivity.
Qed.

Lemma vadd_scale_opp (a d : V2) (s : float) :
  vadd a (vscale d (- s)) = vsub a (vscale d s).
Proof.
  unfold vadd, vsub, vscale, v2. cbn [x y].
  now rewrite !Double.add_mul_opp.
Qed.

Lemma neqb_None (t : string) :
  neqb t "None" = negb (t =? "None")%string.
Proof. reflexivity. Qed.

(** C1, as the code has it.  For picked points [pa], [pb] whose distance
    [L = sqrt (dx * dx + dy * dy)], computed in binary64 arithmetic, is
    greater than 1e-12, and whatever the record and the other inputs are,
    [extractParams] succeeds and leaves that [L], the direction
    [Ldir = (dx * (1 / L), dy * (1 / L))] - the product with the reciprocal
    of [L], not the quotient -, [Wdir = (- Ldir.y, Ldir.x)],
    [Aext = pa - Ldir * leadACm], [Bext = pb + Ldir * leadBCm],
    [Abase = Aext + Ldir * featALCm] and [Bbase = Bext - Ldir * featBLCm],
    where the feature length of an end whose type is "None" is 0 whatever
    the length input holds. *)
Theorem extractParams_derives host inputs sk pa pb P0 err0 :
  getActiveSketch host = Some sk ->
  picked sk (selA inputs) = Some pa ->
  picked sk (selB inputs) = Some pb ->
  (1e-12 <? distance pa pb) = true ->
  exists P,
    extractParams host inputs P0 err0 = (true, P, err0) /\
    derived_by_reciprocal inputs pa pb P.
Proof.
  intros Hsk HA HB Hfar.
  rewrite (extractParams_picked host inputs sk pa pb P0 err0 Hsk HA HB).
  change ((kEpsCoincident <? vlen (vsub pb pa)) = true) in Hfar.
  apply Double.ltb_leb_false in Hfar.
  cbv zeta. cbn [L at_distance_test]. rewrite Hfar.
  eexists. split; [reflexivity|].
  unfold derived_by_reciprocal, derived_with. params_cbv.
  rewrite !vadd_scale_opp, !neqb_None.
  unfold distance, quarter_turn, plus_along, minus_along,
    vlen, vsub, vadd, vscale, vperp_ccw, v2.
  cbn [x y].
  repeat split; try reflexivity.
  - destruct (selected_name (ddA inputs) =? "None")%string; reflexivity.
  - destruct (selected_name (ddB inputs) =? "None")%string; reflexivity.
Qed.

Lemma extractParams_derives_witness :
  exists P,
    extractParams plain_host
      (dialog (v2 0 0) (v2 10 0) 2 0 0 "Arrow" (Some 4) (Some 2) "None" (Some 3) (Some 7))
      ThickLineParams_init "" = (true, P, EmptyString) /\
    Ldir P = v2 1 0 /\ Wdir P = v2 (-0) 1 /\
    Abase P = v2 2 0 /\ Bbase P = v2 10 0 /\ featBLCm P = 0.
Proof.
  destruct (extractParams_derives plain_host
      (dialog (v2 0 0) (v2 10 0) 2 0 0 "Arrow" (Some 4) (Some 2) "None" (Some 3) (Some 7))
      (mkSketch (fun p => p)) (v2 0 0) (v2 10 0) ThickLineParams_init ""
      eq_refl eq_refl eq_refl eq_refl) as [P [HP HD]].
  exists P. split; [exact HP|].
  vm_compute in HP. injection HP as <-. vm_compute.
  repeat match goal with |- _ /\ _ => split end; reflexivity.
Defined.

(** The claim C1 as stated fails.  For the points (0,0) and (49,0) the
    distance is 49 and the quotient 49/49 is 1, but the direction that
    [extractParams] stores has the first component 49 * (1/49), which is
    0.99999999999999989.  And the distance itself is a binary64 number: for
    the points (-1e154,0) and (1e154,0) the squares overflow, the distance
    is infinite, which is greater than 1e-12, and the direction stored is
    (0,0). *)
Lemma quotient_is_not_reciprocal_product :
  (1e-12 <? distance (v2 0 0) (v2 49 0)) = true /\
  (exists P,
     extractParams plain_host
       (dialog (v2 0 0) (v2 49 0) 2 0 0 "None" None None "None" None None)
       ThickLineParams_init "" = (true, P, EmptyString) /\
     L P = 49 /\ 49 / 49 = 1 /\ x (Ldir P) = 0.99999999999999989 /\
     ~ derived_as_specified
         (dialog (v2 0 0) (v2 49 0) 2 0 0 "None" None None "None" None None)
         (v2 0 0) (v2 49 0) P) /\
  (1e-12 <? distance (v2 (-1e154) 0) (v2 1e154 0)) = true /\
  (exists P,
     extractParams plain_host
       (dialog (v2 (-1e154) 0) (v2 1e154 0) 2 0 0 "None" None None "None" None None)
       ThickLineParams_init "" = (true, P, EmptyString) /\
     L P = infinity /\ Ldir P = v2 0 0).
Proof.
  split; [vm_compute; reflexivity|]. split.
  - eexists. split; [vm_compute; reflexivity|].
    repeat match goal with |- _ /\ _ => split end;
      try (vm_compute; reflexivity).
    unfold derived_as_specified, derived_with.
    intros [_ [_ [_ [H _]]]].
    apply (f_equal (fun d => Prim2SF (x d))) in H.
    vm_compute in H. discriminate H.
  - split; [vm_compute; reflexivity|].
    eexists. split; [vm_compute; reflexivity|].
    split; vm_compute; reflexivity.
Qed.

(** ** The validator *)

Lemma is_number_0 : is_number 0 = true.
Proof. reflexivity. Qed.

Remark nan_fires_no_test (b : float) :
  (nan <=? b) = false /\ (nan <? b) = false.
Proof.
  rewrite leb_spec, ltb_spec. split; reflexivity.
Qed.

(** The validator as one decision list over the tests the source makes. *)
Lemma validateParams_tests (P : ThickLineParams) (err : string) :
  validateParams P err =
  if widthCm P <=? 0 then (false, msg_width)
  else if L P <=? kEpsCoincident then (false, msg_coincident)
  else if neqb (featAType P) "None" && (featAWCm P <? widthCm P)
    then (false, msg_featAW)
  else if neqb (featAType P) "None" && (featALCm P <=? 0)
    then (false, msg_featAL)
  else if neqb (featBType P) "None" && (featBWCm P <? widthCm P)
    then (false, msg_featBW)
  else if neqb (featBType P) "None" && (featBLCm P <=? 0)
    then (false, msg_featBL)
  else if segLenSigned P <=? kEpsSketchLen then (false, msg_segment)
  else (true, err).
Proof.
  unfold validateParams, and_then, ret_false, fall_through, segLenSigned.
  destruct (widthCm P <=? 0); [reflexivity|].
  destruct (L P <=? kEpsCoincident); [reflexivity|].
  destruct (neqb (featAType P) "None"); cbn [andb];
    [destruct (featAWCm P <? widthCm P); [reflexivity|];
     destruct (featALCm P <=? 0); [reflexivity|] |];
    (destruct (neqb (featBType P) "None"); cbn [andb];
      [destruct (featBWCm P <? widthCm P); [reflexivity|];
       destruct (featBLCm P <=? 0); [reflexivity|] |]);
    destruct (_ <=? kEpsSketchLen); reflexivity.
Qed.

(** What holding means for each listed check, in terms of the source's test. *)
Lemma width_ok_test P :
  is_number (widthCm P) = true -> width_ok P = negb (widthCm P <=? 0).
Proof. intros H. apply Double.ltb_negb_leb; [reflexivity | exact H]. Qed.

Lemma length_ok_test P :
  is_number (L P) = true -> length_ok P = negb (L P <=? kEpsCoincident).
Proof. intros H. apply Double.ltb_negb_leb; [reflexivity | exact H]. Qed.

Lemma segment_ok_test P :
  is_number (segLenSigned P) = true ->
  segment_ok P = negb (segLenSigned P <=? kEpsSketchLen).
Proof. intros H. apply Double.ltb_negb_leb; [reflexivity | exact H]. Qed.

Lemma featAW_ok_test P :
  is_number (widthCm P) = true ->
  (if (featAType P =? "None")%string then true
   else is_number (featAWCm P) && is_number (featALCm P)) = true ->
  featAW_ok P = negb (neqb (featAType P) "None" && (featAWCm P <? widthCm P)).
Proof.
  unfold featAW_ok, neqb. intros Hw H.
  destruct (featAType P =? "None")%string; [reflexivity|].
  apply andb_prop in H. cbn [negb andb].
  now rewrite (Double.leb_negb_ltb _ _ Hw (proj1 H)).
Qed.

Lemma featAL_ok_test P :
  (if (featAType P =? "None")%string then true
   else is_number (featAWCm P) && is_number (featALCm P)) = true ->
  featAL_ok P = negb (neqb (featAType P) "None" && (featALCm P <=? 0)).
Proof.
  unfold featAL_ok, neqb. intros H.
  destruct (featAType P =? "None")%string; [reflexivity|].
  apply andb_prop in H. cbn [negb andb].
  now rewrite (Double.ltb_negb_leb _ _ is_number_0 (proj2 H)).
Qed.

Lemma featBW_ok_test P :
  is_number (widthCm P) = true ->
  (if (featBType P =? "None")%string then true
   else is_number (featBWCm P) && is_number (featBLCm P)) = true ->
  featBW_ok P = negb (neqb (featBType P) "None" && (featBWCm P <? widthCm P)).
Proof.
  unfold featBW_ok, neqb. intros Hw H.
  destruct (featBType P =? "None")%string; [reflexivity|].
  apply andb_prop in H. cbn [negb andb].
  now rewrite (Double.leb_negb_ltb _ _ Hw (proj1 H)).
Qed.

Lemma featBL_ok_test P :
  (if (featBType P =? "None")%string then true
   else is_number (featBWCm P) && is_number (featBLCm P)) = true ->
  featBL_ok P = negb (neqb (featBType P) "None" && (featBLCm P <=? 0)).
Proof.
  unfold featBL_ok, neqb. intros H.
  destruct (featBType P =? "None")%string; [reflexivity|].
  apply andb_prop in H. cbn [negb andb].
  now rewrite (Double.ltb_negb_leb _ _ is_number_0 (proj2 H)).
Qed.

(** A check that holds lets the source's test pass. *)
Lemma width_ok_passes P : width_ok P = true -> (widthCm P <=? 0) = false.
Proof. apply Double.ltb_leb_false. Qed.

Lemma length_ok_passes P :
  length_ok P = true -> (L P <=? kEpsCoincident) = false.
Proof. apply Double.ltb_leb_false. Qed.

Lemma featAW_ok_passes P :
  featAW_ok P = true ->
  neqb (featAType P) "None" && (featAWCm P <? widthCm P) = false.
Proof.
  unfold featAW_ok, neqb. destruct (featAType P =? "None")%string; [reflexivity|].
  intros H. now rewrite (Double.leb_ltb_false _ _ H).
Qed.

Lemma featAL_ok_passes P :
  featAL_ok P = true ->
  neqb (featAType P) "None" && (featALCm P <=? 0) = false.
Proof.
  unfold featAL_ok, neqb. destruct (featAType P =? "None")%string; [reflexivity|].
  intros H. now rewrite (Double.ltb_leb_false _ _ H).
Qed.

Lemma featBW_ok_passes P :
  featBW_ok P = true ->
  neqb (featBType P) "None" && (featBWCm P <? widthCm P) = false.
Proof.
  unfold featBW_ok, neqb. destruct (featBType P =? "None")%string; [reflexivity|].
  intros H. now rewrite (Double.leb_ltb_false _ _ H).
Qed.

Lemma featBL_ok_passes P :
  featBL_ok P = true ->
  neqb (featBType P) "None" && (featBLCm P <=? 0) = false.
Proof.
  unfold featBL_ok, neqb. destruct (featBType P =? "None")%string; [reflexivity|].
  intros H. now rewrite (Double.ltb_leb_false _ _ H).
Qed.

(** C2, as the code has it.  For a record that passes the width, coincidence
    and per-end feature checks and whose signed segment length is a number,
    validation succeeds exactly when [dot(Bbase - Abase, Ldir) > 1e-9];
    otherwise the reason is the segment message.  The segment test is the
    last one: whenever the validator gives the segment message for any
    record, none of the earlier tests has fired. *)
Theorem validateParams_segment (P : ThickLineParams) (err : string) :
  width_ok P = true -> length_ok P = true ->
  featAW_ok P = true -> featAL_ok P = true ->
  featBW_ok P = true -> featBL_ok P = true ->
  is_number (segLenSigned P) = true ->
  (fst (validateParams P err) = true <-> segment_ok P = true) /\
  (segment_ok P = false ->
     validateParams P err =
     (false, "Leads and/or feature lengths consume the segment. Reduce leads/features or move A and B further apart.")) /\
  (segment_ok P = true -> validateParams P err = (true, err)) /\
  (forall Q e, validateParams Q e = (false, msg_segment) ->
     (widthCm Q <=? 0) = false /\ (L Q <=? kEpsCoincident) = false /\
     neqb (featAType Q) "None" && (featAWCm Q <? widthCm Q) = false /\
     neqb (featAType Q) "None" && (featALCm Q <=? 0) = false /\
     neqb (featBType Q) "None" && (featBWCm Q <? widthCm Q) = false /\
     neqb (featBType Q) "None" && (featBLCm Q <=? 0) = false /\
     (segLenSigned Q <=? kEpsSketchLen) = true).
Proof.
  intros Hw Hl Haw Hal Hbw Hbl Hnum.
  assert (Hrun : validateParams P err =
                 if segment_ok P then (true, err) else (false, msg_segment)).
  { rewrite validateParams_tests.
    rewrite (width_ok_passes P Hw), (length_ok_passes P Hl),
      (featAW_ok_passes P Haw), (featAL_ok_passes P Hal),
      (featBW_ok_passes P Hbw), (featBL_ok_passes P Hbl).
    rewrite (segment_ok_test P Hnum).
    destruct (segLenSigned P <=? kEpsSketchLen); reflexivity. }
  split; [|split; [|split]].
  - rewrite Hrun. destruct (segment_ok P); cbn [fst]; split; congruence.
  - intros H. rewrite Hrun, H. reflexivity.
  - intros H. rewrite Hrun, H. reflexivity.
  - intros Q e H. rewrite validateParams_tests in H.
    repeat match type of H with
           | (if ?c then _ else _) = _ => destruct c; try discriminate H
           end.
    repeat split.
Qed.

Lemma validateParams_segment_witness :
  fst (validateParams (sample "Arrow" 4 2 "T" 3 1) "") = true /\
  validateParams (sample "Arrow" 4 6 "T" 3 5) "" = (false, msg_segment).
Proof.
  split.
  - apply (validateParams_segment (sample "Arrow" 4 2 "T" 3 1) "");
      reflexivity.
  - apply (validateParams_segment (sample "Arrow" 4 6 "T" 3 5) "");
      reflexivity.
Defined.

(** The claim C2 as stated fails on points so far apart that their distance
    overflows.  The derived direction is then not a number; the record
    passes the width, coincidence and feature checks, its signed segment
    length is not above 1e-9, and validation succeeds. *)
Lemma overflow_segment_accepted :
  extractParams plain_host
    (dialog (v2 (-1e308) 0) (v2 1e308 0) 2 0 0
       "None" (Some 0) (Some 0) "None" (Some 0) (Some 0))
    ThickLineParams_init ""
  = (true, derived (v2 (-1e308) 0) (v2 1e308 0) 2 "None" 0 0 "None" 0 0, EmptyString) /\
  width_ok (derived (v2 (-1e308) 0) (v2 1e308 0) 2 "None" 0 0 "None" 0 0) = true /\
  length_ok (derived (v2 (-1e308) 0) (v2 1e308 0) 2 "None" 0 0 "None" 0 0) = true /\
  featAW_ok (derived (v2 (-1e308) 0) (v2 1e308 0) 2 "None" 0 0 "None" 0 0) = true /\
  featAL_ok (derived (v2 (-1e308) 0) (v2 1e308 0) 2 "None" 0 0 "None" 0 0) = true /\
  featBW_ok (derived (v2 (-1e308) 0) (v2 1e308 0) 2 "None" 0 0 "None" 0 0) = true /\
  featBL_ok (derived (v2 (-1e308) 0) (v2 1e308 0) 2 "None" 0 0 "None" 0 0) = true /\
  segment_ok (derived (v2 (-1e308) 0) (v2 1e308 0) 2 "None" 0 0 "None" 0 0) = false /\
  validateParams (derived (v2 (-1e308) 0) (v2 1e308 0) 2 "None" 0 0 "None" 0 0) ""
  = (true, EmptyString).
Proof.
  repeat match goal with |- _ /\ _ => split end; vm_compute; reflexivity.
Qed.

(** C3, as the code has it.  On a record whose compared quantities are
    numbers the validator returns the reason of the first check, in the order
    width, distance, feature A width, feature A length, feature B width,
    feature B length, segment, that does not hold, and accepts when all
    hold; it gives one reason however many checks fail, and neither the
    verdict nor the reason depends on anything but the record. *)
Theorem validateParams_first_failure (P : ThickLineParams) (err : string) :
  comparable P = true ->
  validateParams P err =
    match first_failure checks_in_order P with
    | Some msg => (false, msg)
    | None => (true, err)
    end /\
  (forall err', fst (validateParams P err') = fst (validateParams P err)) /\
  (forall err', fst (validateParams P err) = false ->
     validateParams P err' = validateParams P err).
Proof.
  intros Hc. unfold comparable in Hc.
  apply andb_prop in Hc. destruct Hc as [Hc Hseg].
  apply andb_prop in Hc. destruct Hc as [Hc HB].
  apply andb_prop in Hc. destruct Hc as [Hc HA].
  apply andb_prop in Hc. destruct Hc as [Hw Hl].
  split; [|split].
  - rewrite validateParams_tests.
    unfold checks_in_order, first_failure.
    rewrite (width_ok_test P Hw), (length_ok_test P Hl),
      (featAW_ok_test P Hw HA), (featAL_ok_test P HA),
      (featBW_ok_test P Hw HB), (featBL_ok_test P HB),
      (segment_ok_test P Hseg).
    repeat match goal with
           | |- context [if ?c then _ else _] =>
               destruct c; cbn [negb]; try reflexivity
           end.
  - intros err'. rewrite !validateParams_tests.
    repeat match goal with
           | |- context [if ?c then _ else _] => destruct c; try reflexivity
           end.
  - intros err'. rewrite !validateParams_tests.
    repeat match goal with
           | |- context [if ?c then _ else _] =>
               destruct c; try reflexivity; try discriminate
           end.
Qed.

Lemma validateParams_first_failure_witness :
  validateParams (sample "Arrow" 1 0 "T" 1 0) "" = (false, msg_featAW) /\
  validateParams (sample "Arrow" 4 2 "None" 0 0) "kept" = (true, "kept").
Proof.
  split.
  - exact (proj1 (validateParams_first_failure
                      (sample "Arrow" 1 0 "T" 1 0) "" eq_refl)).
  - exact (proj1 (validateParams_first_failure
                      (sample "Arrow" 4 2 "None" 0 0) "kept" eq_refl)).
Defined.

(** The claim C3 as stated fails on points so far apart that their distance
    overflows.  The first check of the list that does not hold is the
    segment check, and the validator accepts the record. *)
Lemma overflow_no_reason :
  extractParams plain_host
    (dialog (v2 0 1e308) (v2 0 (-1e308)) 2 0 0
       "Arrow" (Some 4) (Some 2) "None" (Some 0) (Some 0))
    ThickLineParams_init ""
  = (true, derived (v2 0 1e308) (v2 0 (-1e308)) 2 "Arrow" 4 2 "None" 0 0, EmptyString) /\
  first_failure checks_in_order
    (derived (v2 0 1e308) (v2 0 (-1e308)) 2 "Arrow" 4 2 "None" 0 0)
  = Some msg_segment /\
  validateParams (derived (v2 0 1e308) (v2 0 (-1e308)) 2 "Arrow" 4 2 "None" 0 0) ""
  = (true, EmptyString).
Proof.
  repeat match goal with |- _ /\ _ => split end; vm_compute; reflexivity.
Qed.

(** C4. For picked points [pa], [pb] at most 1e-12 apart [extractParams]
    fails with the coincidence message, having stored the distance but
    none of the derived vectors and points; and the validator rejects any
    record with such a distance and a positive width with the same
    message. *)
Theorem coincident_points_rejected host inputs sk pa pb P0 err0 :
  getActiveSketch host = Some sk ->
  picked sk (selA inputs) = Some pa ->
  picked sk (selB inputs) = Some pb ->
  (vlen (vsub pb pa) <=? kEpsCoincident) = true ->
  (exists P,
     extractParams host inputs P0 err0 =
       (false, P, "Points A and B are coincident or too close together.") /\
     L P = vlen (vsub pb pa) /\ derived_untouched P0 P) /\
  (forall Q err,
     (L Q <=? kEpsCoincident) = true -> (0 <? widthCm Q) = true ->
     validateParams Q err =
       (false, "Points A and B are coincident or too close together.")).
Proof.
  intros Hsk HA HB Hnear. split.
  - rewrite (extractParams_picked host inputs sk pa pb P0 err0 Hsk HA HB).
    cbv zeta. cbn [L at_distance_test]. rewrite Hnear.
    eexists. split; [reflexivity|]. repeat split.
  - intros Q err HL Hw. rewrite validateParams_tests.
    rewrite (Double.ltb_leb_false _ _ Hw), HL. reflexivity.
Qed.

Lemma coincident_points_rejected_witness :
  (exists P,
     extractParams plain_host
       (dialog (v2 3 4) (v2 3 4) 2 0 0 "None" None None "None" None None)
       ThickLineParams_init "" = (false, P, msg_coincident) /\
     L P = 0 /\ Ldir P = v2 0 0) /\
  validateParams (set_widthCm 2 ThickLineParams_init) "" = (false, msg_coincident).
Proof.
  destruct (coincident_points_rejected plain_host
       (dialog (v2 3 4) (v2 3 4) 2 0 0 "None" None None "None" None None)
       (mkSketch (fun p => p)) (v2 3 4) (v2 3 4) ThickLineParams_init ""
       eq_refl eq_refl eq_refl eq_refl) as [[P [HP [HL HD]]] HV].
  split.
  - exists P. split; [exact HP|]. split; [exact HL|]. apply HD.
  - apply HV; reflexivity.
Defined.

(** C5, as the code has it.  With an active feature at an end whose width is
    below the line width, validation always fails.  The reason is that end's
    "must be >= line width" message once the earlier checks hold: a positive
    width and a distance above 1e-12 for end A, and for end B also the two
    checks of end A.  In every case the reason is that message or the
    message of one of the checks before it. *)
Theorem narrow_feature_rejected (P : ThickLineParams) (err : string) :
  (neqb (featAType P) "None" = true -> (featAWCm P <? widthCm P) = true ->
     fst (validateParams P err) = false /\
     (width_ok P = true -> length_ok P = true ->
        validateParams P err = (false, "Feature A width must be >= line width.")) /\
     In (snd (validateParams P err)) [msg_width; msg_coincident; msg_featAW]) /\
  (neqb (featBType P) "None" = true -> (featBWCm P <? widthCm P) = true ->
     fst (validateParams P err) = false /\
     (width_ok P = true -> length_ok P = true ->
      featAW_ok P = true -> featAL_ok P = true ->
        validateParams P err = (false, "Feature B width must be >= line width.")) /\
     In (snd (validateParams P err))
        [msg_width; msg_coincident; msg_featAW; msg_featAL; msg_featBW]).
Proof.
  split; intros Hact Hnarrow; (split; [|split; [intros Hw Hl|]]).
  - rewrite validateParams_tests, Hact, Hnarrow.
    destruct (widthCm P <=? 0); [reflexivity|].
    destruct (L P <=? kEpsCoincident); reflexivity.
  - rewrite validateParams_tests, Hact, Hnarrow.
    rewrite (width_ok_passes P Hw), (length_ok_passes P Hl). reflexivity.
  - rewrite validateParams_tests, Hact, Hnarrow.
    destruct (widthCm P <=? 0); [cbn; tauto|].
    destruct (L P <=? kEpsCoincident); cbn; tauto.
  - rewrite validateParams_tests, Hact, Hnarrow.
    repeat match goal with
           | |- context [if ?c then _ else _] => destruct c; try reflexivity
           end.
  - intros Haw Hal. rewrite validateParams_tests.
    rewrite (width_ok_passes P Hw), (length_ok_passes P Hl),
      (featAW_ok_passes P Haw), (featAL_ok_passes P Hal), Hact, Hnarrow.
    reflexivity.
  - rewrite validateParams_tests, Hact, Hnarrow.
    repeat match goal with
           | |- context [if ?c then _ else _] => destruct c; try (cbn; tauto)
           end.
Qed.

Lemma narrow_feature_rejected_witness :
  validateParams (sample "Arrow" 1 1 "None" 0 0) "" = (false, msg_featAW) /\
  validateParams (sample "Arrow" 2 1 "T" 1 1) "" = (false, msg_featBW).
Proof.
  split.
  - apply (narrow_feature_rejected (sample "Arrow" 1 1 "None" 0 0) "");
      reflexivity.
  - apply (narrow_feature_rejected (sample "Arrow" 2 1 "T" 1 1) "");
      reflexivity.
Defined.

(** The claim C5 as stated fails: both ends carry an arrow narrower than the
    line, and the reason given is end A's, not end B's. *)
Lemma narrow_feature_B_other_reason :
  neqb (featBType (sample "Arrow" 1 1 "Arrow" 1 1)) "None" = true /\
  (featBWCm (sample "Arrow" 1 1 "Arrow" 1 1)
     <? widthCm (sample "Arrow" 1 1 "Arrow" 1 1)) = true /\
  validateParams (sample "Arrow" 1 1 "Arrow" 1 1) ""
    = (false, "Feature A width must be >= line width.") /\
  validateParams (sample "Arrow" 1 1 "Arrow" 1 1) ""
    <> (false, "Feature B width must be >= line width.").
Proof.
  repeat split. vm_compute. discriminate.
Qed.

(** ** The shapes drawn *)

Lemma snoc_app {T : Type} (l r : list T) (a : T) :
  ((l ++ [a]) ++ r = l ++ a :: r)%list.
Proof. now rewrite <- app_assoc. Qed.

(** C6. For picked points (0,0) and (10,0), width 2, no leads and both
    feature types "None", whatever the feature size inputs hold, derivation
    and validation succeed and the command adds exactly one curve to the
    sketch: the three-point rectangle on (0,1), (10,1), (0,-1).  Its corners
    are (0,1), (10,1), (10,-1), (0,-1), the four the specification lists, in
    an order that does not cross itself. *)
Theorem plain_line_shapes (put_double : float -> string)
    (wA lA wB lB : option float) (sketchCurves : list SketchCurve)
    (file : SettingsFile) :
  (exists P,
     extractParams plain_host
       (dialog (v2 0 0) (v2 10 0) 2 0 0 "None" wA lA "None" wB lB)
       ThickLineParams_init "" = (true, P, EmptyString) /\
     validateParams P "" = (true, EmptyString) /\
     Abase P = v2 0 0 /\ Bbase P = v2 10 0) /\
  curves (notify put_double plain_host
            (dialog (v2 0 0) (v2 10 0) 2 0 0 "None" wA lA "None" wB lB)
            sketchCurves file)
    = (sketchCurves ++
       [ThreePointRectangle (P2 (v2 0 1)) (P2 (v2 10 1)) (P2 (v2 0 (-1))) true])%list /\
  rectangle_corners
    (ThreePointRectangle (P2 (v2 0 1)) (P2 (v2 10 1)) (P2 (v2 0 (-1))) true)
    = [v2 0 1; v2 10 1; v2 10 (-1); v2 0 (-1)] /\
  Permutation [v2 0 1; v2 10 1; v2 10 (-1); v2 0 (-1)]
              [v2 0 1; v2 10 1; v2 0 (-1); v2 10 (-1)] /\
  non_self_intersecting [v2 0 1; v2 10 1; v2 10 (-1); v2 0 (-1)] = true.
Proof.
  split; [|split; [|split; [|split]]].
  - eexists. split; [vm_compute; reflexivity|]. vm_compute. repeat split.
  - vm_compute. reflexivity.
  - vm_compute. reflexivity.
  - do 2 apply perm_skip. apply perm_swap.
  - vm_compute. reflexivity.
Qed.

(** C7. For picked points (0,0) and (10,0), width 2, no leads, an arrow of
    width 4 and length 2 at A and no feature at B, derivation and validation
    succeed with [Aext = (0,0)], [Abase = (2,0)], [Bbase = (10,0)], and the
    command adds the main rectangle with corners (2,1), (10,1), (10,-1),
    (2,-1) and the three lines of the triangle (2,2), (0,0), (2,-2), and
    nothing else. *)
Theorem arrow_at_A_shapes (put_double : float -> string)
    (wB lB : option float) (sketchCurves : list SketchCurve)
    (file : SettingsFile) :
  (exists P,
     extractParams plain_host
       (dialog (v2 0 0) (v2 10 0) 2 0 0 "Arrow" (Some 4) (Some 2) "None" wB lB)
       ThickLineParams_init "" = (true, P, EmptyString) /\
     validateParams P "" = (true, EmptyString) /\
     Aext P = v2 0 0 /\ Abase P = v2 2 0 /\ Bbase P = v2 10 0) /\
  curves (notify put_double plain_host
            (dialog (v2 0 0) (v2 10 0) 2 0 0 "Arrow" (Some 4) (Some 2) "None" wB lB)
            sketchCurves file)
    = (sketchCurves ++
       [ThreePointRectangle (P2 (v2 2 1)) (P2 (v2 10 1)) (P2 (v2 2 (-1))) true;
        Line (P2 (v2 2 2)) (P2 (v2 0 0)) true;
        Line (P2 (v2 0 0)) (P2 (v2 2 (-2))) true;
        Line (P2 (v2 2 (-2))) (P2 (v2 2 2)) true])%list /\
  rectangle_corners
    (ThreePointRectangle (P2 (v2 2 1)) (P2 (v2 10 1)) (P2 (v2 2 (-1))) true)
    = [vadd (v2 2 0) (v2 0 1); vadd (v2 10 0) (v2 0 1);
       vsub (v2 10 0) (v2 0 1); vsub (v2 2 0) (v2 0 1)].
Proof.
  split; [|split].
  - eexists. split; [vm_compute; reflexivity|]. vm_compute. repeat split.
  - rewrite <- snoc_app. vm_compute. reflexivity.
  - vm_compute. reflexivity.
Qed.

(** The order in which the specification lists the four corners crosses
    itself: the sides (10,1)-(0,-1) and (10,-1)-(0,1) meet. *)
Example listed_order_crosses :
  non_self_intersecting [v2 0 1; v2 10 1; v2 0 (-1); v2 10 (-1)] = false.
Proof. vm_compute. reflexivity. Qed.

(** ** The settings codec *)

Lemma one_line_cons (c : ascii) (l : string) :
  one_line (String c l) = true ->
  Ascii.eqb c newline = false /\ one_line l = true.
Proof.
  unfold one_line. cbn [find].
  destruct (Ascii.eqb c newline); [intros H; discriminate H|].
  destruct (find newline l); [intros H; discriminate H|]. now split.
Qed.

(** A line followed by its newline is what the next [getline] returns. *)
Lemma getlines_line (l rest : string) :
  one_line l = true ->
  getlines (l ++ endl ++ rest) = l :: getlines rest.
Proof.
  induction l as [|c l IH]; intros Hl.
  - reflexivity.
  - apply one_line_cons in Hl. destruct Hl as [Hc Hl].
    cbn [append getlines]. rewrite Hc.
    rewrite (IH Hl). reflexivity.
Qed.

Lemma getlines_unlines (ls : list string) :
  Forall (fun l => one_line l = true) ls -> getlines (unlines ls) = ls.
Proof.
  induction 1 as [|l ls Hl _ IH]; [reflexivity|].
  cbn [unlines]. rewrite (getlines_line l (unlines ls) Hl). now rewrite IH.
Qed.

(** A line [key=value] whose key has no separator splits into its parts. *)
Lemma find_app_sep (key value : string) :
  find "="%char key = None ->
  find "="%char (key ++ String "="%char value) = Some (String.length key).
Proof.
  induction key as [|c key IH]; intros H; [reflexivity|].
  cbn [find] in H. cbn [append find String.length].
  destruct (Ascii.eqb c "="); [discriminate|].
  destruct (find "=" key); [discriminate|]. now rewrite IH.
Qed.

Lemma substr_app_key (key rest : string) :
  substr 0 (String.length key) (key ++ rest) = key.
Proof.
  unfold substr. induction key as [|c key IH]; cbn.
  - destruct rest; reflexivity.
  - now rewrite IH.
Qed.

Lemma substr_from_app_key (key value : string) :
  substr_from (String.length key + 1) (key ++ String "="%char value) = value.
Proof. induction key as [|c key IH]; [reflexivity | exact IH]. Qed.

Lemma key_of_line (key value : string) :
  find "="%char key = None ->
  key_of (key ++ String "="%char value) = Some key.
Proof.
  intros H. unfold key_of. rewrite (find_app_sep key value H).
  now rewrite substr_app_key.
Qed.

Lemma value_of_line (key value : string) :
  find "="%char key = None ->
  value_of (key ++ String "="%char value) = Some value.
Proof.
  intros H. unfold value_of. rewrite (find_app_sep key value H).
  now rewrite substr_from_app_key.
Qed.

Lemma one_line_app (a b : string) :
  one_line a = true -> one_line b = true -> one_line (a ++ b) = true.
Proof.
  induction a as [|c a IH]; intros Ha Hb; [exact Hb|].
  apply one_line_cons in Ha. destruct Ha as [Hc Ha].
  unfold one_line in *. cbn [append find]. rewrite Hc.
  specialize (IH Ha Hb). destruct (find newline (a ++ b)); [discriminate | reflexivity].
Qed.

Section Decoding.

Variable stod : string -> option float.

(** [loadLine] in terms of the two parts of the line. *)
Lemma loadLine_parts (s : ThickLineSettings) (line key value : string) :
  key_of line = Some key -> value_of line = Some value ->
  loadLine stod s line =
    if (key =? "featAType")%string then Settings.set_featAType value s
    else if (key =? "featBType")%string then Settings.set_featBType value s
    else
      match stod value with
      | None => s
      | Some v =>
          if (key =? "width_cm")%string then Settings.set_width_cm v s
          else if (key =? "leadA_cm")%string then Settings.set_leadA_cm v s
          else if (key =? "leadB_cm")%string then Settings.set_leadB_cm v s
          else if (key =? "featAL_cm")%string then Settings.set_featAL_cm v s
          else if (key =? "featAW_cm")%string then Settings.set_featAW_cm v s
          else if (key =? "featBL_cm")%string then Settings.set_featBL_cm v s
          else if (key =? "featBW_cm")%string then Settings.set_featBW_cm v s
          else s
      end.
Proof.
  unfold key_of, value_of, loadLine.
  destruct (find "=" line) as [pos|]; [|discriminate].
  intros Hk Hv. injection Hk as <-. injection Hv as <-. reflexivity.
Qed.

Lemma load_unlines (w : bool) (ls : list string) :
  Forall (fun l => one_line l = true) ls ->
  loadSettingsIni stod (mkSettingsFile w (Some (unlines ls)))
  = fold_left (loadLine stod) ls Settings.defaults.
Proof.
  intros H. unfold loadSettingsIni. cbn [contents].
  now rewrite (getlines_unlines ls H).
Qed.

(** What each line of the written text does when it is read. *)
Lemma load_featAType (s : ThickLineSettings) (value : string) :
  loadLine stod s ("featAType=" ++ value) = Settings.set_featAType value s.
Proof. reflexivity. Qed.

Lemma load_featBType (s : ThickLineSettings) (value : string) :
  loadLine stod s ("featBType=" ++ value) = Settings.set_featBType value s.
Proof. reflexivity. Qed.

Lemma load_width_cm (s : ThickLineSettings) (value : string) :
  loadLine stod s ("width_cm=" ++ value) =
    match stod value with
    | Some v => Settings.set_width_cm v s
    | None => s
    end.
Proof. reflexivity. Qed.

Lemma load_leadA_cm (s : ThickLineSettings) (value : string) :
  loadLine stod s ("leadA_cm=" ++ value) =
    match stod value with
    | Some v => Settings.set_leadA_cm v s
    | None => s
    end.
Proof. reflexivity. Qed.

Lemma load_featAL_cm (s : ThickLineSettings) (value : string) :
  loadLine stod s ("featAL_cm=" ++ value) =
    match stod value with
    | Some v => Settings.set_featAL_cm v s
    | None => s
    end.
Proof. reflexivity. Qed.

Lemma load_featAW_cm (s : ThickLineSettings) (value : string) :
  loadLine stod s ("featAW_cm=" ++ value) =
    match stod value with
    | Some v => Settings.set_featAW_cm v s
    | None => s
    end.
Proof. reflexivity. Qed.

Lemma load_leadB_cm (s : ThickLineSettings) (value : string) :
  loadLine stod s ("leadB_cm=" ++ value) =
    match stod value with
    | Some v => Settings.set_leadB_cm v s
    | None => s
    end.
Proof. reflexivity. Qed.

Lemma load_featBL_cm (s : ThickLineSettings) (value : string) :
  loadLine stod s ("featBL_cm=" ++ value) =
    match stod value with
    | Some v => Settings.set_featBL_cm v s
    | None => s
    end.
Proof. reflexivity. Qed.

Lemma load_featBW_cm (s : ThickLineSettings) (value : string) :
  loadLine stod s ("featBW_cm=" ++ value) =
    match stod value with
    | Some v => Settings.set_featBW_cm v s
    | None => s
    end.
Proof. reflexivity. Qed.

(** C9.  [loadSettingsIni] leaves the record as it is on a line without
    separator, on a line with an unknown key, and on a line with a numeric
    key whose value [std::stod] rejects; the lines after such a line are
    processed as if it were not there; and without a readable file the
    result is the defaults: width 0.2, both types "None", leads 0, feature
    lengths and widths 0.5. *)
Theorem tolerant_decode :
  (forall s line, find "="%char line = None -> loadLine stod s line = s) /\
  (forall s line key,
     key_of line = Some key -> ~ In key type_keys -> ~ In key numeric_keys ->
     loadLine stod s line = s) /\
  (forall s line key value,
     key_of line = Some key -> In key numeric_keys ->
     value_of line = Some value -> stod value = None ->
     loadLine stod s line = s) /\
  (forall w before bad after,
     Forall (fun l => one_line l = true) (before ++ bad :: after) ->
     (forall s, loadLine stod s bad = s) ->
     loadSettingsIni stod (mkSettingsFile w (Some (unlines (before ++ bad :: after))))
     = loadSettingsIni stod (mkSettingsFile w (Some (unlines (before ++ after))))) /\
  (forall w,
     loadSettingsIni stod (mkSettingsFile w None)
     = Settings.mk 0.2 "None" 0 0.5 0.5 "None" 0 0.5 0.5).
Proof.
  split; [|split; [|split; [|split]]].
  - intros s line H. unfold loadLine. now rewrite H.
  - intros s line key Hk Ht Hn.
    assert (Hv : exists value, value_of line = Some value).
    { unfold key_of in Hk. unfold value_of.
      destruct (find "=" line); [eauto | discriminate]. }
    destruct Hv as [value Hv]. rewrite (loadLine_parts s line key value Hk Hv).
    destruct (String.eqb_spec key "featAType") as [->|_];
      [exfalso; apply Ht; cbn; auto|].
    destruct (String.eqb_spec key "featBType") as [->|_];
      [exfalso; apply Ht; cbn; auto|].
    destruct (stod value); [|reflexivity].
    repeat match goal with
           | |- context [String.eqb key ?k] =>
               destruct (String.eqb_spec key k) as [->|_];
               [exfalso; apply Hn; cbn; tauto|]
           end.
    reflexivity.
  - intros s line key value Hk Hn Hv Hbad.
    rewrite (loadLine_parts s line key value Hk Hv), Hbad.
    cbn in Hn.
    repeat (destruct Hn as [<-|Hn]; [reflexivity|]). contradiction.
  - intros w before bad after Hall Hskip.
    rewrite (load_unlines w _ Hall).
    rewrite load_unlines.
    + rewrite !fold_left_app. cbn [fold_left]. now rewrite Hskip.
    + apply Forall_app in Hall. destruct Hall as [H1 H2].
      apply Forall_app. split; [exact H1 | now inversion H2].
  - reflexivity.
Qed.

(** C10.  A [featAType] or [featBType] line puts its right-hand side into
    the record as it stands, whatever it is: the text "featAType=Garbage"
    decodes to a record whose type of end A is "Garbage", which is none of
    "None", "Arrow" and "T". *)
Theorem feature_type_unchecked :
  (forall s value,
     loadLine stod s ("featAType=" ++ value) = Settings.set_featAType value s) /\
  (forall s value,
     loadLine stod s ("featBType=" ++ value) = Settings.set_featBType value s) /\
  Settings.featAType
    (loadSettingsIni stod (mkSettingsFile false (Some "featAType=Garbage")))
    = "Garbage" /\
  ~ In "Garbage"%string feature_types.
Proof.
  split; [|split; [|split]].
  - exact load_featAType.
  - exact load_featBType.
  - reflexivity.
  - cbn. intros [H|[H|[H|[]]]]; discriminate H.
Qed.

End Decoding.

Section Codec.

Variable put_double : float -> string.
Variable stod : string -> option float.

(** The text written, as a list of lines. *)
Lemma settingsText_unlines (s : ThickLineSettings) :
  settingsText put_double s =
  unlines
    [ "width_cm=" ++ put_double (Settings.width_cm s);
      "featAType=" ++ Settings.featAType s;
      "leadA_cm=" ++ put_double (Settings.leadA_cm s);
      "featAL_cm=" ++ put_double (Settings.featAL_cm s);
      "featAW_cm=" ++ put_double (Settings.featAW_cm s);
      "featBType=" ++ Settings.featBType s;
      "leadB_cm=" ++ put_double (Settings.leadB_cm s);
      "featBL_cm=" ++ put_double (Settings.featBL_cm s);
      "featBW_cm=" ++ put_double (Settings.featBW_cm s) ]%string.
Proof. reflexivity. Qed.

(** C8, as the code has it.  When the file can be written, every number of
    the record is written as one line of text that [std::stod] reads back as
    the same number, and the two type strings hold no line break, saving
    the record and loading the file gives the record back. *)
Theorem settings_read_back (file : SettingsFile) (s : ThickLineSettings) :
  can_write file = true ->
  reads_back put_double stod (Settings.width_cm s) ->
  reads_back put_double stod (Settings.leadA_cm s) ->
  reads_back put_double stod (Settings.featAL_cm s) ->
  reads_back put_double stod (Settings.featAW_cm s) ->
  reads_back put_double stod (Settings.leadB_cm s) ->
  reads_back put_double stod (Settings.featBL_cm s) ->
  reads_back put_double stod (Settings.featBW_cm s) ->
  one_line (Settings.featAType s) = true ->
  one_line (Settings.featBType s) = true ->
  fst (saveSettingsIni put_double file s) = true /\
  loadSettingsIni stod (snd (saveSettingsIni put_double file s)) = s.
Proof.
  intros Hw [L1 R1] [L2 R2] [L3 R3] [L4 R4] [L5 R5] [L6 R6] [L7 R7] HA HB.
  unfold saveSettingsIni. rewrite Hw. split; [reflexivity|].
  cbn [snd]. rewrite settingsText_unlines.
  rewrite load_unlines
    by (repeat constructor; apply one_line_app; (reflexivity || assumption)).
  destruct s as [w tA la al aw tB lb bl bw]. cbn [Settings.width_cm
    Settings.featAType Settings.leadA_cm Settings.featAL_cm Settings.featAW_cm
    Settings.featBType Settings.leadB_cm Settings.featBL_cm Settings.featBW_cm] in *.
  cbn [fold_left].
  rewrite load_width_cm, R1, load_featAType, load_leadA_cm, R2,
    load_featAL_cm, R3, load_featAW_cm, R4, load_featBType,
    load_leadB_cm, R5, load_featBL_cm, R6, load_featBW_cm, R7.
  reflexivity.
Qed.

End Codec.

Lemma settings_read_back_witness :
  loadSettingsIni Cxx.stod
    (snd (saveSettingsIni Cxx.put_double (mkSettingsFile true None)
            (Settings.mk 0.2 "Arrow" 0 0.5 0.75 "T" 1.5 0.25 3)))
  = Settings.mk 0.2 "Arrow" 0 0.5 0.75 "T" 1.5 0.25 3.
Proof.
  apply (settings_read_back Cxx.put_double Cxx.stod (mkSettingsFile true None)
           (Settings.mk 0.2 "Arrow" 0 0.5 0.75 "T" 1.5 0.25 3));
    try reflexivity; split; vm_compute; reflexivity.
Defined.

(** The claim C8 as stated fails.  The width 0.1234567 is a number that
    decimal text represents, yet it is written with six significant digits,
    as "0.123457", and read back as another number. *)
Lemma settings_lose_digits :
  Cxx.stod "0.1234567" = Some 0.1234567 /\
  settingsText Cxx.put_double (Settings.set_width_cm 0.1234567 Settings.defaults)
    = unlines ["width_cm=0.123457"; "featAType=None"; "leadA_cm=0";
               "featAL_cm=0.5"; "featAW_cm=0.5"; "featBType=None";
               "leadB_cm=0"; "featBL_cm=0.5"; "featBW_cm=0.5"]%string /\
  loadSettingsIni Cxx.stod
    (snd (saveSettingsIni Cxx.put_double (mkSettingsFile true None)
            (Settings.set_width_cm 0.1234567 Settings.defaults)))
    = Settings.set_width_cm 0.123457 Settings.defaults /\
  loadSettingsIni Cxx.stod
    (snd (saveSettingsIni Cxx.put_double (mkSettingsFile true None)
            (Settings.set_width_cm 0.1234567 Settings.defaults)))
    <> Settings.set_width_cm 0.1234567 Settings.defaults.
Proof.
  split; [|split; [|split]]; try (vm_compute; reflexivity).
  intros H.
  apply (f_equal (fun s => Prim2SF (Settings.width_cm s))) in H.
  vm_compute in H. discriminate H.
Qed.

Lemma tolerant_decode_witness :
  loadSettingsIni Cxx.stod
    (mkSettingsFile false
       (Some (unlines ["featAW_cm=1.5"; "leadA_cm=abc"; "width_cm=3"]%string)))
  = loadSettingsIni Cxx.stod
      (mkSettingsFile false (Some (unlines ["featAW_cm=1.5"; "width_cm=3"]%string))) /\
  loadLine Cxx.stod Settings.defaults "no separator here" = Settings.defaults /\
  loadLine Cxx.stod Settings.defaults "colour=7" = Settings.defaults.
Proof.
  destruct (tolerant_decode Cxx.stod) as [Hnosep [Hunknown [Hbad [Hnext _]]]].
  split; [|split].
  - apply (Hnext false ["featAW_cm=1.5"%string] "leadA_cm=abc"%string
             ["width_cm=3"%string]).
    + repeat constructor.
    + intros s. apply (Hbad s "leadA_cm=abc"%string "leadA_cm"%string "abc"%string);
        [reflexivity | cbn; tauto | reflexivity | reflexivity].
  - apply Hnosep. reflexivity.
  - apply (Hunknown Settings.defaults "colour=7"%string "colour"%string).
    + reflexivity.
    + cbn. intros [H|[H|[]]]; discriminate H.
    + cbn. intros H. repeat (destruct H as [H|H]; [discriminate H|]). exact H.
Defined.

(** Decoding a text with one unreadable number: that field keeps its
    default, the other lines are read. *)
Example decode_with_bad_number :
  loadSettingsIni Cxx.stod
    (mkSettingsFile false
       (Some (unlines ["width_cm=0.35"; "featAType=Arrow"; "leadA_cm=oops";
                       "featAL_cm=1.25"; "featBType=T"]%string)))
  = Settings.mk 0.35 "Arrow" 0 1.25 0.5 "T" 0 0.5 0.5.
Proof. vm_compute. reflexivity. Qed.

(** * Further properties of the code *)

(** ** The order of the requirements of [extractParams] *)

(** The outcome of [extractParams] by the first requirement that is not
    met; on every failure the derived vectors and points stay as they
    were. *)
Lemma extractParams_cases host inputs P0 err0 :
  let r := extractParams host inputs P0 err0 in
  match first_unmet needs_in_order (host, inputs) with
  | Some msg =>
      fst (fst r) = false /\ snd r = msg /\ derived_untouched P0 (snd (fst r))
  | None => fst (fst r) = true /\ snd r = err0
  end.
Proof.
  cbv zeta.
  unfold needs_in_order, first_unmet, has_sketch, apart. cbn [fst snd].
  destruct (getActiveSketch host) as [sk|] eqn:Hsk.
  - destruct (selA inputs) as [[|entA restA]|] eqn:EA;
      [ | | ];
      try (destruct P0; params_cbv; unfold getActiveSketch in Hsk;
           rewrite Hsk, EA; cbn [has_selection];
           repeat split; reflexivity).
    destruct (selB inputs) as [[|entB restB]|] eqn:EB;
      try (destruct P0; params_cbv; unfold getActiveSketch in Hsk;
           rewrite Hsk, EA, EB; cbn [has_selection];
           repeat split; reflexivity).
    cbn [has_selection readable].
    destruct (worldPointFromEntity entA) as [pA3|] eqn:WA;
      [ | destruct P0; params_cbv; unfold getActiveSketch in Hsk;
          rewrite Hsk, EA, EB, WA; repeat split; reflexivity ].
    destruct (worldPointFromEntity entB) as [pB3|] eqn:WB;
      [ | destruct P0; params_cbv; unfold getActiveSketch in Hsk;
          rewrite Hsk, EA, EB, WA, WB; repeat split; reflexivity ].
    assert (HA : picked sk (selA inputs) =
                 Some (let s := modelToSketchSpace sk pA3 in v2 (px s) (py s)))
      by (unfold picked; rewrite EA, WA; reflexivity).
    assert (HB : picked sk (selB inputs) =
                 Some (let s := modelToSketchSpace sk pB3 in v2 (px s) (py s)))
      by (unfold picked; rewrite EB, WB; reflexivity).
    rewrite <- EA, <- EB, HA, HB.
    rewrite (extractParams_picked host inputs sk _ _ P0 err0 Hsk HA HB).
    cbv zeta. cbn [L at_distance_test].
    destruct (vlen _ <=? kEpsCoincident); cbn [negb fst snd].
    + repeat split; reflexivity.
    + split; reflexivity.
  - destruct P0; params_cbv; unfold getActiveSketch in Hsk; rewrite Hsk.
    repeat split; reflexivity.
Qed.

(** X1.  [extractParams] asks for six things in a fixed order: a sketch
    being edited, a selection for A, a selection for B, a readable point for
    A, one for B, and a distance that is not at most 1e-12.  It fails with
    the message of the first one that is missing, whatever else is missing;
    when none is, it succeeds and leaves the message as it was. *)
Theorem extractParams_first_unmet host inputs P0 err0 :
  fst (fst (extractParams host inputs P0 err0)) =
    match first_unmet needs_in_order (host, inputs) with
    | Some _ => false
    | None => true
    end /\
  snd (extractParams host inputs P0 err0) =
    match first_unmet needs_in_order (host, inputs) with
    | Some msg => msg
    | None => err0
    end.
Proof.
  pose proof (extractParams_cases host inputs P0 err0) as H. cbv zeta in H.
  destruct (first_unmet needs_in_order (host, inputs)).
  - destruct H as [H1 [H2 _]]. now split.
  - exact H.
Qed.

(** Each message of [extractParams] is in its list and is not empty. *)
Lemma first_unmet_message (hi : Host * CommandInputs) (msg : string) :
  first_unmet needs_in_order hi = Some msg ->
  In msg (map snd needs_in_order) /\ msg <> "".
Proof.
  intros E.
  assert (Hin : In msg (map snd needs_in_order)).
  { unfold needs_in_order, first_unmet in E. cbn [map snd In].
    repeat match type of E with
           | (if ?c then _ else _) = _ => destruct c
           end;
      try discriminate E; injection E as <-;
      repeat (first [left; reflexivity | right]). }
  split; [exact Hin|].
  cbn in Hin.
  repeat (destruct Hin as [<-|Hin]; [discriminate|]). contradiction.
Qed.

(** X2.  Whenever [extractParams] fails, for whichever reason, the derived
    direction vectors and the extended and base points of the record are
    those it had on entry, and the message is one of the six of the
    function, none of them empty. *)
Theorem extractParams_failure_keeps_derived host inputs P0 err0 :
  fst (fst (extractParams host inputs P0 err0)) = false ->
  derived_untouched P0 (snd (fst (extractParams host inputs P0 err0))) /\
  In (snd (extractParams host inputs P0 err0)) (map snd needs_in_order) /\
  snd (extractParams host inputs P0 err0) <> "".
Proof.
  intros Hfail.
  pose proof (extractParams_cases host inputs P0 err0) as H. cbv zeta in H.
  destruct (first_unmet needs_in_order (host, inputs)) as [msg|] eqn:E.
  - destruct H as [_ [Hmsg Hd]]. split; [exact Hd|]. rewrite Hmsg.
    exact (first_unmet_message _ _ E).
  - destruct H as [H _]. rewrite H in Hfail. discriminate Hfail.
Qed.

Lemma extractParams_failure_keeps_derived_witness :
  derived_untouched (sample "None" 0 0 "None" 0 0)
    (snd (fst (extractParams plain_host
       (mkCommandInputs (Some 2) None None None None None None None None
          (pick (v2 0 0)) (Some []))
       (sample "None" 0 0 "None" 0 0) ""))) /\
  snd (extractParams plain_host
       (mkCommandInputs (Some 2) None None None None None None None None
          (pick (v2 0 0)) (Some []))
       (sample "None" 0 0 "None" 0 0) "") = msg_select_B.
Proof.
  assert (Hfail : fst (fst (extractParams plain_host
       (mkCommandInputs (Some 2) None None None None None None None None
          (pick (v2 0 0)) (Some []))
       (sample "None" 0 0 "None" 0 0) "")) = false)
    by (vm_compute; reflexivity).
  split.
  - exact (proj1 (extractParams_failure_keeps_derived _ _ _ _ Hfail)).
  - vm_compute. reflexivity.
Defined.

(** ** What the validator accepts *)

(** X3.  [validateParams] accepts a record exactly when none of its tests
    fires: the width is not [<= 0], the distance not [<= 1e-12], for an end
    whose type is not "None" the feature width is not below the line width
    and the feature length not [<= 0], and the signed segment length is not
    [<= 1e-9].  This holds for every record, whatever its numbers are. *)
Theorem validateParams_accepts_iff (P : ThickLineParams) (err : string) :
  fst (validateParams P err) = true <->
  (widthCm P <=? 0) = false /\
  (L P <=? kEpsCoincident) = false /\
  (featAType P <> "None" ->
     (featAWCm P <? widthCm P) = false /\ (featALCm P <=? 0) = false) /\
  (featBType P <> "None" ->
     (featBWCm P <? widthCm P) = false /\ (featBLCm P <=? 0) = false) /\
  (segLenSigned P <=? kEpsSketchLen) = false.
Proof.
  rewrite validateParams_tests, !neqb_None.
  destruct (widthCm P <=? 0);
    [split; [intros H; discriminate H | intros [H _]; discriminate H]|].
  destruct (L P <=? kEpsCoincident);
    [split; [intros H; discriminate H | intros [_ [H _]]; discriminate H]|].
  destruct (String.eqb_spec (featAType P) "None") as [EA|EA];
  destruct (String.eqb_spec (featBType P) "None") as [EB|EB];
  cbn [negb andb];
  repeat match goal with
    | |- context [if ?c then _ else _] =>
        match c with
        | context [if _ then _ else _] => fail 1
        | _ => destruct c eqn:?
        end
    end;
  cbn [fst];
  (split;
   [ intros H; try discriminate H;
     repeat split; try reflexivity; intros; try contradiction; split; reflexivity
   | intros [_ [_ [HA [HB HS]]]]; try reflexivity;
     try discriminate HS;
     try (destruct (HA EA) as [H1 H2]; discriminate);
     try (destruct (HB EB) as [H1 H2]; discriminate) ]).
Qed.

(** X4.  After [extractParams] has succeeded, the validator's own distance
    test never fires: a record that [extractParams] produced is never
    turned down with the message about coincident points. *)
Theorem validated_after_extract_not_coincident host inputs P0 err0 P err :
  extractParams host inputs P0 err0 = (true, P, err) ->
  (L P <=? kEpsCoincident) = false /\
  forall err', snd (validateParams P err') = msg_coincident ->
    fst (validateParams P err') = true.
Proof.
  intros HE.
  assert (HL : (L P <=? kEpsCoincident) = false).
  { pose proof (extractParams_cases host inputs P0 err0) as H. cbv zeta in H.
    unfold needs_in_order, first_unmet, has_sketch, apart in H.
    cbn [fst snd] in H.
    destruct (getActiveSketch host) as [sk|] eqn:Hsk;
      [|destruct H as [H _]; rewrite HE in H; discriminate H].
    destruct (has_selection (selA inputs));
      [|destruct H as [H _]; rewrite HE in H; discriminate H].
    destruct (has_selection (selB inputs));
      [|destruct H as [H _]; rewrite HE in H; discriminate H].
    destruct (readable (selA inputs));
      [|destruct H as [H _]; rewrite HE in H; discriminate H].
    destruct (readable (selB inputs));
      [|destruct H as [H _]; rewrite HE in H; discriminate H].
    destruct (picked sk (selA inputs)) as [pa|] eqn:HA;
      [|destruct H as [H _]; rewrite HE in H; discriminate H].
    destruct (picked sk (selB inputs)) as [pb|] eqn:HB;
      [|destruct H as [H _]; rewrite HE in H; discriminate H].
    rewrite (extractParams_picked host inputs sk pa pb P0 err0 Hsk HA HB) in HE.
    cbv zeta in HE. cbn [L at_distance_test] in HE.
    destruct (vlen (vsub pb pa) <=? kEpsCoincident) eqn:Hd;
      [discriminate HE|].
    injection HE as <- _. params_cbv. exact Hd. }
  split; [exact HL|].
  intros err'. rewrite validateParams_tests, HL.
  repeat match goal with
    | |- context [if ?c then _ else _] =>
        match c with
        | context [if _ then _ else _] => fail 1
        | _ => destruct c
        end
    end; cbn [fst snd]; intros H; try discriminate H; reflexivity.
Qed.

Lemma validated_after_extract_not_coincident_witness :
  (L (sample "None" 0 0 "None" 0 0) <=? kEpsCoincident) = false.
Proof.
  assert (HE : extractParams plain_host
    (dialog (v2 0 0) (v2 10 0) 2 0 0 "None" (Some 0) (Some 0) "None" (Some 0) (Some 0))
    ThickLineParams_init "" = (true, sample "None" 0 0 "None" 0 0, ""))
    by (vm_compute; reflexivity).
  exact (proj1 (validated_after_extract_not_coincident _ _ _ _ _ _ HE)).
Defined.

(** ** The command handler on any inputs *)

(** A successful [extractParams] has found a sketch and two points. *)
Lemma extractParams_true host inputs P0 err0 P err :
  extractParams host inputs P0 err0 = (true, P, err) ->
  exists sk pa pb,
    getActiveSketch host = Some sk /\
    picked sk (selA inputs) = Some pa /\
    picked sk (selB inputs) = Some pb.
Proof.
  intros HE.
  pose proof (extractParams_cases host inputs P0 err0) as H. cbv zeta in H.
  unfold needs_in_order, first_unmet, has_sketch, apart in H.
  cbn [fst snd] in H.
  destruct (getActiveSketch host) as [sk|] eqn:Hsk;
    [|destruct H as [H _]; rewrite HE in H; discriminate H].
  destruct (has_selection (selA inputs));
    [|destruct H as [H _]; rewrite HE in H; discriminate H].
  destruct (has_selection (selB inputs));
    [|destruct H as [H _]; rewrite HE in H; discriminate H].
  destruct (readable (selA inputs));
    [|destruct H as [H _]; rewrite HE in H; discriminate H].
  destruct (readable (selB inputs));
    [|destruct H as [H _]; rewrite HE in H; discriminate H].
  destruct (picked sk (selA inputs)) as [pa|] eqn:HA;
    [|destruct H as [H _]; rewrite HE in H; discriminate H].
  destruct (picked sk (selB inputs)) as [pb|] eqn:HB;
    [|destruct H as [H _]; rewrite HE in H; discriminate H].
  exists sk, pa, pb. repeat split; first [assumption | reflexivity].
Qed.

(** The scalar fields of a record that [extractParams] has produced. *)
Lemma extractParams_scalars host inputs P0 err0 P err :
  extractParams host inputs P0 err0 = (true, P, err) ->
  settings_of P = run_settings inputs.
Proof.
  intros HE.
  destruct (extractParams_true _ _ _ _ _ _ HE) as [sk [pa [pb [Hsk [HA HB]]]]].
  rewrite (extractParams_picked host inputs sk pa pb P0 err0 Hsk HA HB) in HE.
  cbv zeta in HE. cbn [L at_distance_test] in HE.
  destruct (vlen (vsub pb pa) <=? kEpsCoincident); [discriminate HE|].
  injection HE as <- _. unfold settings_of, run_settings. params_cbv.
  reflexivity.
Qed.

(** X20.  A successful [extractParams] overwrites every field of the
    record: what it returns does not depend on the record it was given,
    while after a failure the derived fields are still those of that
    record. *)
Theorem extractParams_success_overwrites host inputs P0 P0' err0 P err :
  extractParams host inputs P0 err0 = (true, P, err) ->
  extractParams host inputs P0' err0 = (true, P, err).
Proof.
  intros HE.
  destruct (extractParams_true _ _ _ _ _ _ HE) as [sk [pa [pb [Hsk [HA HB]]]]].
  rewrite (extractParams_picked host inputs sk pa pb P0 err0 Hsk HA HB) in HE.
  rewrite (extractParams_picked host inputs sk pa pb P0' err0 Hsk HA HB).
  cbv zeta in *. cbn [L at_distance_test] in *.
  destruct (vlen (vsub pb pa) <=? kEpsCoincident); [discriminate HE|].
  rewrite <- HE. destruct P0, P0'. params_cbv. reflexivity.
Qed.

Lemma extractParams_success_overwrites_witness :
  extractParams plain_host
    (dialog (v2 0 0) (v2 10 0) 2 0 0 "None" (Some 0) (Some 0) "None" (Some 0) (Some 0))
    (sample "Arrow" 4 2 "T" 3 1) "" = (true, sample "None" 0 0 "None" 0 0, "").
Proof.
  assert (HE : extractParams plain_host
    (dialog (v2 0 0) (v2 10 0) 2 0 0 "None" (Some 0) (Some 0) "None" (Some 0) (Some 0))
    ThickLineParams_init "" = (true, sample "None" 0 0 "None" 0 0, ""))
    by (vm_compute; reflexivity).
  exact (extractParams_success_overwrites _ _ _ (sample "Arrow" 4 2 "T" 3 1)
           _ _ _ HE).
Defined.

(** The verdict, record and message of [checked], by its two steps. *)
Lemma checked_true host inputs :
  fst (fst (checked host inputs)) = true ->
  exists P,
    checked host inputs = (true, P, "") /\
    extractParams host inputs ThickLineParams_init "" = (true, P, "") /\
    validateParams P "" = (true, "").
Proof.
  unfold checked.
  pose proof (extractParams_cases host inputs ThickLineParams_init "") as HX.
  cbv zeta in HX.
  destruct (extractParams host inputs ThickLineParams_init "")
    as [[okE P] err].
  cbn [fst snd] in HX.
  destruct okE; [|intros H; discriminate H].
  assert (err = "") as ->.
  { destruct (first_unmet needs_in_order (host, inputs));
      [destruct HX as [HX _]; discriminate HX | now destruct HX]. }
  pose proof (validateParams_tests P "") as HV.
  destruct (validateParams P "") as [ok err'] eqn:HVe. cbn [fst snd].
  intros ->. exists P.
  assert (err' = "") as ->.
  { repeat match type of HV with
           | _ = (if ?c then _ else _) => destruct c
           end; try discriminate HV; now injection HV. }
  repeat split. exact HVe.
Qed.

Lemma checked_false host inputs :
  fst (fst (checked host inputs)) = false ->
  snd (checked host inputs) <> "".
Proof.
  unfold checked.
  pose proof (extractParams_cases host inputs ThickLineParams_init "") as HX.
  cbv zeta in HX.
  destruct (extractParams host inputs ThickLineParams_init "")
    as [[okE P] err].
  cbn [fst snd] in HX.
  destruct okE.
  - pose proof (validateParams_tests P err) as HV.
    destruct (validateParams P err) as [ok err']. cbn [fst snd].
    intros ->.
    repeat match type of HV with
           | _ = (if ?c then _ else _) => destruct c
           end; try discriminate HV; injection HV as ->; discriminate.
  - intros _. cbn [fst snd].
    destruct (first_unmet needs_in_order (host, inputs)) as [msg|] eqn:E;
      [|destruct HX as [HX _]; discriminate HX].
    destruct HX as [_ [-> _]]. exact (proj2 (first_unmet_message _ _ E)).
Qed.

Section Command.

Variable put_double : float -> string.

Lemma notify_false host inputs sketchCurves file :
  fst (fst (checked host inputs)) = false ->
  notify put_double host inputs sketchCurves file =
    mkOutcome sketchCurves file
      ["[ThickLine] Command failed: " ++ snd (checked host inputs) ++ endl].
Proof.
  unfold checked, notify.
  destruct (extractParams host inputs ThickLineParams_init "")
    as [[okE P] err].
  destruct okE;
    [destruct (validateParams P err) as [ok err']; destruct ok|];
    cbn [fst snd negb]; intros H; try discriminate H; reflexivity.
Qed.

(** X5.  When extraction or validation fails, the command handler adds no
    curve to the sketch, leaves the settings file as it is, and logs one
    line, "[ThickLine] Command failed: " followed by the (non-empty)
    message of the failure and a line break. *)
Theorem notify_invalid_changes_nothing host inputs sketchCurves file :
  fst (fst (checked host inputs)) = false ->
  curves (notify put_double host inputs sketchCurves file) = sketchCurves /\
  settingsFile (notify put_double host inputs sketchCurves file) = file /\
  logged (notify put_double host inputs sketchCurves file) =
    ["[ThickLine] Command failed: " ++ snd (checked host inputs) ++ endl] /\
  snd (checked host inputs) <> "".
Proof.
  intros H. rewrite (notify_false host inputs sketchCurves file H).
  repeat split. exact (checked_false host inputs H).
Qed.

(** X6.  When extraction and validation succeed, the command handler keeps
    every curve the sketch had and appends to them, all fixed: first the
    three-point rectangle on [Abase + wHalf], [Bbase + wHalf] and
    [Abase - wHalf], where [wHalf] is [Wdir] scaled by half the width; then
    the shapes of end A and after them those of end B.  For the type
    "Arrow" these are the three lines left corner - tip, tip - right corner,
    right corner - left corner, with the corners at the base point plus and
    minus [Wdir] scaled by half the feature width and the tip at [Aext]
    (resp. [Bext]); for "T" it is the three-point rectangle on the left
    corner, the left corner moved by the feature length along [- Ldir]
    (resp. [Ldir]), and the right corner; for any other type nothing. *)
Theorem notify_valid_curves host inputs sketchCurves file :
  fst (fst (checked host inputs)) = true ->
  let P := snd (fst (checked host inputs)) in
  curves (notify put_double host inputs sketchCurves file) =
    (sketchCurves ++
     main_rectangle P ::
     feature_shapes (featAType P) (Abase P) (Aext P) (Wdir P)
       (scaled (Ldir P) (- featALCm P)) (featAWCm P) ++
     feature_shapes (featBType P) (Bbase P) (Bext P) (Wdir P)
       (scaled (Ldir P) (featBLCm P)) (featBWCm P))%list.
Proof.
  unfold checked, notify.
  destruct (extractParams host inputs ThickLineParams_init "")
    as [[okE P] err].
  destruct okE; [|intros H; discriminate H].
  destruct (validateParams P err) as [ok err']. cbn [fst snd].
  intros ->. cbn [negb curves].
  unfold feature_shapes, main_rectangle.
  destruct (featAType P =? "Arrow")%string;
    [|destruct (featAType P =? "T")%string];
    (destruct (featBType P =? "Arrow")%string;
      [|destruct (featBType P =? "T")%string]);
    unfold drawThreePointRect, drawTriangle;
    rewrite <- ?app_assoc; reflexivity.
Qed.

(** X7.  When extraction and validation succeed, the command handler writes
    the nine settings of the record it used - width, leads, feature types
    and feature sizes - to the settings file if the file can be written, and
    leaves the file as it is otherwise; in both cases it logs "[ThickLine]
    Settings saved to: " followed by the path. *)
Theorem notify_valid_saves host inputs sketchCurves file :
  fst (fst (checked host inputs)) = true ->
  let P := snd (fst (checked host inputs)) in
  settingsFile (notify put_double host inputs sketchCurves file) =
    (if can_write file then
       mkSettingsFile true (Some (settingsText put_double (settings_of P)))
     else file) /\
  logged (notify put_double host inputs sketchCurves file) =
    ["[ThickLine] Settings saved to: " ++ settingsPath host].
Proof.
  unfold checked, notify.
  destruct (extractParams host inputs ThickLineParams_init "")
    as [[okE P] err].
  destruct okE; [|intros H; discriminate H].
  destruct (validateParams P err) as [ok err']. cbn [fst snd].
  intros ->. cbn [negb settingsFile logged]. split; [|reflexivity].
  unfold saveSettingsIni.
  destruct (can_write file) eqn:Hw; cbn [snd]; reflexivity.
Qed.

End Command.

(** ** The settings file over the life of the command *)

Section Persistence.

Variable put_double : float -> string.
Variable stod : string -> option float.

(** Reading the text written for [s], when each number reads back. *)
Lemma load_settingsText (w : bool) (s : ThickLineSettings) :
  all_read_back put_double stod s ->
  loadSettingsIni stod (mkSettingsFile w (Some (settingsText put_double s))) = s.
Proof.
  intros [[L1 R1] [[L2 R2] [[L3 R3] [[L4 R4] [[L5 R5] [[L6 R6] [[L7 R7]
    [HA HB]]]]]]]].
  rewrite settingsText_unlines.
  rewrite load_unlines
    by (repeat constructor; apply one_line_app; (reflexivity || assumption)).
  destruct s as [w0 tA la al aw tB lb bl bw]. cbn [Settings.width_cm
    Settings.featAType Settings.leadA_cm Settings.featAL_cm Settings.featAW_cm
    Settings.featBType Settings.leadB_cm Settings.featBL_cm Settings.featBW_cm] in *.
  cbn [fold_left].
  rewrite load_width_cm, R1, load_featAType, load_leadA_cm, R2,
    load_featAL_cm, R3, load_featAW_cm, R4, load_featBType,
    load_leadB_cm, R5, load_featBL_cm, R6, load_featBW_cm, R7.
  reflexivity.
Qed.

(** The file that a successful command leaves when it can write it. *)
Lemma notify_file host inputs sketchCurves file :
  fst (fst (checked host inputs)) = true ->
  can_write file = true ->
  settingsFile (notify put_double host inputs sketchCurves file) =
    mkSettingsFile true
      (Some (settingsText put_double (run_settings inputs))).
Proof.
  intros Hok Hw.
  destruct (checked_true host inputs Hok) as [P [HC [HE _]]].
  rewrite <- (extractParams_scalars _ _ _ _ _ _ HE). clear - HC Hw.
  unfold checked in HC. unfold notify.
  destruct (extractParams host inputs ThickLineParams_init "")
    as [[okE P'] err].
  destruct okE; [|discriminate HC].
  destruct (validateParams P' err) as [ok err'].
  injection HC as -> -> ->. cbn [negb settingsFile].
  unfold saveSettingsIni. rewrite Hw. reflexivity.
Qed.

(** X8.  After a successful command on a writable settings file, loading
    the file gives the settings of that run: the width, leads and types of
    the dialog, and for each end its feature length and width - or 0 for
    both when the type of the end is "None", whatever the dialog fields
    hold.  This needs each number to be written as text that reads back as
    the same number. *)
Theorem settings_of_last_run host inputs sketchCurves file :
  fst (fst (checked host inputs)) = true ->
  can_write file = true ->
  all_read_back put_double stod (run_settings inputs) ->
  loadSettingsIni stod
    (settingsFile (notify put_double host inputs sketchCurves file))
  = run_settings inputs.
Proof.
  intros Hok Hw Hrb.
  rewrite (notify_file host inputs sketchCurves file Hok Hw).
  apply load_settingsText. exact Hrb.
Qed.

End Persistence.

(** ** The order and repetition of settings lines *)

Ltac key_cases k :=
  repeat match goal with
         | |- context [String.eqb k ?c] =>
             destruct (String.eqb_spec k c) as [->|?]; cbn
         | H : context [String.eqb k ?c] |- _ =>
             destruct (String.eqb_spec k c) as [->|?]; cbn in H
         end.

Section Lines.

Variable stod : string -> option float.

(** A line that does not take effect leaves the record as it is. *)
Lemma loadLine_no_effect (s : ThickLineSettings) (line : string) :
  takes_effect stod line = false -> loadLine stod s line = s.
Proof.
  unfold takes_effect, key_of, value_of, loadLine.
  destruct (find "=" line) as [pos|]; [|reflexivity].
  generalize (substr 0 pos line) as key.
  generalize (substr_from (pos + 1) line) as value.
  intros value key. cbn [existsb type_keys numeric_keys].
  destruct (key =? "featAType")%string; [intros H; discriminate H|].
  destruct (key =? "featBType")%string; [intros H; discriminate H|].
  cbn [orb].
  destruct (stod value); [|reflexivity].
  repeat match goal with
         | |- context [String.eqb key ?c] =>
             destruct (String.eqb key c);
             cbn [orb]; [intros H; discriminate H|]
         end.
  reflexivity.
Qed.

(** Two lines with different keys can be read in either order. *)
Lemma loadLine_commute (s : ThickLineSettings) (l1 l2 : string) :
  key_of l1 <> key_of l2 ->
  loadLine stod (loadLine stod s l1) l2 = loadLine stod (loadLine stod s l2) l1.
Proof.
  unfold key_of, loadLine.
  destruct (find "=" l1) as [p1|]; [|reflexivity].
  destruct (find "=" l2) as [p2|]; [|reflexivity].
  generalize (substr 0 p1 l1) as k1. generalize (substr 0 p2 l2) as k2.
  generalize (substr_from (p1 + 1) l1) as v1.
  generalize (substr_from (p2 + 1) l2) as v2.
  intros v2 v1 k2 k1 Hne.
  assert (Hk : k1 <> k2) by congruence. clear Hne.
  destruct s.
  destruct (stod v1) as [n1|], (stod v2) as [n2|];
    key_cases k1; key_cases k2; try reflexivity; try congruence.
Qed.

Lemma loadLine_no_key (s : ThickLineSettings) (line : string) :
  key_of line = None -> loadLine stod s line = s.
Proof.
  unfold key_of, loadLine.
  destruct (find "=" line); [intros H; discriminate H | reflexivity].
Qed.

(** A line sets at most the setting it names, to a value that does not
    depend on the record. *)
Lemma loadLine_agree_self (s : ThickLineSettings) (line : string) :
  agree_but (key_of line) s (loadLine stod s line).
Proof.
  unfold agree_but, key_of, loadLine.
  destruct (find "=" line) as [pos|]; [|repeat split; reflexivity].
  generalize (substr 0 pos line) as key.
  generalize (substr_from (pos + 1) line) as value.
  intros value key. destruct s.
  destruct (stod value) as [v|];
    key_cases key; repeat split; intros H;
    try reflexivity; exfalso; apply H; reflexivity.
Qed.

Lemma loadLine_agree (key : option string) (s s' : ThickLineSettings)
    (line : string) :
  agree_but key s s' ->
  agree_but key (loadLine stod s line) (loadLine stod s' line).
Proof.
  unfold agree_but, loadLine.
  destruct (find "=" line) as [pos|]; [|exact (fun H => H)].
  generalize (substr 0 pos line) as k.
  generalize (substr_from (pos + 1) line) as value.
  intros value k. destruct s, s'.
  cbn [Settings.width_cm Settings.featAType Settings.leadA_cm
       Settings.featAL_cm Settings.featAW_cm Settings.featBType
       Settings.leadB_cm Settings.featBL_cm Settings.featBW_cm].
  intros (H1 & H2 & H3 & H4 & H5 & H6 & H7 & H8 & H9).
  destruct (stod value) as [v|];
    key_cases k; repeat split; intros Hk; try reflexivity; auto.
Qed.

Lemma fold_loadLine_agree (key : option string) (ls : list string) :
  forall s s',
    agree_but key s s' ->
    agree_but key (fold_left (loadLine stod) ls s)
      (fold_left (loadLine stod) ls s').
Proof.
  induction ls as [|l ls IH]; intros s s' H; [exact H|].
  cbn [fold_left]. apply IH. now apply loadLine_agree.
Qed.

(** A line that takes effect brings two records that agree but on its own
    setting to the same record. *)
Lemma loadLine_decides (s s' : ThickLineSettings) (line : string) :
  agree_but (key_of line) s s' -> takes_effect stod line = true ->
  loadLine stod s line = loadLine stod s' line.
Proof.
  unfold agree_but, takes_effect, key_of, value_of, loadLine.
  destruct (find "=" line) as [pos|]; [|intros _ H; discriminate H].
  generalize (substr 0 pos line) as k.
  generalize (substr_from (pos + 1) line) as value.
  intros value k. destruct s, s'.
  cbn [Settings.width_cm Settings.featAType Settings.leadA_cm
       Settings.featAL_cm Settings.featAW_cm Settings.featBType
       Settings.leadB_cm Settings.featBL_cm Settings.featBW_cm
       existsb type_keys numeric_keys].
  intros (H1 & H2 & H3 & H4 & H5 & H6 & H7 & H8 & H9) He.
  destruct (stod value) as [v|];
    key_cases k; try discriminate He;
    repeat match goal with
           | H : Some _ <> Some _ -> _ |- _ =>
               first [ specialize (H ltac:(discriminate)) | clear H ]
           end; subst; reflexivity.
Qed.

Lemma fold_loadLine_permutation (ls1 ls2 : list string) :
  Permutation ls1 ls2 ->
  (forall l1 l2 key, In l1 ls1 -> In l2 ls1 ->
     key_of l1 = Some key -> key_of l2 = Some key -> l1 = l2) ->
  forall s,
    fold_left (loadLine stod) ls1 s = fold_left (loadLine stod) ls2 s.
Proof.
  induction 1 as [|a l l' Hp IH|a b l|l l' l'' Hp1 IH1 Hp2 IH2]; intros Hk s.
  - reflexivity.
  - cbn [fold_left]. apply IH. intros l1 l2 key H1 H2.
    apply Hk; now right.
  - cbn [fold_left]. f_equal.
    destruct (string_dec a b) as [->|Hab]; [reflexivity|].
    destruct (key_of b) as [kb|] eqn:Eb;
      [|now rewrite !(loadLine_no_key _ b Eb)].
    destruct (key_of a) as [ka|] eqn:Ea;
      [|now rewrite !(loadLine_no_key _ a Ea)].
    apply loadLine_commute. rewrite Ea, Eb. intros Hkey.
    injection Hkey as ->. apply Hab. symmetry.
    apply (Hk b a ka); [now left | right; now left | exact Eb | exact Ea].
  - rewrite (IH1 Hk s). apply IH2.
    intros l1 l2 key H1 H2. apply Hk; eapply Permutation_in;
      try (apply Permutation_sym; exact Hp1); assumption.
Qed.

(** X9.  When a key appears on two lines of the settings file, wherever
    they stand, the later line decides, provided it takes effect (it names
    a feature type, or one of the seven numbers with a value that
    [std::stod] reads): the file loads as it does without the earlier line.
    A later line that does not take effect leaves what the earlier one has
    set: the file loads as it does without the later line. *)
Theorem later_line_decides (w : bool) (before mid after : list string)
    (l1 l2 : string) :
  Forall (fun l => one_line l = true) (before ++ l1 :: mid ++ l2 :: after) ->
  key_of l1 = key_of l2 ->
  loadSettingsIni stod
    (mkSettingsFile w (Some (unlines (before ++ l1 :: mid ++ l2 :: after)))) =
  if takes_effect stod l2 then
    loadSettingsIni stod
      (mkSettingsFile w (Some (unlines (before ++ mid ++ l2 :: after))))
  else
    loadSettingsIni stod
      (mkSettingsFile w (Some (unlines (before ++ l1 :: mid ++ after)))).
Proof.
  intros Hall Hk.
  assert (H := Hall).
  apply Forall_app in H. destruct H as [Hb H].
  apply Forall_cons_iff in H. destruct H as [H1 H].
  apply Forall_app in H. destruct H as [Hm H].
  apply Forall_cons_iff in H. destruct H as [H2 Ha].
  rewrite (load_unlines stod w _ Hall).
  rewrite !fold_left_app. cbn [fold_left]. rewrite fold_left_app.
  cbn [fold_left].
  destruct (takes_effect stod l2) eqn:E.
  - rewrite load_unlines
      by (apply Forall_app; split; [exact Hb|];
          apply Forall_app; split; [exact Hm | now constructor]).
    rewrite !fold_left_app. cbn [fold_left]. f_equal.
    symmetry. apply loadLine_decides; [|exact E].
    rewrite <- Hk. apply fold_loadLine_agree. apply loadLine_agree_self.
  - rewrite load_unlines
      by (apply Forall_app; split; [exact Hb|]; constructor; [exact H1|];
          apply Forall_app; split; assumption).
    rewrite !fold_left_app. cbn [fold_left]. rewrite fold_left_app.
    now rewrite (loadLine_no_effect _ l2 E).
Qed.

(** X10.  The order of the lines of the settings file does not matter as
    long as no key appears on two different lines: two files with the same
    lines in any order load to the same settings.  (Lines without a
    separator have no key and may be repeated.) *)
Theorem line_order_irrelevant (w1 w2 : bool) (ls1 ls2 : list string) :
  Permutation ls1 ls2 ->
  (forall l1 l2 key, In l1 ls1 -> In l2 ls1 ->
     key_of l1 = Some key -> key_of l2 = Some key -> l1 = l2) ->
  Forall (fun l => one_line l = true) ls1 ->
  loadSettingsIni stod (mkSettingsFile w1 (Some (unlines ls1))) =
  loadSettingsIni stod (mkSettingsFile w2 (Some (unlines ls2))).
Proof.
  intros Hp Hk H1.
  rewrite (load_unlines stod w1 ls1 H1).
  rewrite (load_unlines stod w2 ls2 (Permutation_Forall Hp H1)).
  exact (fold_loadLine_permutation ls1 ls2 Hp Hk Settings.defaults).
Qed.

(** X11.  A line changes at most the setting that its key names: every
    other setting of the record is after the line what it was before. *)
Theorem line_changes_only_its_setting (s : ThickLineSettings) (line : string) :
  (key_of line <> Some "width_cm" ->
   Settings.width_cm (loadLine stod s line) = Settings.width_cm s) /\
  (key_of line <> Some "featAType" ->
   Settings.featAType (loadLine stod s line) = Settings.featAType s) /\
  (key_of line <> Some "leadA_cm" ->
   Settings.leadA_cm (loadLine stod s line) = Settings.leadA_cm s) /\
  (key_of line <> Some "featAL_cm" ->
   Settings.featAL_cm (loadLine stod s line) = Settings.featAL_cm s) /\
  (key_of line <> Some "featAW_cm" ->
   Settings.featAW_cm (loadLine stod s line) = Settings.featAW_cm s) /\
  (key_of line <> Some "featBType" ->
   Settings.featBType (loadLine stod s line) = Settings.featBType s) /\
  (key_of line <> Some "leadB_cm" ->
   Settings.leadB_cm (loadLine stod s line) = Settings.leadB_cm s) /\
  (key_of line <> Some "featBL_cm" ->
   Settings.featBL_cm (loadLine stod s line) = Settings.featBL_cm s) /\
  (key_of line <> Some "featBW_cm" ->
   Settings.featBW_cm (loadLine stod s line) = Settings.featBW_cm s).
Proof.
  unfold key_of, loadLine.
  destruct (find "=" line) as [pos|]; [|repeat split; reflexivity].
  generalize (substr 0 pos line) as key.
  generalize (substr_from (pos + 1) line) as value.
  intros value key. destruct s.
  destruct (stod value) as [v|];
    key_cases key; repeat split; intros H;
    try reflexivity; exfalso; apply H; reflexivity.
Qed.

End Lines.

(** ** The two directions *)

Module DoubleSum.
Local Open Scope float_scope.

Lemma SFmul_comm (a b : spec_float) : SF64mul a b = SF64mul b a.
Proof.
  unfold SF64mul, SFmul.
  destruct a as [sa|sa| |sa ma ea], b as [sb|sb| |sb mb eb];
    try reflexivity; try (now rewrite xorb_comm).
  now rewrite xorb_comm, Pos.mul_comm, Z.add_comm.
Qed.

Lemma SFadd_comm (a b : spec_float) : SF64add a b = SF64add b a.
Proof.
  unfold SF64add, SFadd.
  destruct a as [sa|sa| |sa ma ea], b as [sb|sb| |sb mb eb];
    try reflexivity; try (destruct sa, sb; reflexivity).
  cbv zeta. now rewrite (Z.min_comm ea eb), Z.add_comm.
Qed.

Lemma SFopp_involutive (a : spec_float) : SFopp (SFopp a) = a.
Proof. destruct a; cbn [SFopp]; now rewrite ?negb_involutive. Qed.

Lemma SFmul_opp_opp (a b : spec_float) :
  SF64mul (SFopp a) (SFopp b) = SF64mul a b.
Proof.
  rewrite Double.SFmul_opp_r, (SFmul_comm (SFopp a) b), Double.SFmul_opp_r.
  now rewrite SFopp_involutive, SFmul_comm.
Qed.

(** A number and its opposite add up to +0, unless they are infinite. *)
Lemma SFadd_opp_self (r : spec_float) :
  SF64add (SFopp r) r = S754_zero false \/ SF64add (SFopp r) r = S754_nan.
Proof.
  unfold SF64add, SFadd.
  destruct r as [s|s| |s m e]; cbn [SFopp].
  - left. destruct s; reflexivity.
  - right. destruct s; reflexivity.
  - right. reflexivity.
  - left. cbv zeta. rewrite Z.min_id.
    destruct s; cbn [negb cond_Zopp];
      [rewrite Z.add_opp_diag_r | rewrite Z.add_opp_diag_l]; reflexivity.
Qed.

Lemma mul_comm (a b : float) : a * b = b * a.
Proof. apply Prim2SF_inj. rewrite !mul_spec. apply SFmul_comm. Qed.

Lemma add_comm (a b : float) : a + b = b + a.
Proof. apply Prim2SF_inj. rewrite !add_spec. apply SFadd_comm. Qed.

Lemma mul_opp_opp (a b : float) : (- a) * (- b) = a * b.
Proof.
  apply Prim2SF_inj. rewrite !mul_spec, !opp_spec. apply SFmul_opp_opp.
Qed.

Lemma mul_opp_add_self (a b : float) :
  is_number (a * (- b) + b * a) = true -> a * (- b) + b * a = 0.
Proof.
  intros Hn. apply Prim2SF_inj.
  assert (E : Prim2SF (a * (- b) + b * a) =
              SF64add (SFopp (SF64mul (Prim2SF a) (Prim2SF b)))
                (SF64mul (Prim2SF a) (Prim2SF b))).
  { rewrite add_spec, !mul_spec, opp_spec, Double.SFmul_opp_r.
    now rewrite (SFmul_comm (Prim2SF b)). }
  destruct (SFadd_opp_self (SF64mul (Prim2SF a) (Prim2SF b))) as [H|H];
    rewrite H in E.
  - rewrite E. reflexivity.
  - apply Double.is_nan_Prim2SF in E. unfold is_number in Hn.
    rewrite E in Hn. discriminate Hn.
Qed.

End DoubleSum.

Lemma vlen_vperp_ccw (a : V2) : vlen (vperp_ccw a) = vlen a.
Proof.
  unfold vlen, vperp_ccw, v2. cbn [x y].
  now rewrite DoubleSum.mul_opp_opp, DoubleSum.add_comm.
Qed.

Lemma vdot_vperp_ccw (a : V2) :
  is_number (vdot a (vperp_ccw a)) = true -> vdot a (vperp_ccw a) = 0.
Proof.
  unfold vdot, vperp_ccw, v2. cbn [x y]. apply DoubleSum.mul_opp_add_self.
Qed.

(** X12.  In every record that [extractParams] produces, the width
    direction has exactly the length of the line direction, and the dot
    product of the two is exactly 0 whenever it is a number (it is NaN when
    a product of their components overflows or is undefined). *)
Theorem directions_perpendicular host inputs P0 err0 P err :
  extractParams host inputs P0 err0 = (true, P, err) ->
  vlen (Wdir P) = vlen (Ldir P) /\
  (is_number (vdot (Ldir P) (Wdir P)) = true -> vdot (Ldir P) (Wdir P) = 0).
Proof.
  intros HE.
  assert (HW : Wdir P = vperp_ccw (Ldir P)).
  { destruct (extractParams_true _ _ _ _ _ _ HE) as [sk [pa [pb [Hsk [HA HB]]]]].
    rewrite (extractParams_picked host inputs sk pa pb P0 err0 Hsk HA HB) in HE.
    cbv zeta in HE. cbn [L at_distance_test] in HE.
    destruct (vlen (vsub pb pa) <=? kEpsCoincident); [discriminate HE|].
    injection HE as <- _. params_cbv. reflexivity. }
  rewrite HW. split; [apply vlen_vperp_ccw | apply vdot_vperp_ccw].
Qed.

(** ** The dialog *)

(** The guarded assignments of [updateFeatureInputs] are assignments. *)
Lemma updateFeatureInputs_sets (dd : DropDownCommandInput.t)
    (w l : ValueCommandInput.t) :
  updateFeatureInputs (Some dd) (Some w) (Some l) =
  let active :=
    match DropDownCommandInput.selectedItem dd with
    | None => false
    | Some (index, _) => negb (Nat.eqb index 0)
    end in
  (Some (ValueCommandInput.set_isEnabled active w),
   Some (ValueCommandInput.set_isEnabled active l)).
Proof.
  unfold updateFeatureInputs. cbv zeta.
  destruct (DropDownCommandInput.selectedItem dd) as [[index n]|];
    [destruct (Nat.eqb index 0)|]; cbn [negb];
    destruct w as [wn wu wv wm [|]], l as [ln lu lv lm [|]]; reflexivity.
Qed.

(** X13.  For a drop-down with the items "None", "Arrow" and "T" in this
    order, [updateFeatureInputs] enables the width and the length input of
    the end exactly when [extractParams] reads them, that is when the name
    of the selected item is not "None"; with no item selected both are
    disabled.  It changes nothing else of the two inputs. *)
Theorem feature_inputs_follow_type (dd : DropDownCommandInput.t)
    (w l : ValueCommandInput.t) :
  map ListItem.name (DropDownCommandInput.listItems dd) = feature_types ->
  let type :=
    selected_name
      (Some (option_map snd (DropDownCommandInput.selectedItem dd))) in
  updateFeatureInputs (Some dd) (Some w) (Some l) =
    (Some (ValueCommandInput.set_isEnabled (neqb type "None") w),
     Some (ValueCommandInput.set_isEnabled (neqb type "None") l)).
Proof.
  intros Hn. rewrite updateFeatureInputs_sets. cbv zeta.
  destruct dd as [n items]. unfold DropDownCommandInput.selectedItem.
  cbn [DropDownCommandInput.listItems] in *.
  destruct items as [|[n0 s0] [|[n1 s1] [|[n2 s2] [|? ?]]]]; try discriminate Hn.
  cbn in Hn. injection Hn as -> -> ->.
  destruct s0, s1, s2; reflexivity.
Qed.

Lemma feature_inputs_follow_type_witness :
  updateFeatureInputs
    (Some (select_item 1
             (DropDownCommandInput.mk "Feature A Type"
                [ListItem.mk "None" true; ListItem.mk "Arrow" false;
                 ListItem.mk "T" false])))
    (Some (ValueCommandInput.mk "Feature A Width" "mm" 0.5 (Some 0) false))
    (Some (ValueCommandInput.mk "Feature A Length" "mm" 0.5 (Some 0) false))
  = (Some (ValueCommandInput.mk "Feature A Width" "mm" 0.5 (Some 0) true),
     Some (ValueCommandInput.mk "Feature A Length" "mm" 0.5 (Some 0) true)).
Proof.
  exact (feature_inputs_follow_type
    (select_item 1
       (DropDownCommandInput.mk "Feature A Type"
          [ListItem.mk "None" true; ListItem.mk "Arrow" false;
           ListItem.mk "T" false]))
    (ValueCommandInput.mk "Feature A Width" "mm" 0.5 (Some 0) false)
    (ValueCommandInput.mk "Feature A Length" "mm" 0.5 (Some 0) false)
    eq_refl).
Defined.

Section Opening.

Variable stod : string -> option float.

(** What the command-created handler leaves for the loaded settings. *)
Lemma commandCreated_inputs (file : SettingsFile) (events : CommandEvents) :
  let S := loadSettingsIni stod file in
  let selected t :=
    if existsb (String.eqb t) feature_types then Some t else None in
  Dialog.inputs (commandCreated_notify stod file events) =
    mkCommandInputs (Some (Settings.width_cm S)) (Some (Settings.leadA_cm S))
      (Some (Settings.leadB_cm S))
      (Some (selected (Settings.featAType S)))
      (Some (selected (Settings.featBType S)))
      (Some (Settings.featAW_cm S)) (Some (Settings.featAL_cm S))
      (Some (Settings.featBW_cm S)) (Some (Settings.featBL_cm S))
      (Some []) (Some []).
Proof.
  cbv zeta. unfold commandCreated_notify.
  generalize (loadSettingsIni stod file) as S. intros S.
  destruct S as [w tA la al aw tB lb bl bw].
  cbn [Settings.width_cm Settings.featAType Settings.leadA_cm
       Settings.featAL_cm Settings.featAW_cm Settings.featBType
       Settings.leadB_cm Settings.featBL_cm Settings.featBW_cm].
  unfold feature_types. cbn [existsb].
  destruct (String.eqb_spec tA "None") as [->|A0];
    [|destruct (String.eqb_spec tA "Arrow") as [->|A1];
      [|destruct (String.eqb_spec tA "T") as [->|A2]]];
  (destruct (String.eqb_spec tB "None") as [->|B0];
    [|destruct (String.eqb_spec tB "Arrow") as [->|B1];
      [|destruct (String.eqb_spec tB "T") as [->|B2]]]);
  destruct events as [[|] [|] [|]]; reflexivity.
Qed.

(** X14.  The dialog opens with the loaded settings: [extractParams] finds
    in it the stored width, leads and feature sizes, no selected entity, and
    for each end the stored type selected when it is "None", "Arrow" or "T"
    and no item selected otherwise, which it reads as "None".  Once the three
    event handlers are connected, the width and length inputs of an end are
    enabled exactly when that type is not "None"; when connecting a handler
    fails they stay disabled.  The error box is hidden and empty. *)
Theorem dialog_opens_with_settings (file : SettingsFile) (events : CommandEvents) :
  let S := loadSettingsIni stod file in
  let d := commandCreated_notify stod file events in
  let selected t :=
    if existsb (String.eqb t) feature_types then Some t else None in
  let wired := inputChanged events && validateInputs events && execute events in
  let activeA := wired && neqb (shown_type (Settings.featAType S)) "None" in
  let activeB := wired && neqb (shown_type (Settings.featBType S)) "None" in
  Dialog.inputs d =
    mkCommandInputs (Some (Settings.width_cm S)) (Some (Settings.leadA_cm S))
      (Some (Settings.leadB_cm S))
      (Some (selected (Settings.featAType S)))
      (Some (selected (Settings.featBType S)))
      (Some (Settings.featAW_cm S)) (Some (Settings.featAL_cm S))
      (Some (Settings.featBW_cm S)) (Some (Settings.featBL_cm S))
      (Some []) (Some []) /\
  selected_name (ddA (Dialog.inputs d)) = shown_type (Settings.featAType S) /\
  selected_name (ddB (Dialog.inputs d)) = shown_type (Settings.featBType S) /\
  ValueCommandInput.isEnabled (Dialog.aW d) = activeA /\
  ValueCommandInput.isEnabled (Dialog.aL d) = activeA /\
  ValueCommandInput.isEnabled (Dialog.bW d) = activeB /\
  ValueCommandInput.isEnabled (Dialog.bL d) = activeB /\
  TextBoxCommandInput.isVisible (Dialog.errorBox d) = false /\
  TextBoxCommandInput.formattedText (Dialog.errorBox d) = "".
Proof.
  cbv zeta. split; [apply commandCreated_inputs|].
  rewrite commandCreated_inputs. cbv zeta.
  cbn [ddA ddB selected_name].
  unfold commandCreated_notify.
  generalize (loadSettingsIni stod file) as S. intros S.
  destruct S as [w tA la al aw tB lb bl bw].
  cbn [Settings.width_cm Settings.featAType Settings.leadA_cm
       Settings.featAL_cm Settings.featAW_cm Settings.featBType
       Settings.leadB_cm Settings.featBL_cm Settings.featBW_cm].
  generalize (addValueInput "Width" "mm" w) as iw.
  generalize (addValueInput "Lead A" "mm" la) as ila.
  generalize (addValueInput "Lead B" "mm" lb) as ilb.
  generalize (addValueInput "Feature A Width" "mm" aw) as iaw.
  generalize (addValueInput "Feature A Length" "mm" al) as ial.
  generalize (addValueInput "Feature B Width" "mm" bw) as ibw.
  generalize (addValueInput "Feature B Length" "mm" bl) as ibl.
  intros ibl ibw ial iaw ilb ila iw.
  unfold shown_type, feature_types. cbn [existsb].
  destruct (String.eqb_spec tA "None") as [->|A0];
    [|destruct (String.eqb_spec tA "Arrow") as [->|A1];
      [|destruct (String.eqb_spec tA "T") as [->|A2]]];
  (destruct (String.eqb_spec tB "None") as [->|B0];
    [|destruct (String.eqb_spec tB "Arrow") as [->|B1];
      [|destruct (String.eqb_spec tB "T") as [->|B2]]]);
  destruct events as [[|] [|] [|]];
  vm_compute; repeat match goal with |- _ /\ _ => split end; reflexivity.
Qed.

End Opening.

(** X15.  The input-changed handler, whichever input has changed, changes
    nothing of the dialog but enabled flags of the four feature size
    inputs, the minimum of the two feature width inputs and the focus of
    selection B: the image, the groups, the width and lead inputs, the two
    drop-downs, selection A, the selected entities of selection B, the name,
    unit and value of each feature size input, the minimum of the feature
    lengths, the error box and the connected handlers are after the event
    what they were before.  In particular what [extractParams] reads is the
    same before and after. *)
Theorem inputChanged_keeps_values (changed : string) (d : Dialog.t) :
  changed_in_flags_only d (inputChanged_notify changed d) /\
  Dialog.inputs (inputChanged_notify changed d) = Dialog.inputs d /\
  Dialog.errorBox (inputChanged_notify changed d) = Dialog.errorBox d /\
  Dialog.handlers (inputChanged_notify changed d) = Dialog.handlers d.
Proof.
  unfold changed_in_flags_only, inputChanged_notify, updateFeatureInputsA,
    updateFeatureInputsB.
  destruct (changed =? kSelPointAId)%string;
  destruct (changed =? kFeatATypeId)%string;
  destruct (changed =? kFeatBTypeId)%string;
  destruct (changed =? kWidthId)%string;
  rewrite ?updateFeatureInputs_sets; cbv zeta;
  destruct d as [img wi gA gB sA lA dA aW aL sB lB dB bW bL eb hs];
  cbn [Dialog.selA Dialog.selB Dialog.ddA Dialog.ddB Dialog.aW Dialog.aL
       Dialog.bW Dialog.bL Dialog.widthInput Dialog.set_selB];
  try (destruct (Nat.eqb (SelectionCommandInput.selectionCount sA) 1));
  rewrite ?updateFeatureInputs_sets; cbv zeta;
  destruct aW, aL, bW, bL, sB;
  vm_compute; repeat match goal with |- _ /\ _ => split end; reflexivity.
Qed.

(** ** The error box *)

(** The validate-inputs handler hands the verdict and the message of
    [checked] to [syncErrorBox]. *)
Lemma validateInputs_checked host inputs errBox g :
  validateInputs_notify host inputs errBox g =
  (syncErrorBox errBox g (fst (fst (checked host inputs)))
     (snd (checked host inputs)),
   fst (fst (checked host inputs))).
Proof.
  unfold validateInputs_notify, checked.
  destruct (extractParams host inputs ThickLineParams_init "")
    as [[okE P] err].
  destruct okE; [destruct (validateParams P err) as [ok err']|];
    cbn [fst snd]; destruct (syncErrorBox _ _ _ _); reflexivity.
Qed.

Lemma neqb_refl (a : string) : neqb a a = false.
Proof. unfold neqb. now rewrite String.eqb_refl. Qed.

Lemma neqb_true (a b : string) : neqb a b = true <-> a <> b.
Proof.
  unfold neqb. destruct (String.eqb_spec a b); cbn; split; congruence.
Qed.

(** One call of [syncErrorBox] on a box in step with the cache, for a
    verdict that comes with an empty message exactly when it is positive. *)
Lemma syncErrorBox_in_step (errBox : TextBoxCommandInput.t) (g : ErrState)
    (valid : bool) (msg : string) :
  box_in_step errBox g ->
  (valid = true -> msg = "") -> (valid = false -> msg <> "") ->
  exists b,
    syncErrorBox (Some errBox) g valid msg = (Some b, mkErrState valid msg) /\
    TextBoxCommandInput.isVisible b = negb valid /\
    (valid = false -> TextBoxCommandInput.formattedText b = error_text msg) /\
    box_in_step b (mkErrState valid msg).
Proof.
  unfold box_in_step, syncErrorBox. cbv zeta.
  destruct errBox as [n t r ro fw vis]. cbn [TextBoxCommandInput.isVisible
    TextBoxCommandInput.formattedText lastMsg].
  intros Hstep Hv Hi. destruct valid; cbn [negb andb].
  - rewrite (Hv eq_refl). destruct vis; cbn [Bool.eqb negb];
      eexists; (split; [reflexivity|]);
      cbn; repeat split; intros H; discriminate H.
  - specialize (Hi eq_refl).
    destruct (String.eqb_spec (lastMsg g) msg) as [E|E].
    + rewrite E, neqb_refl. destruct vis; cbn [Bool.eqb negb].
      * eexists; (split; [reflexivity|]). cbn. rewrite <- E.
        repeat split; intros; exact Hstep.
      * exfalso. apply Hi. rewrite <- E. exact Hstep.
    + rewrite (proj2 (neqb_true _ _) E).
      destruct vis; cbn [Bool.eqb negb];
        eexists; (split; [reflexivity|]); cbn; repeat split.
Qed.

(** X16.  Starting from an error box in step with the message cache (as
    they are when the add-in starts and a dialog opens: box hidden, cache
    empty), the validate-inputs handler reports as verdict whether
    extraction and validation succeed, shows the error box exactly when they
    do not, with the text "<font color='#d32f2f'>Error: " + message +
    "</font>" for the message of the failure, and leaves box and cache in
    step again. *)
Theorem error_box_shows_reason host inputs (errBox : TextBoxCommandInput.t)
    (g : ErrState) :
  box_in_step errBox g ->
  let r := validateInputs_notify host inputs (Some errBox) g in
  snd r = fst (fst (checked host inputs)) /\
  exists b,
    fst (fst r) = Some b /\
    TextBoxCommandInput.isVisible b = negb (snd r) /\
    (snd r = false ->
     TextBoxCommandInput.formattedText b =
       error_text (snd (checked host inputs))) /\
    box_in_step b (snd (fst r)).
Proof.
  intros Hstep. cbv zeta. rewrite validateInputs_checked. cbn [fst snd].
  split; [reflexivity|].
  destruct (syncErrorBox_in_step errBox g (fst (fst (checked host inputs)))
              (snd (checked host inputs)) Hstep) as [b [Hs [Hv [Ht Hb]]]].
  - intros H. now destruct (checked_true host inputs H) as [P [-> _]].
  - exact (checked_false host inputs).
  - exists b. rewrite Hs. cbn [fst snd]. repeat split; assumption.
Qed.

(** X17.  The message cache outlives the dialog.  When a validation has
    failed with some message and the command is started again, the new
    dialog's error box is hidden and empty; if the first validation of the
    new dialog fails with the same message, the handler makes the box
    visible but does not write the message, so that the box shows an empty
    text while reporting the inputs as invalid. *)
Theorem reopened_dialog_error_is_empty (stod : string -> option float)
    host inputs host' inputs' (errBox : option TextBoxCommandInput.t)
    (g : ErrState) (file : SettingsFile) (events : CommandEvents) :
  errBox <> None ->
  fst (fst (checked host inputs)) = false ->
  fst (fst (checked host' inputs')) = false ->
  snd (checked host' inputs') = snd (checked host inputs) ->
  let g1 := snd (fst (validateInputs_notify host inputs errBox g)) in
  let d := commandCreated_notify stod file events in
  let r := validateInputs_notify host' inputs' (Some (Dialog.errorBox d)) g1 in
  snd r = false /\
  exists b,
    fst (fst r) = Some b /\
    TextBoxCommandInput.isVisible b = true /\
    TextBoxCommandInput.formattedText b = "".
Proof.
  intros Hbox H1 H2 Hmsg. cbv zeta.
  rewrite !validateInputs_checked. cbn [fst snd].
  rewrite H1, H2, Hmsg.
  destruct errBox as [eb|]; [|contradiction].
  split; [reflexivity|].
  unfold syncErrorBox at 2. cbv zeta. cbn [snd lastMsg negb andb].
  unfold syncErrorBox. cbv zeta. cbn [negb andb lastMsg].
  rewrite neqb_refl.
  eexists. split; [reflexivity|].
  unfold commandCreated_notify.
  destruct events as [[|] [|] [|]]; split; reflexivity.
Qed.

Lemma app_cons_neq {T : Type} (l r : list T) (a : T) : (l ++ a :: r)%list <> l.
Proof.
  induction l as [|c l IH]; cbn [app]; intros H; [discriminate H|].
  injection H as H. exact (IH H).
Qed.

(** X18.  The two handlers agree: the validate-inputs handler reports the
    inputs as invalid exactly when the command handler, run on the same
    inputs, leaves the sketch as it is. *)
Theorem invalid_iff_nothing_drawn (put_double : float -> string)
    host inputs (errBox : option TextBoxCommandInput.t) (g : ErrState)
    (sketchCurves : list SketchCurve) (file : SettingsFile) :
  snd (validateInputs_notify host inputs errBox g) = false <->
  curves (notify put_double host inputs sketchCurves file) = sketchCurves.
Proof.
  rewrite validateInputs_checked. cbn [snd].
  destruct (fst (fst (checked host inputs))) eqn:Hok.
  - split; [intros H; discriminate H|].
    intros H. exfalso. revert H.
    unfold checked in Hok. unfold notify.
    destruct (extractParams host inputs ThickLineParams_init "")
      as [[okE P] err].
    destruct okE; [|discriminate Hok].
    destruct (validateParams P err) as [ok err']. cbn [fst snd] in Hok.
    subst ok. cbn [negb curves].
    destruct (featAType P =? "Arrow")%string;
      [|destruct (featAType P =? "T")%string];
      (destruct (featBType P =? "Arrow")%string;
        [|destruct (featBType P =? "T")%string]);
      unfold drawThreePointRect, drawTriangle;
      rewrite <- ?app_assoc; cbn [app]; apply app_cons_neq.
  - split; [intros _|reflexivity].
    now rewrite (notify_false put_double host inputs sketchCurves file Hok).
Qed.

(** ** From one run to the next *)

(** [extractParams] depends on the inputs through the settings of the run
    and the two selections only. *)
Lemma extractParams_agree host (i1 i2 : CommandInputs) P0 err0 :
  run_settings i1 = run_settings i2 ->
  selA i1 = selA i2 -> selB i1 = selB i2 ->
  extractParams host i1 P0 err0 = extractParams host i2 P0 err0.
Proof.
  unfold run_settings. cbv zeta. intros HS HA HB.
  injection HS as Hw HtA Hla Hal Haw HtB Hlb Hbl Hbw.
  destruct P0. params_cbv.
  rewrite Hw, Hla, Hal, Haw, Hlb, Hbl, Hbw, HtA, HtB, HA, HB.
  reflexivity.
Qed.

Lemma user_picks_inputs (sa sb : list (option Base)) (d : Dialog.t) :
  Dialog.inputs (user_picks sa sb d) =
  mkCommandInputs (widthIn (Dialog.inputs d)) (leadAIn (Dialog.inputs d))
    (leadBIn (Dialog.inputs d)) (ddA (Dialog.inputs d)) (ddB (Dialog.inputs d))
    (featAWIn (Dialog.inputs d)) (featALIn (Dialog.inputs d))
    (featBWIn (Dialog.inputs d)) (featBLIn (Dialog.inputs d))
    (Some sa) (Some sb).
Proof. reflexivity. Qed.

Lemma selected_shown (t : string) :
  selected_name
    (Some (if existsb (String.eqb t) feature_types then Some t else None))
  = shown_type t.
Proof.
  unfold shown_type. destruct (existsb (String.eqb t) feature_types); reflexivity.
Qed.

Lemma shown_type_variant (t : string) : In t feature_types -> shown_type t = t.
Proof.
  unfold shown_type, feature_types. cbn [In existsb].
  intros [<-|[<-|[<-|[]]]]; reflexivity.
Qed.

(** X19.  After a successful command on a writable settings file, the
    dialog that the next start of the command opens holds the settings of
    that run: once the user has selected the same entities again,
    [extractParams] and the command handler do on the new dialog exactly
    what they did on the old one.  This needs the two types to be among
    "None", "Arrow" and "T", and each number to be written as text that
    reads back as the same number. *)
Theorem reopened_dialog_repeats_run (put_double : float -> string)
    (stod : string -> option float) host inputs
    (sketchCurves : list SketchCurve) (file : SettingsFile)
    (events : CommandEvents) (sa sb : list (option Base)) :
  fst (fst (checked host inputs)) = true ->
  can_write file = true ->
  all_read_back put_double stod (run_settings inputs) ->
  In (selected_name (ddA inputs)) feature_types ->
  In (selected_name (ddB inputs)) feature_types ->
  selA inputs = Some sa -> selB inputs = Some sb ->
  let saved := settingsFile (notify put_double host inputs sketchCurves file) in
  let d := user_picks sa sb (commandCreated_notify stod saved events) in
  (forall P0 err0,
     extractParams host (Dialog.inputs d) P0 err0 =
     extractParams host inputs P0 err0) /\
  (forall sketchCurves' file',
     notify put_double host (Dialog.inputs d) sketchCurves' file' =
     notify put_double host inputs sketchCurves' file').
Proof.
  intros Hok Hw Hrb HtA HtB HsA HsB. cbv zeta.
  assert (HX : forall P0 err0,
    extractParams host
      (Dialog.inputs
         (user_picks sa sb
            (commandCreated_notify stod
               (settingsFile (notify put_double host inputs sketchCurves file))
               events))) P0 err0 =
    extractParams host inputs P0 err0).
  { intros P0 err0. apply extractParams_agree.
    - rewrite user_picks_inputs.
      pose proof (commandCreated_inputs stod
        (settingsFile (notify put_double host inputs sketchCurves file)) events)
        as HI.
      cbv zeta in HI. rewrite HI. clear HI.
      rewrite (notify_file put_double host inputs sketchCurves file Hok Hw).
      rewrite (load_settingsText put_double stod true _ Hrb).
      unfold run_settings at 1. cbv zeta.
      cbn [widthIn leadAIn leadBIn ddA ddB featAWIn featALIn featBWIn featBLIn
           value_or_zero].
      rewrite !selected_shown.
      unfold run_settings.
      cbn [Settings.width_cm Settings.featAType Settings.leadA_cm
           Settings.featAL_cm Settings.featAW_cm Settings.featBType
           Settings.leadB_cm Settings.featBL_cm Settings.featBW_cm].
      rewrite (shown_type_variant _ HtA), (shown_type_variant _ HtB).
      destruct (neqb (selected_name (ddA inputs)) "None");
        destruct (neqb (selected_name (ddB inputs)) "None"); reflexivity.
    - rewrite user_picks_inputs. cbn [selA]. now rewrite HsA.
    - rewrite user_picks_inputs. cbn [selB]. now rewrite HsB. }
  split; [exact HX|].
  intros sketchCurves' file'. unfold notify. now rewrite HX.
Qed.

(** ** The properties on the two sample dialogs *)

Lemma nothing_picked_fails :
  fst (fst (checked plain_host nothing_picked)) = false.
Proof. vm_compute. reflexivity. Qed.

Lemma arrow_run_succeeds :
  fst (fst (checked plain_host arrow_run)) = true.
Proof. vm_compute. reflexivity. Qed.

Lemma arrow_run_reads_back :
  all_read_back Cxx.put_double Cxx.stod (run_settings arrow_run).
Proof.
  unfold all_read_back, reads_back.
  repeat match goal with |- _ /\ _ => split end; vm_compute; reflexivity.
Qed.

Lemma notify_invalid_changes_nothing_witness :
  curves (notify Cxx.put_double plain_host nothing_picked []
            (mkSettingsFile true None)) = [] /\
  settingsFile (notify Cxx.put_double plain_host nothing_picked []
                  (mkSettingsFile true None)) = mkSettingsFile true None /\
  logged (notify Cxx.put_double plain_host nothing_picked []
            (mkSettingsFile true None)) =
    ["[ThickLine] Command failed: " ++
     snd (checked plain_host nothing_picked) ++ endl] /\
  snd (checked plain_host nothing_picked) <> "".
Proof.
  exact (notify_invalid_changes_nothing Cxx.put_double plain_host
           nothing_picked [] (mkSettingsFile true None) nothing_picked_fails).
Defined.

Lemma notify_valid_curves_witness :
  curves (notify Cxx.put_double plain_host arrow_run []
            (mkSettingsFile true None)) =
    [ThreePointRectangle (mkPoint3D 2 1 0) (mkPoint3D 10 1 0)
       (mkPoint3D 2 (-1) 0) true;
     Line (mkPoint3D 2 2 0) (mkPoint3D 0 0 0) true;
     Line (mkPoint3D 0 0 0) (mkPoint3D 2 (-2) 0) true;
     Line (mkPoint3D 2 (-2) 0) (mkPoint3D 2 2 0) true].
Proof.
  rewrite (notify_valid_curves Cxx.put_double plain_host arrow_run []
             (mkSettingsFile true None) arrow_run_succeeds).
  vm_compute. reflexivity.
Defined.

Lemma notify_valid_saves_witness :
  let P := snd (fst (checked plain_host arrow_run)) in
  settingsFile (notify Cxx.put_double plain_host arrow_run []
                  (mkSettingsFile false None)) =
    (if can_write (mkSettingsFile false None) then
       mkSettingsFile true (Some (settingsText Cxx.put_double (settings_of P)))
     else mkSettingsFile false None) /\
  logged (notify Cxx.put_double plain_host arrow_run []
            (mkSettingsFile false None)) =
    ["[ThickLine] Settings saved to: " ++ settingsPath plain_host].
Proof.
  exact (notify_valid_saves Cxx.put_double plain_host arrow_run []
           (mkSettingsFile false None) arrow_run_succeeds).
Defined.

Lemma settings_of_last_run_witness :
  loadSettingsIni Cxx.stod
    (settingsFile (notify Cxx.put_double plain_host arrow_run []
                     (mkSettingsFile true None)))
  = run_settings arrow_run.
Proof.
  exact (settings_of_last_run Cxx.put_double Cxx.stod plain_host arrow_run []
           (mkSettingsFile true None) arrow_run_succeeds eq_refl
           arrow_run_reads_back).
Defined.

Lemma later_line_decides_witness :
  loadSettingsIni Cxx.stod
    (mkSettingsFile true
       (Some (unlines (["# settings"] ++ "width_cm=1" ::
                       ["featAType=T"; "leadA_cm=3"] ++ "width_cm=2" ::
                       ["width_cm=oops"])))) =
  Settings.mk 2 "T" 3 0.5 0.5 "None" 0 0.5 0.5.
Proof.
  rewrite (later_line_decides Cxx.stod true ["# settings"]
             ["featAType=T"; "leadA_cm=3"] ["width_cm=oops"]
             "width_cm=1" "width_cm=2");
    [vm_compute; reflexivity | repeat constructor | reflexivity].
Defined.

Lemma line_order_irrelevant_witness :
  loadSettingsIni Cxx.stod
    (mkSettingsFile true
       (Some (unlines ["# a"; "# b"; "width_cm=1"; "featAType=T"]))) =
  loadSettingsIni Cxx.stod
    (mkSettingsFile true
       (Some (unlines ["# b"; "# a"; "featAType=T"; "width_cm=1"]))).
Proof.
  apply (line_order_irrelevant Cxx.stod true true
           ["# a"; "# b"; "width_cm=1"; "featAType=T"]
           ["# b"; "# a"; "featAType=T"; "width_cm=1"]).
  - apply perm_trans with (l' := ["# b"; "# a"; "width_cm=1"; "featAType=T"]);
      [apply perm_swap | do 2 apply perm_skip; apply perm_swap].
  - intros l1 l2 key [<-|[<-|[<-|[<-|[]]]]] [<-|[<-|[<-|[<-|[]]]]] H1 H2;
      try reflexivity; vm_compute in H1, H2; congruence.
  - repeat constructor.
Defined.

Lemma directions_perpendicular_witness :
  vlen (Wdir (sample "None" 0 0 "None" 0 0)) =
    vlen (Ldir (sample "None" 0 0 "None" 0 0)) /\
  vdot (Ldir (sample "None" 0 0 "None" 0 0))
    (Wdir (sample "None" 0 0 "None" 0 0)) = 0.
Proof.
  assert (HE : extractParams plain_host
    (dialog (v2 0 0) (v2 10 0) 2 0 0 "None" (Some 0) (Some 0) "None" (Some 0) (Some 0))
    ThickLineParams_init "" = (true, sample "None" 0 0 "None" 0 0, ""))
    by (vm_compute; reflexivity).
  destruct (directions_perpendicular _ _ _ _ _ _ HE) as [H1 H2].
  split; [exact H1 | apply H2; vm_compute; reflexivity].
Defined.

Lemma error_box_shows_reason_witness :
  let r :=
    validateInputs_notify plain_host nothing_picked (Some hidden_errorBox)
      g_ErrState_init in
  snd r = fst (fst (checked plain_host nothing_picked)) /\
  exists b,
    fst (fst r) = Some b /\
    TextBoxCommandInput.isVisible b = negb (snd r) /\
    (snd r = false ->
     TextBoxCommandInput.formattedText b =
       error_text (snd (checked plain_host nothing_picked))) /\
    box_in_step b (snd (fst r)).
Proof.
  exact (error_box_shows_reason plain_host nothing_picked hidden_errorBox
           g_ErrState_init eq_refl).
Defined.

Lemma reopened_dialog_error_is_empty_witness :
  let g1 :=
    snd (fst (validateInputs_notify plain_host nothing_picked
                (Some hidden_errorBox) g_ErrState_init)) in
  let d :=
    commandCreated_notify Cxx.stod (mkSettingsFile true None)
      (mkCommandEvents true true true) in
  let r :=
    validateInputs_notify plain_host nothing_picked
      (Some (Dialog.errorBox d)) g1 in
  snd r = false /\
  exists b,
    fst (fst r) = Some b /\
    TextBoxCommandInput.isVisible b = true /\
    TextBoxCommandInput.formattedText b = "".
Proof.
  apply (reopened_dialog_error_is_empty Cxx.stod plain_host nothing_picked
           plain_host nothing_picked (Some hidden_errorBox) g_ErrState_init
           (mkSettingsFile true None) (mkCommandEvents true true true)).
  - discriminate.
  - exact nothing_picked_fails.
  - exact nothing_picked_fails.
  - reflexivity.
Defined.

Lemma reopened_dialog_repeats_run_witness :
  notify Cxx.put_double plain_host
    (Dialog.inputs
       (user_picks [Some (SketchPoint (mkPoint3D 0 0 0))]
          [Some (SketchPoint (mkPoint3D 10 0 0))]
          (commandCreated_notify Cxx.stod
             (settingsFile (notify Cxx.put_double plain_host arrow_run []
                              (mkSettingsFile true None)))
             (mkCommandEvents true true true))))
    [] (mkSettingsFile true None)
  = notify Cxx.put_double plain_host arrow_run [] (mkSettingsFile true None).
Proof.
  apply (proj2 (reopened_dialog_repeats_run Cxx.put_double Cxx.stod plain_host
           arrow_run [] (mkSettingsFile true None)
           (mkCommandEvents true true true)
           [Some (SketchPoint (mkPoint3D 0 0 0))]
           [Some (SketchPoint (mkPoint3D 10 0 0))]
           arrow_run_succeeds eq_refl arrow_run_reads_back
           (or_intror (or_introl eq_refl)) (or_introl eq_refl)
           eq_refl eq_refl)).
Defined.
